(** * Excelera backend: the spreadsheet utilities of [src/utils/excelProcessor.js]

    The three exported functions, [processExcelFile], [validateExcelData] and
    [getColumnStatistics], are embedded as Rocq functions over a model of the
    JavaScript values they handle.  JavaScript numbers are IEEE 754 binary64
    values, so they are Rocq's primitive floats; the built-in operations the
    code calls ([typeof], [Number], [isNaN], [Math.min], [Math.max], [Set],
    [Object.keys], property lookup) follow ECMA-262.  What ECMA-262 leaves
    to the engine, the number of arguments a call takes, is a parameter.

    Around them, the development covers the upload route of [routes/excel.js],
    which calls the three functions, the admin middleware of
    [middleware/adminAuth.js], and the check of the email's format in
    [routes/auth.js].  What these call of Mongoose, multer and jsonwebtoken
    is a type class whose instances are the possible behaviours. *)

From Stdlib Require Import ZArith NArith QArith Qpower List String Ascii Floats Uint63 Lia Bool
  Permutation.
From stdpp Require Import base gmap strings.
Import ListNotations.
Local Open Scope Z_scope.

(** ** JavaScript values *)

Module JS.

(** The only objects a cell lookup can produce: a row is a plain object, so a
    key that is not an own property is looked up on [Object.prototype]. *)
Inductive object_ref :=
| Object_prototype
| Object_prototype_function (name : string).

Inductive value :=
| VUndefined
| VNull
| VBoolean (b : bool)
| VNumber (n : float)
| VString (s : string)
| VObject (o : object_ref).

(** A plain object with string keys: its own enumerable properties, in the
    order [Object.keys] lists them, and its own properties that are not
    enumerable (a row the xlsx package builds has one, [__rowNum__]). *)
Record object := {
  properties : list (string * value);
  non_enumerable : list (string * value)
}.

(** [{k: v, ...}] *)
Definition literal (entries : list (string * value)) : object :=
  {| properties := entries; non_enumerable := [] |}.

(** [{}] *)
Definition empty_object : object := literal [].

Definition Object_keys (o : object) : list string := List.map fst (properties o).

Fixpoint property_of (entries : list (string * value)) (k : string) : option value :=
  match entries with
  | [] => None
  | (k', v) :: rest => if String.eqb k' k then Some v else property_of rest k
  end.

(** An own property, enumerable or not. *)
Definition own_property (o : object) (k : string) : option value :=
  match property_of (properties o) k with
  | Some v => Some v
  | None => property_of (non_enumerable o) k
  end.

Definition Object_prototype_functions : list string :=
  [ "constructor"; "hasOwnProperty"; "isPrototypeOf"; "propertyIsEnumerable";
    "toLocaleString"; "toString"; "valueOf"; "__defineGetter__";
    "__defineSetter__"; "__lookupGetter__"; "__lookupSetter__" ]%string.

Definition Object_prototype_get (k : string) : value :=
  if String.eqb k "__proto__" then VObject Object_prototype
  else if List.existsb (String.eqb k) Object_prototype_functions
       then VObject (Object_prototype_function k)
       else VUndefined.

(** [o[k]] *)
Definition get (o : object) (k : string) : value :=
  match own_property o k with
  | Some v => v
  | None => Object_prototype_get k
  end.

(** [acc[k] = tag] on a plain object holding strings ([columnTypes]):
    assigning a primitive to [__proto__] runs the inherited setter, which
    ignores it; every other key becomes (or updates) an own property. *)
Definition set (acc : gmap string string) (k : string) (tag : string)
  : gmap string string :=
  if String.eqb k "__proto__" then acc else <[k := tag]> acc.

Definition typeof (v : value) : string :=
  match v with
  | VUndefined => "undefined"
  | VNull => "object"
  | VBoolean _ => "boolean"
  | VNumber _ => "number"
  | VString _ => "string"
  | VObject Object_prototype => "object"
  | VObject (Object_prototype_function _) => "function"
  end.

(** *** StringToNumber (ECMA-262, 7.1.4.1.1); strings hold UTF-8 text *)

Definition code (c : ascii) : N := N_of_ascii c.

Definition is_ascii_ws (c : ascii) : bool :=
  let n := code c in
  ((n =? 9) || (n =? 10) || (n =? 11) || (n =? 12) || (n =? 13) || (n =? 32))%N.

(** U+00A0 *)
Definition is_ws2 (a b : ascii) : bool :=
  ((code a =? 194) && (code b =? 160))%N.

(** U+1680, U+2000..U+200A, U+2028, U+2029, U+202F, U+205F, U+3000, U+FEFF *)
Definition is_ws3 (a b c : ascii) : bool :=
  let x := code a in
  let y := code b in
  let z := code c in
  (((x =? 225) && (y =? 154) && (z =? 128))
   || ((x =? 226) && (y =? 128)
       && (((128 <=? z) && (z <=? 138)) || (z =? 168) || (z =? 169) || (z =? 175)))
   || ((x =? 226) && (y =? 129) && (z =? 159))
   || ((x =? 227) && (y =? 128) && (z =? 128))
   || ((x =? 239) && (y =? 187) && (z =? 191)))%N.

Fixpoint skip_ws (l : list ascii) : list ascii :=
  match l with
  | [] => []
  | a :: l1 =>
    if is_ascii_ws a then skip_ws l1 else
    match l1 with
    | b :: l2 =>
      if is_ws2 a b then skip_ws l2 else
      match l2 with
      | c :: l3 => if is_ws3 a b c then skip_ws l3 else l
      | [] => l
      end
    | [] => l
    end
  end.

Definition digit_value (base : N) (c : ascii) : option N :=
  let n := code c in
  let v := if ((48 <=? n) && (n <=? 57))%N then Some (n - 48)%N
           else if ((97 <=? n) && (n <=? 102))%N then Some (n - 87)%N
           else if ((65 <=? n) && (n <=? 70))%N then Some (n - 55)%N
           else None in
  match v with
  | Some d => if (d <? base)%N then Some d else None
  | None => None
  end.

(** The longest run of digits: its value on top of [acc], how many digits
    were read, and what follows. *)
Fixpoint digits (base acc : N) (count : nat) (l : list ascii)
  : N * nat * list ascii :=
  match l with
  | c :: r =>
    match digit_value base c with
    | Some d => digits base (acc * base + d)%N (S count) r
    | None => (acc, count, l)
    end
  | [] => (acc, count, [])
  end.

Fixpoint strip_prefix (p l : list ascii) : option (list ascii) :=
  match p, l with
  | [], _ => Some l
  | a :: p', b :: l' => if Ascii.eqb a b then strip_prefix p' l' else None
  | _ :: _, [] => None
  end.

(** The binary64 value nearest to [p / q], ties to even. *)
Definition round_ratio (p q : positive) : spec_float :=
  let '(m, e, l) := SFdiv_core_binary prec emax (Zpos p) 0 (Zpos q) 0 in
  binary_round_aux prec emax false m e l.

(** The binary64 value nearest to [m * 10 ^ k], ties to even (the digits
    are all taken into account, however many). *)
Definition Number_of_decimal (m : N) (k : Z) : float :=
  match m with
  | N0 => 0%float
  | Npos p =>
    match k with
    | Zneg k' => SF2Prim (round_ratio p (10 ^ k'))
    | _ => SF2Prim (binary_round prec emax false (p * Z.to_pos (10 ^ k)) 0)
    end
  end.

Definition ExponentPart (l : list ascii) : Z * list ascii :=
  match l with
  | c :: r =>
    if Ascii.eqb c "e" || Ascii.eqb c "E" then
      let '(neg, r1) :=
        match r with
        | s :: r' =>
          if Ascii.eqb s "-" then (true, r')
          else if Ascii.eqb s "+" then (false, r') else (false, r)
        | [] => (false, r)
        end in
      let '(v, n, r2) := digits 10 0 0 r1 in
      match n with
      | O => (0, l)
      | S _ => ((if neg : bool then - Z.of_N v else Z.of_N v), r2)
      end
    else (0, l)
  | [] => (0, l)
  end.

Definition StrUnsignedDecimalLiteral (l : list ascii)
  : option (float * list ascii) :=
  match strip_prefix (list_ascii_of_string "Infinity") l with
  | Some r => Some (infinity, r)
  | None =>
    let '(i, ni, r1) := digits 10 0 0 l in
    let '(m, nf, r2) :=
      match r1 with
      | c :: r => if Ascii.eqb c "." then digits 10 i 0 r else (i, O, r1)
      | [] => (i, O, r1)
      end in
    match ni, nf with
    | O, O => None
    | _, _ =>
      let '(e, r3) := ExponentPart r2 in
      Some (Number_of_decimal m (e - Z.of_nat nf), r3)
    end
  end.

Definition StrDecimalLiteral (l : list ascii) : option (float * list ascii) :=
  match l with
  | c :: r =>
    if Ascii.eqb c "+" then StrUnsignedDecimalLiteral r
    else if Ascii.eqb c "-" then
      match StrUnsignedDecimalLiteral r with
      | Some (x, r') => Some ((- x)%float, r')
      | None => None
      end
    else StrUnsignedDecimalLiteral l
  | [] => None
  end.

Definition NonDecimalIntegerLiteral (l : list ascii)
  : option (float * list ascii) :=
  match l with
  | z :: b :: r =>
    if Ascii.eqb z "0" then
      let base :=
        if Ascii.eqb b "x" || Ascii.eqb b "X" then Some 16%N
        else if Ascii.eqb b "o" || Ascii.eqb b "O" then Some 8%N
        else if Ascii.eqb b "b" || Ascii.eqb b "B" then Some 2%N
        else None in
      match base with
      | Some base =>
        let '(v, n, r') := digits base 0 0 r in
        match n with
        | O => None
        | S _ => Some (Number_of_decimal v 0, r')
        end
      | None => None
      end
    else None
  | _ => None
  end.

Definition StrNumericLiteral (l : list ascii) : option (float * list ascii) :=
  match NonDecimalIntegerLiteral l with
  | Some r => Some r
  | None => StrDecimalLiteral l
  end.

Definition StringToNumber (s : string) : float :=
  match skip_ws (list_ascii_of_string s) with
  | [] => 0%float
  | l =>
    match StrNumericLiteral l with
    | Some (x, rest) =>
      match skip_ws rest with
      | [] => x
      | _ :: _ => nan
      end
    | None => nan
    end
  end.

(** *** ToNumber (ECMA-262, 7.1.4) *)
Definition ToNumber (v : value) : float :=
  match v with
  | VUndefined => nan
  | VNull => 0%float
  | VBoolean true => 1%float
  | VBoolean false => 0%float
  | VNumber n => n
  | VString s => StringToNumber s
  | VObject _ => nan   (* toString gives "[object Object]" or "function ...() { [native code] }" *)
  end.

Definition Number (v : value) : float := ToNumber v.

Definition isNaN (v : value) : bool := is_nan (ToNumber v).

End JS.

(** ** Built-in operations on numbers and collections *)

Module Builtins.
Import JS.

Definition is_neg_zero (x : float) : bool := PrimFloat.Leibniz.eqb x neg_zero.
Definition is_pos_zero (x : float) : bool := PrimFloat.Leibniz.eqb x zero.

(** [Math.min(...numbers)] (ECMA-262, 21.3.2.25), on arguments that are
    already numbers. *)
Fixpoint Math_min_from (lowest : float) (numbers : list float) : float :=
  match numbers with
  | [] => lowest
  | number :: rest =>
    if is_nan number then nan
    else
      let lowest :=
        if is_neg_zero number && is_pos_zero lowest then neg_zero else lowest in
      let lowest := if (number <? lowest)%float then number else lowest in
      Math_min_from lowest rest
  end.

Definition Math_min (numbers : list float) : float :=
  Math_min_from infinity numbers.

(** [Math.max(...numbers)] (ECMA-262, 21.3.2.24). *)
Fixpoint Math_max_from (highest : float) (numbers : list float) : float :=
  match numbers with
  | [] => highest
  | number :: rest =>
    if is_nan number then nan
    else
      let highest :=
        if is_pos_zero number && is_neg_zero highest then zero else highest in
      let highest := if (highest <? number)%float then number else highest in
      Math_max_from highest rest
  end.

Definition Math_max (numbers : list float) : float :=
  Math_max_from neg_infinity numbers.

(** An array length as a number; lengths are below [2 ^ 32]. *)
Definition Number_of_length (n : nat) : float :=
  PrimFloat.of_uint63 (Uint63.of_Z (Z.of_nat n)).

Definition object_ref_eqb (a b : object_ref) : bool :=
  match a, b with
  | Object_prototype, Object_prototype => true
  | Object_prototype_function x, Object_prototype_function y => String.eqb x y
  | _, _ => false
  end.

(** SameValueZero (ECMA-262, 7.2.11) *)
Definition SameValueZero (x y : value) : bool :=
  match x, y with
  | VUndefined, VUndefined => true
  | VNull, VNull => true
  | VBoolean a, VBoolean b => Bool.eqb a b
  | VNumber a, VNumber b => (is_nan a && is_nan b) || (a =? b)%float
  | VString a, VString b => String.eqb a b
  | VObject a, VObject b => object_ref_eqb a b
  | _, _ => false
  end.

(** A [Set] stores a negative zero as zero. *)
Definition normalize_zero (v : value) : value :=
  match v with
  | VNumber n => if is_neg_zero n then VNumber zero else v
  | _ => v
  end.

(** [Set.prototype.add] (ECMA-262, 24.2.3.1) on the list of entries, in
    insertion order. *)
Definition Set_add (entries : list value) (v : value) : list value :=
  if List.existsb (fun e => SameValueZero e v) entries then entries
  else entries ++ [normalize_zero v].

(** [[...new Set(values)]] *)
Definition new_Set (values : list value) : list value :=
  List.fold_left Set_add values [].

(** [val !== undefined] *)
Definition strict_not_equal_undefined (v : value) : bool :=
  match v with
  | VUndefined => false
  | _ => true
  end.

(** Properties of lists the statements below use. *)
Definition no_nan (numbers : list float) : Prop :=
  forall x, In x numbers -> is_nan x = false.

(** Entries that are pairwise different under SameValueZero. *)
Definition distinct (entries : list value) : Prop :=
  ForallOrdPairs (fun a b => SameValueZero a b = false) entries.

End Builtins.

(** ** Exact values of binary64 numbers *)

Module Exact.

(** The rational a finite binary64 number stands for. *)
Definition SF2Q (s : spec_float) : option Q :=
  match s with
  | S754_zero _ => Some 0%Q
  | S754_finite sg m e => Some (inject_Z (cond_Zopp sg (Zpos m)) * Qpower 2 e)%Q
  | _ => None
  end.

Definition exact (x : float) : option Q := SF2Q (Prim2SF x).

(** The sum of the numbers over the rationals; [None] when one of them is
    infinite or NaN. *)
Fixpoint exact_sum (numbers : list float) : option Q :=
  match numbers with
  | [] => Some 0%Q
  | x :: rest =>
    match exact x, exact_sum rest with
    | Some q, Some s => Some (q + s)%Q
    | _, _ => None
    end
  end.

(** Every finite binary64 number is a multiple of [2 ^ -1074]. *)
Definition scaled (s : spec_float) : option Z :=
  match s with
  | S754_zero _ => Some 0
  | S754_finite sg m e => Some (cond_Zopp sg (Zpos m * 2 ^ (e + 1074)))
  | _ => None
  end.

Definition ulp_denominator : positive := Eval vm_compute in (2 ^ 1074)%positive.

End Exact.

(** ** Exceptions *)

(** An [Error] object, as a package or the engine throws it. *)
Record Error := { message : string }.

Inductive completion (A : Type) :=
| normal (a : A)
| throw (e : Error).
Arguments normal {A} a.
Arguments throw {A} e.

#[global] Instance completion_ret : MRet completion := fun A a => normal a.

#[global] Instance completion_bind : MBind completion := fun A B k c =>
  match c with
  | normal a => k a
  | throw e => throw e
  end.

(** [array.map(callback)] with a callback that may throw. *)
Fixpoint Array_map {A B} (callback : A -> completion B) (array : list A)
  : completion (list B) :=
  match array with
  | [] => normal []
  | x :: rest =>
    y ← callback x;
    ys ← Array_map callback rest;
    normal (y :: ys)
  end.

(** [array.reduce(callback, initialValue)] with a callback that may throw. *)
Fixpoint Array_reduce {A B} (callback : B -> A -> completion B) (array : list A)
         (accumulator : B) : completion B :=
  match array with
  | [] => normal accumulator
  | x :: rest =>
    accumulator ← callback accumulator x;
    Array_reduce callback rest accumulator
  end.

(** ** The engine *)

(** ECMA-262 puts no bound on the number of arguments of a call.  Engines
    do: a call whose spread argument has more than [max_arguments] elements
    throws [too_many_arguments], a RangeError (V8's says "Maximum call stack
    size exceeded"). *)
Class Engine := {
  max_arguments : nat;
  too_many_arguments : Error
}.

(** [f(...args)] *)
Definition spread_call {engine : Engine} {A B} (f : list A -> B) (args : list A)
  : completion B :=
  if (max_arguments <? length args)%nat then throw too_many_arguments
  else normal (f args).

(** ** The xlsx package, as far as the code uses it *)

Record workbook (worksheet : Type) := {
  SheetNames : list string;
  Sheets : gmap string worksheet
}.
Arguments SheetNames {worksheet} w.
Arguments Sheets {worksheet} w.

Class XLSX (buffer worksheet : Type) := {
  xlsx_read : buffer -> completion (workbook worksheet);
  (** its argument is [workbook.Sheets[sheetName]], which may be undefined *)
  sheet_to_json : option worksheet -> completion (list JS.object)
}.

(** ** excelProcessor.js *)

Module Sheet.
Record t := {
  sheetName : string;
  headers : list string;
  columnTypes : gmap string string;
  data : list JS.object;
  rowCount : nat;
  columnCount : nat
}.
End Sheet.

(** The object [processExcelFile] returns; [None] is an absent property. *)
Module Result.
Record t := {
  success : bool;
  data : option (list Sheet.t);
  totalSheets : option nat;
  error : option string
}.
End Result.

Module Validations.
Record t := {
  hasData : bool;
  hasHeaders : bool;
  isConsistent : bool
}.
End Validations.

Module Numeric.
Record t := {
  min : float;
  max : float;
  average : float;
  sum : float;
  count : nat
}.
End Numeric.

Module Categorical.
Record t := {
  uniqueValues : list JS.value;
  count : nat;
  type : string
}.
End Categorical.

Inductive statistics :=
| null
| numeric (s : Numeric.t)
| categorical (s : Categorical.t).

Module ExcelProcessor.
Import JS Builtins.

Section ProcessExcelFile.
Context {buffer worksheet : Type} {xlsx : XLSX buffer worksheet}.

(** [typeof jsonData[0]?.[header]] *)
Definition sampleType (jsonData : list object) (header : string) : string :=
  typeof match jsonData !! 0%nat with
         | Some row => get row header
         | None => VUndefined
         end.

Definition headersOf (jsonData : list object) : list string :=
  Object_keys (default empty_object (jsonData !! 0%nat)).

Definition columnTypesOf (jsonData : list object) (headers : list string)
  : gmap string string :=
  List.fold_left (fun acc header => set acc header (sampleType jsonData header))
                 headers ∅.

(** The callback of [sheetNames.map]. *)
Definition processSheet (wb : workbook worksheet) (sheetName : string)
  : completion Sheet.t :=
  let worksheet := Sheets wb !! sheetName in
  jsonData ← sheet_to_json worksheet;
  let headers := headersOf jsonData in
  let columnTypes := columnTypesOf jsonData headers in
  normal {| Sheet.sheetName := sheetName;
            Sheet.headers := headers;
            Sheet.columnTypes := columnTypes;
            Sheet.data := jsonData;
            Sheet.rowCount := length jsonData;
            Sheet.columnCount := length headers |}.

(** The [try] block. *)
Definition processExcelFile_try (buf : buffer) : completion Result.t :=
  wb ← xlsx_read buf;
  let sheetNames := SheetNames wb in
  processedData ← Array_map (processSheet wb) sheetNames;
  normal {| Result.success := true;
            Result.data := Some processedData;
            Result.totalSheets := Some (length sheetNames);
            Result.error := None |}.

Definition processExcelFile (buf : buffer) : Result.t :=
  match processExcelFile_try buf with
  | normal r => r
  | throw error =>
    {| Result.success := false;
       Result.data := None;
       Result.totalSheets := None;
       Result.error := Some (message error) |}
  end.
End ProcessExcelFile.

(** The two shapes of the returned object. *)
Definition succeeded (sheets : list Sheet.t) (total : nat) : Result.t :=
  {| Result.success := true;
     Result.data := Some sheets;
     Result.totalSheets := Some total;
     Result.error := None |}.

Definition failure (e : Error) : Result.t :=
  {| Result.success := false;
     Result.data := None;
     Result.totalSheets := None;
     Result.error := Some (message e) |}.

(** What the callback of [sheetNames.map] returns for a sheet with these rows. *)
Definition normalized (sheetName : string) (jsonData : list object) : Sheet.t :=
  {| Sheet.sheetName := sheetName;
     Sheet.headers := headersOf jsonData;
     Sheet.columnTypes := columnTypesOf jsonData (headersOf jsonData);
     Sheet.data := jsonData;
     Sheet.rowCount := length jsonData;
     Sheet.columnCount := length (headersOf jsonData) |}.

Definition validateExcelData (data : list object) : Validations.t :=
  let hasData := (0 <? length data)%nat in
  let hasHeaders := (0 <? length (Object_keys (default empty_object (data !! 0%nat))))%nat in
  let isConsistent :=
    if (1 <? length data)%nat then
      (* [data[0]] is a row here *)
      let firstRowKeys := Object_keys (default empty_object (data !! 0%nat)) in
      List.forallb (fun row => (length (Object_keys row) =? length firstRowKeys)%nat)
                   data
    else true in
  {| Validations.hasData := hasData;
     Validations.hasHeaders := hasHeaders;
     Validations.isConsistent := isConsistent |}.

(** [data.map(row => row[columnName]).filter(val => val !== undefined)] *)
Definition columnValues (data : list object) (columnName : string) : list value :=
  List.filter strict_not_equal_undefined
              (List.map (fun row => get row columnName) data).

Definition reduce_sum (numbers : list float) : float :=
  List.fold_left (fun a b => (a + b)%float) numbers 0%float.

(** It returns [null] or a record, unless [Math.min(...numbers)] has more
    arguments than the engine takes. *)
Definition getColumnStatistics {engine : Engine}
  (data : list object) (columnName : string) : completion statistics :=
  let values := columnValues data columnName in
  if (length values =? 0)%nat then normal null
  else
    let isNumeric := List.forallb (fun val => negb (isNaN val)) values in
    if isNumeric then
      let numbers := List.map Number values in
      min ← spread_call Math_min numbers;
      max ← spread_call Math_max numbers;
      normal (numeric {| Numeric.min := min;
                         Numeric.max := max;
                         Numeric.average :=
                           (reduce_sum numbers / Number_of_length (length numbers))%float;
                         Numeric.sum := reduce_sum numbers;
                         Numeric.count := length numbers |})
    else
      normal (categorical {| Categorical.uniqueValues := new_Set values;
                             Categorical.count := length values;
                             Categorical.type := "categorical" |}).

End ExcelProcessor.

(** ** The column of a header, in the words of the specification *)

Module Column.
Import JS.

(** The values of the column: what the rows hold under the header, in the
    order of the rows; a row that holds [undefined] there, or nothing,
    contributes no value. *)
Fixpoint values (rows : list object) (header : string) : list value :=
  match rows with
  | [] => []
  | row :: rest =>
    match get row header with
    | VUndefined => values rest header
    | v => v :: values rest header
    end
  end.

(** Numeric-coercible: the coercion to a number does not give NaN. *)
Definition coercible (v : value) : Prop := is_nan (ToNumber v) = false.

(** What [null], the booleans and the empty string are coerced to. *)
Definition coerced (v : value) : float :=
  match v with
  | VBoolean true => 1%float
  | _ => 0%float
  end.

Definition null_boolean_or_empty (v : value) : Prop :=
  v = VNull \/ v = VBoolean true \/ v = VBoolean false \/ v = VString "".
End Column.

(** ** Concrete inputs *)

Module Examples.
Import JS.

(** An engine like Node's V8 with its default stack, where a call takes
    about 124000 arguments. *)
#[export] Instance node : Engine := {|
  max_arguments := N.to_nat 124000;
  too_many_arguments := {| message := "Maximum call stack size exceeded" |}
|}.

(** A row as [sheet_to_json] builds it: the cells under their headers, and
    the number of the row in the sheet, which is not enumerable. *)
Definition row (rowNum : float) (cells : list (string * value)) : object :=
  {| properties := cells;
     non_enumerable := [("__rowNum__"%string, VNumber rowNum)] |}.

(** Rows with the single column [c]. *)
Definition numbers_1_2_3 : list object :=
  [row 1 [("c", VNumber 1)]; row 2 [("c", VNumber 2)]; row 3 [("c", VNumber 3)]]%string.

Definition mixed_1_x_3 : list object :=
  [row 1 [("c", VNumber 1)]; row 2 [("c", VString "x")]; row 3 [("c", VNumber 3)]]%string.

Definition strings_a_b_a : list object :=
  [row 1 [("c", VString "a")]; row 2 [("c", VString "b")];
   row 3 [("c", VString "a")]]%string.

(** Two rows hold [null] in column [c], one row has no such column. *)
Definition nulls : list object :=
  [row 1 [("c", VNull)]; row 2 [("d", VNumber 7)]; row 3 [("c", VNull)]]%string.

(** [null], booleans, an empty string and a missing cell. *)
Definition null_true_false_empty : list object :=
  [row 1 [("c", VNull)]; row 2 [("c", VBoolean true)]; row 3 [("d", VNumber 7)];
   row 4 [("c", VBoolean false)]; row 5 [("c", VString "")]]%string.

(** A missing cell between two numbers. *)
Definition one_missing_two : list object :=
  [row 1 [("c", VNumber 1)]; row 2 [("d", VNumber 7)]; row 3 [("c", VNumber 2)]]%string.

Definition infinities : list object :=
  [row 1 [("c", VString "Infinity")]; row 2 [("c", VString "-Infinity")]]%string.

(** The binary64 number nearest to 0.1. *)
Definition tenth : float := 0x1.999999999999ap-4%float.

Definition tenths : list object :=
  [row 1 [("c", VNumber tenth)]; row 2 [("c", VNumber tenth)];
   row 3 [("c", VNumber tenth)]]%string.

Definition two_keys : list object :=
  [row 1 [("name", VString "Ada"); ("age", VNumber 36)];
   row 2 [("name", VString "Grace"); ("age", VNumber 45)]]%string.

(** A first row with an own property [__proto__], which no row built by
    assignments has. *)
Definition proto_row : list object := [literal [("__proto__", VString "x")]]%string.

(** Columns of [n] rows [{c: value}]: more rows than an engine takes
    arguments are a matter of a megabyte or two in a workbook. *)
Definition column_of (value : value) (n : nat) : list object :=
  List.repeat (literal [("c"%string, value)]) n.

Definition ones_130000 : list object := column_of (VNumber 1) (N.to_nat 130000).


(** A stand-in for the xlsx package: the buffer either is unreadable or
    already lists its sheets, each with its rows. *)
Definition decoded := option (list (string * list object)).

Definition read_decoded (buf : decoded) : completion (workbook (list object)) :=
  match buf with
  | None => throw {| message := "Unsupported file" |}
  | Some sheets => normal {| SheetNames := List.map fst sheets;
                             Sheets := list_to_map sheets |}
  end.

#[export] Instance decoded_xlsx : XLSX decoded (list object) := {|
  xlsx_read := read_decoded;
  sheet_to_json := fun worksheet => normal (default [] worksheet)
|}.

Definition two_sheets : decoded :=
  Some [("People", [row 1 [("name", VString "Ada"); ("age", VNumber 36)];
                    row 2 [("name", VString "Alan")]]);
        ("Empty", [])]%string.

End Examples.

(** ** Least and greatest of binary64 values *)

Module Extremes.
Local Open Scope float_scope.

(** [x] is [+0] or [-0]. *)
Definition is_zero_value (x : float) : Prop := (x =? neg_zero) = true.

(** What [Math.min] returns of numbers none of which is [NaN]: a least
    element, and [-0] rather than [+0] when both are least. *)
Definition is_minimum (r : float) (numbers : list float) : Prop :=
  In r numbers
  /\ (forall x, In x numbers -> (r <=? x) = true)
  /\ (In neg_zero numbers -> is_zero_value r -> r = neg_zero).

(** What [Math.max] returns: a greatest element, [+0] rather than [-0]. *)
Definition is_maximum (r : float) (numbers : list float) : Prop :=
  In r numbers
  /\ (forall x, In x numbers -> (x <=? r) = true)
  /\ (In zero numbers -> is_zero_value r -> r = zero).
End Extremes.

(** ** routes/excel.js: the upload route *)

(** The [columns] object of a sheet's statistics: its own properties and its
    prototype, which an assignment to [__proto__] replaces. *)
Module Columns.
Inductive prototype :=
| Object_prototype
| null_prototype
| statistics_record (s : statistics).

Record t := {
  own : gmap string statistics;
  proto : prototype
}.

(** [{}] *)
Definition empty : t := {| own := ∅; proto := Object_prototype |}.

(** [acc[header] = value]: any other key becomes or updates an own property;
    [__proto__] reaches the setter inherited from [Object.prototype], which
    makes [value] (null or an object) the prototype, unless the prototype is
    null by now and nothing is inherited. *)
Definition set (acc : t) (header : string) (value : statistics) : t :=
  if String.eqb header "__proto__" then
    match proto acc with
    | null_prototype => {| own := <[header := value]> (own acc); proto := proto acc |}
    | _ =>
      {| own := own acc;
         proto := match value with
                  | null => null_prototype
                  | _ => statistics_record value
                  end |}
    end
  else {| own := <[header := value]> (own acc); proto := proto acc |}.
End Columns.

Module SheetValidation.
Record t := {
  sheetName : string;
  hasData : bool;
  hasHeaders : bool;
  isConsistent : bool
}.
End SheetValidation.

Module SheetStatistics.
Record t := {
  sheetName : string;
  columns : Columns.t
}.
End SheetStatistics.

(** The body of a successful upload. *)
Module Uploaded.
Record t (U O D : Type) := {
  _id : O;
  fileName : string;
  uploadDate : D;
  userId : U;
  sheets : option (list Sheet.t);
  validations : list SheetValidation.t;
  statistics : list SheetStatistics.t;
  totalSheets : option nat
}.
Arguments _id {U O D} t.
Arguments fileName {U O D} t.
Arguments uploadDate {U O D} t.
Arguments userId {U O D} t.
Arguments sheets {U O D} t.
Arguments validations {U O D} t.
Arguments statistics {U O D} t.
Arguments totalSheets {U O D} t.
End Uploaded.

(** Mongoose's [ExcelFile] model, as far as the route uses it: [U] are user
    ids, [O] object ids, [D] dates, [Doc] documents and [DB] states of the
    database. *)
Class ExcelFiles (U O D Doc DB : Type) := {
  (** [new ExcelFile({user, fileName, sheets, uploadDate})] *)
  new_ExcelFile : U -> string -> option (list Sheet.t) -> D -> Doc;
  (** [await document.save()]: the document afterwards, unless it throws *)
  save : Doc -> DB -> completion Doc * DB;
  document_id : Doc -> O;
  document_fileName : Doc -> string;
  document_uploadDate : Doc -> D;
  document_user : Doc -> U
}.

Module ExcelRoutes.
Import JS Builtins ExcelProcessor.

(** [req.file], as multer's memory storage leaves it. *)
Record uploaded_file (buffer : Type) := {
  file_buffer : buffer;
  originalname : string
}.
Arguments file_buffer {buffer} u.
Arguments originalname {buffer} u.

(** The request: [req.file] and [req.user.userId], which the [auth]
    middleware has set. *)
Record upload_request (buffer U : Type) := {
  file : option (uploaded_file buffer);
  user_userId : U
}.
Arguments file {buffer U} u.
Arguments user_userId {buffer U} u.

Inductive upload_body (U O D : Type) :=
| message_body (message : string)
| error_body (message : string) (error : option string)
| uploaded_body (uploaded : Uploaded.t U O D).
Arguments message_body {U O D} message.
Arguments error_body {U O D} message error.
Arguments uploaded_body {U O D} uploaded.

Record upload_response (U O D : Type) := {
  status : nat;
  body : upload_body U O D
}.
Arguments status {U O D} u.
Arguments body {U O D} u.

(** What [undefined.map] throws (the message is V8's). *)
Definition TypeError_map_of_undefined : Error :=
  {| message := "Cannot read properties of undefined (reading 'map')" |}.

(** [sheet => ({ sheetName: sheet.sheetName, ...validateExcelData(sheet.data) })] *)
Definition sheetValidation (sheet : Sheet.t) : SheetValidation.t :=
  let validations := validateExcelData (Sheet.data sheet) in
  {| SheetValidation.sheetName := Sheet.sheetName sheet;
     SheetValidation.hasData := Validations.hasData validations;
     SheetValidation.hasHeaders := Validations.hasHeaders validations;
     SheetValidation.isConsistent := Validations.isConsistent validations |}.

Section Upload.
Context {engine : Engine}.
Context {buffer worksheet : Type} {xlsx : XLSX buffer worksheet}.
Context {U O D Doc DB : Type} {excelFiles : ExcelFiles U O D Doc DB}.

(** [sheet.headers.reduce((acc, header) => { acc[header] = ...; return acc }, {})] *)
Definition sheetColumns (sheet : Sheet.t) : completion Columns.t :=
  Array_reduce
    (fun acc header =>
       value ← getColumnStatistics (Sheet.data sheet) header;
       normal (Columns.set acc header value))
    (Sheet.headers sheet) Columns.empty.

Definition sheetStatistics (sheet : Sheet.t) : completion SheetStatistics.t :=
  columns ← sheetColumns sheet;
  normal {| SheetStatistics.sheetName := Sheet.sheetName sheet;
            SheetStatistics.columns := columns |}.

(** The last handler of [POST /upload], the one written in the route: it
    runs once the middlewares before it, [auth] and [upload.single('file')],
    have passed the request on, with [req.user] and [req.file] as they left
    them.  [now] is what [new Date()] gives.  Everything after the test of
    [req.file] is inside the [try]: what [save] or, after it, the statistics
    throw is answered with 500. *)
Definition upload (now : D) (req : upload_request buffer U) (db : DB)
  : upload_response U O D * DB :=
  match file req with
  | None => ({| status := 400; body := message_body "No file uploaded" |}, db)
  | Some f =>
    let result := processExcelFile (file_buffer f) in
    if negb (Result.success result) then
      ({| status := 400;
          body := error_body "Error processing file" (Result.error result) |}, db)
    else
      let newExcelFile :=
        new_ExcelFile (user_userId req) (originalname f) (Result.data result) now in
      match save newExcelFile db with
      | (throw error, db') =>
        ({| status := 500;
            body := error_body "Error processing file" (Some (message error)) |}, db')
      | (normal newExcelFile, db') =>
        match Result.data result with
        | None =>
          ({| status := 500;
              body := error_body "Error processing file"
                                 (Some (message TypeError_map_of_undefined)) |}, db')
        | Some sheets =>
          let validations := List.map sheetValidation sheets in
          match Array_map sheetStatistics sheets with
          | throw error =>
            ({| status := 500;
                body := error_body "Error processing file" (Some (message error)) |},
             db')
          | normal statistics =>
            ({| status := 200;
                body := uploaded_body
                          {| Uploaded._id := document_id newExcelFile;
                             Uploaded.fileName := document_fileName newExcelFile;
                             Uploaded.uploadDate := document_uploadDate newExcelFile;
                             Uploaded.userId := document_user newExcelFile;
                             Uploaded.sheets := Result.data result;
                             Uploaded.validations := validations;
                             Uploaded.statistics := statistics;
                             Uploaded.totalSheets := Result.totalSheets result |} |},
             db')
          end
        end
      end
  end.
End Upload.
End ExcelRoutes.

Module UploadExamples.
Import JS Examples ExcelRoutes.

(** A stand-in for the model: documents are kept in a list, and saving
    rejects a document without a file name. *)
Definition stored := (string * string * option (list Sheet.t) * nat)%type.

#[export] Instance stored_files : ExcelFiles string nat nat stored (list stored) := {|
  new_ExcelFile := fun user fileName sheets uploadDate => (user, fileName, sheets, uploadDate);
  save := fun document db =>
    match document with
    | (_, ""%string, _, _) => (throw {| message := "Path `fileName` is required." |}, db)
    | _ => (normal document, db ++ [document])
    end;
  document_id := fun _ => 1%nat;
  document_fileName := fun document => snd (fst (fst document));
  document_uploadDate := fun document => snd document;
  document_user := fun document => fst (fst (fst document))
|}.

Definition upload_two_sheets : upload_request decoded string :=
  {| file := Some {| file_buffer := two_sheets; originalname := "people.xlsx" |};
     user_userId := "u1" |}.

(** An upload the package cannot read. *)
Definition upload_unreadable : upload_request decoded string :=
  {| file := Some {| file_buffer := None; originalname := "notes.txt" |};
     user_userId := "u1" |}.

(** An upload of one sheet with 130000 rows. *)
Definition upload_long : upload_request decoded string :=
  {| file := Some {| file_buffer := Some [("Long"%string, ones_130000)];
                     originalname := "long.xlsx" |};
     user_userId := "u1" |}.
End UploadExamples.

(** ** middleware/adminAuth.js *)

(** What the middleware calls: [jsonwebtoken], the environment and the
    [User] model. *)
Class AdminAuthEnv (Decoded UserId User : Type) := {
  (** [process.env.JWT_SECRET] *)
  JWT_SECRET : option string;
  (** [jwt.verify(token, secret)] *)
  jwt_verify : string -> option string -> completion Decoded;
  (** [error instanceof jwt.JsonWebTokenError] *)
  instanceof_JsonWebTokenError : Error -> bool;
  (** [decoded.userId] *)
  decoded_userId : Decoded -> UserId;
  (** [await User.findById(id)] *)
  User_findById : UserId -> completion (option User);
  (** [user.role] *)
  user_role : User -> JS.value
}.

Module AdminAuth.

(** [s.replace(searchValue, replaceValue)] for a string [searchValue] and a
    [replaceValue] without [$]: the first occurrence is replaced. *)
Fixpoint String_replace (searchValue replaceValue s : string) : string :=
  if String.prefix searchValue s
  then replaceValue ++ String.substring (String.length searchValue)
                                        (String.length s - String.length searchValue) s
  else match s with
       | EmptyString => s
       | String c rest => String c (String_replace searchValue replaceValue rest)
       end.

(** [v !== s] for a string [s] *)
Definition strict_not_equal_string (v : JS.value) (s : string) : bool :=
  match v with
  | JS.VString s' => negb (String.eqb s' s)
  | _ => true
  end.

(** How the middleware ends: with [req.user = decoded; next()], or with a
    response. *)
Inductive outcome (Decoded : Type) :=
| next (decoded : Decoded)
| respond (status : nat) (message : string).
Arguments next {Decoded} decoded.
Arguments respond {Decoded} status message.

Section Middleware.
Context {Decoded UserId User : Type} {env : AdminAuthEnv Decoded UserId User}.

(** The [try] block; [authorization] is [req.header('Authorization')]. *)
Definition adminAuth_try (authorization : option string)
  : completion (outcome Decoded) :=
  let token := option_map (String_replace "Bearer " "") authorization in
  match token with
  | None => normal (respond 401 "No token, authorization denied")
  | Some EmptyString => normal (respond 401 "No token, authorization denied")
  | Some token =>
    decoded ← jwt_verify token JWT_SECRET;
    user ← User_findById (decoded_userId decoded);
    match user with
    | None => normal (respond 401 "User not found")
    | Some user =>
      if strict_not_equal_string (user_role user) "admin"
      then normal (respond 403 "Access denied. Admin only.")
      else normal (next decoded)
    end
  end.

Definition adminAuth (authorization : option string) : outcome Decoded :=
  match adminAuth_try authorization with
  | normal o => o
  | throw error =>
    if instanceof_JsonWebTokenError error
    then respond 401 "Token is not valid"
    else respond 500 "Server error"
  end.
End Middleware.
End AdminAuth.

Module AdminAuthExamples.
Import AdminAuth.

(** A stand-in environment: one token is valid, and names the only admin. *)
#[export] Instance one_admin : AdminAuthEnv string string string := {|
  JWT_SECRET := Some "secret"%string;
  jwt_verify := fun token secret =>
    if String.eqb token "good" then normal "root"%string
    else throw {| message := "jwt malformed" |};
  instanceof_JsonWebTokenError := fun error => String.eqb (message error) "jwt malformed";
  decoded_userId := fun decoded => decoded;
  User_findById := fun id =>
    if String.eqb id "root" then normal (Some "admin"%string) else normal None;
  user_role := fun user => JS.VString user
|}.
End AdminAuthExamples.

(** ** routes/auth.js: the check of the email's format *)

Module RegExp.

(** A string as the sequence of its UTF-16 code units, which is what a
    regular expression without the [u] flag matches against. *)
Definition code_unit := N.

(** [\s]: WhiteSpace and LineTerminator (ECMA-262, 22.2.2.9). *)
Definition is_white_space (c : code_unit) : bool :=
  ((0x9 <=? c) && (c <=? 0xD) || (c =? 0x20) || (c =? 0xA0) || (c =? 0x1680)
   || (0x2000 <=? c) && (c <=? 0x200A) || (c =? 0x2028) || (c =? 0x2029)
   || (c =? 0x202F) || (c =? 0x205F) || (c =? 0x3000) || (c =? 0xFEFF))%N.

Definition at_sign : code_unit := 0x40%N.
Definition full_stop : code_unit := 0x2E%N.

(** A matcher takes what is left of the input and says whether the rest of
    the pattern matches it. *)
Definition matcher := list code_unit -> bool.

(** [$] *)
Definition end_of_input : matcher :=
  fun input => match input with [] => true | _ :: _ => false end.

(** A pattern character, followed by [k]. *)
Definition char (c : code_unit) (k : matcher) : matcher :=
  fun input =>
    match input with
    | [] => false
    | x :: rest => (x =? c)%N && k rest
    end.

(** [class+] followed by [k]: greedy, one code unit given back at a time. *)
Fixpoint plus (class : code_unit -> bool) (k : matcher) (input : list code_unit) : bool :=
  match input with
  | [] => false
  | x :: rest => class x && (plus class k rest || k rest)
  end.
End RegExp.

Module AuthRoutes.
Import RegExp.

(** [[^\s@]] *)
Definition not_space_or_at (c : code_unit) : bool :=
  negb (is_white_space c || (c =? at_sign)%N).

(** [/^[^\s@]+@[^\s@]+\.[^\s@]+$/.test(email)], for an [email] that is a
    string. *)
Definition emailRegex_test (email : list code_unit) : bool :=
  plus not_space_or_at
       (char at_sign
             (plus not_space_or_at
                   (char full_stop
                         (plus not_space_or_at end_of_input)))) email.

(** A non-empty run of code units that are neither white space nor [@]. *)
Definition part (run : list code_unit) : Prop :=
  run <> [] /\ Forall (fun c => not_space_or_at c = true) run.
End AuthRoutes.

Module AuthExamples.
Import RegExp.

(** The code units of a string of ASCII characters. *)
Fixpoint code_units (s : string) : list code_unit :=
  match s with
  | EmptyString => []
  | String c rest => N_of_ascii c :: code_units rest
  end.
End AuthExamples.

(** ** More concrete inputs *)

Module MoreExamples.
Import JS Examples.

(** The same three numbers in two orders. *)
Definition big_one_minus_big : list object :=
  [row 1 [("c", VNumber 1e16)]; row 2 [("c", VNumber 1)];
   row 3 [("c", VNumber (-1e16))]]%string.

Definition big_minus_big_one : list object :=
  [row 1 [("c", VNumber 1e16)]; row 3 [("c", VNumber (-1e16))];
   row 2 [("c", VNumber 1)]]%string.

(** A stand-in package whose conversion rejects a sheet without rows. *)
Definition strict_xlsx : XLSX decoded (list object) := {|
  xlsx_read := read_decoded;
  sheet_to_json := fun worksheet =>
    match worksheet with
    | Some (row :: rows) => normal (row :: rows)
    | _ => throw {| message := "Empty sheet" |}
    end
|}.
End MoreExamples.

(** ** Facts about binary64 comparison *)

Module FloatFacts.

Ltac cmp_cases :=
  repeat match goal with
  | H : context [Pos.compare_cont Eq ?a ?b] |- _ =>
    change (Pos.compare_cont Eq a b) with (Pos.compare a b) in H
  | |- context [Pos.compare_cont Eq ?a ?b] =>
    change (Pos.compare_cont Eq a b) with (Pos.compare a b)
  end;
  repeat match goal with
  | H : context [Z.compare ?a ?b] |- _ => destruct (Z.compare_spec a b); simpl in H
  | |- context [Z.compare ?a ?b] => destruct (Z.compare_spec a b); simpl
  | H : context [Pos.compare ?a ?b] |- _ => destruct (Pos.compare_spec a b); simpl in H
  | |- context [Pos.compare ?a ?b] => destruct (Pos.compare_spec a b); simpl
  end.

Ltac sf_cases :=
  unfold SFleb, SFltb, SFeqb, SFcompare in *;
  repeat match goal with
  | s : spec_float |- _ => destruct s
  | b : bool |- _ => destruct b
  end;
  simpl in *; try congruence; try reflexivity;
  cmp_cases; try congruence; try reflexivity; try lia.

Lemma SFleb_refl a : a <> S754_nan -> SFleb a a = true.
Proof. intros Ha. sf_cases. Qed.

Lemma SFleb_trans a b c : SFleb a b = true -> SFleb b c = true -> SFleb a c = true.
Proof. intros H1 H2. sf_cases. Qed.

Lemma SFltb_false_leb a b :
  a <> S754_nan -> b <> S754_nan -> SFltb a b = false -> SFleb b a = true.
Proof. intros Ha Hb H. sf_cases. Qed.

Lemma SFltb_leb a b : SFltb a b = true -> SFleb a b = true.
Proof. intros H. sf_cases. Qed.

Lemma SFeqb_refl a : a <> S754_nan -> SFeqb a a = true.
Proof. intros Ha. sf_cases. Qed.

Lemma SFeqb_sym a b : SFeqb a b = SFeqb b a.
Proof. sf_cases. Qed.

Lemma SFeqb_trans a b c : SFeqb a b = true -> SFeqb b c = true -> SFeqb a c = true.
Proof. intros H1 H2. sf_cases. Qed.

Lemma SFeqb_zero_sign a s s' : SFeqb a (S754_zero s) = SFeqb a (S754_zero s').
Proof. sf_cases. Qed.

Lemma SFleb_infinity_inv a : SFleb (S754_infinity false) a = true -> a = S754_infinity false.
Proof. intros H. sf_cases. Qed.

Lemma SFleb_neg_infinity_inv a : SFleb a (S754_infinity true) = true -> a = S754_infinity true.
Proof. intros H. sf_cases. Qed.

Local Open Scope float_scope.

Lemma is_nan_false x : is_nan x = false <-> Prim2SF x <> S754_nan.
Proof.
  unfold is_nan. rewrite FloatAxioms.eqb_spec, negb_false_iff. split.
  - intros H E. rewrite E in H. discriminate.
  - apply SFeqb_refl.
Qed.

Lemma leb_refl x : is_nan x = false -> (x <=? x) = true.
Proof. rewrite is_nan_false, FloatAxioms.leb_spec. apply SFleb_refl. Qed.

Lemma leb_trans x y z : (x <=? y) = true -> (y <=? z) = true -> (x <=? z) = true.
Proof. rewrite !FloatAxioms.leb_spec. apply SFleb_trans. Qed.

Lemma ltb_false_leb x y :
  is_nan x = false -> is_nan y = false -> (x <? y) = false -> (y <=? x) = true.
Proof. rewrite !is_nan_false, FloatAxioms.ltb_spec, FloatAxioms.leb_spec. apply SFltb_false_leb. Qed.

Lemma ltb_leb x y : (x <? y) = true -> (x <=? y) = true.
Proof. rewrite FloatAxioms.ltb_spec, FloatAxioms.leb_spec. apply SFltb_leb. Qed.

Lemma infinity_leb_inv x : (infinity <=? x) = true -> x = infinity.
Proof.
  rewrite FloatAxioms.leb_spec. intros H. apply Prim2SF_inj.
  now apply SFleb_infinity_inv in H.
Qed.

Lemma leb_neg_infinity_inv x : (x <=? neg_infinity) = true -> x = neg_infinity.
Proof.
  rewrite FloatAxioms.leb_spec. intros H. apply Prim2SF_inj.
  now apply SFleb_neg_infinity_inv in H.
Qed.

Lemma eqb_refl x : is_nan x = false -> (x =? x) = true.
Proof. rewrite is_nan_false, FloatAxioms.eqb_spec. apply SFeqb_refl. Qed.

Lemma eqb_sym x y : (x =? y) = (y =? x).
Proof. rewrite !FloatAxioms.eqb_spec. apply SFeqb_sym. Qed.

Lemma eqb_trans x y z : (x =? y) = true -> (y =? z) = true -> (x =? z) = true.
Proof. rewrite !FloatAxioms.eqb_spec. apply SFeqb_trans. Qed.

Lemma eqb_not_nan x y : (x =? y) = true -> is_nan x = false /\ is_nan y = false.
Proof.
  rewrite FloatAxioms.eqb_spec. intros H.
  split; apply is_nan_false; intros E; rewrite E in H;
    destruct (Prim2SF _); discriminate.
Qed.

Lemma eqb_neg_zero_r x : (x =? neg_zero) = (x =? zero).
Proof. rewrite !FloatAxioms.eqb_spec. apply (SFeqb_zero_sign _ true false). Qed.

End FloatFacts.

(** ** Facts about rounding and exact values *)

Module ExactFacts.
Import Builtins Exact.

Lemma digits2_pos_bounds p :
  2 ^ (Zpos (digits2_pos p) - 1) <= Zpos p < 2 ^ Zpos (digits2_pos p).
Proof.
  induction p as [p IH | p IH |]; simpl digits2_pos.
  - rewrite Pos2Z.inj_succ.
    replace (Z.succ (Zpos (digits2_pos p)) - 1) with (Zpos (digits2_pos p) - 1 + 1) by lia.
    rewrite Z.pow_succ_r by lia. rewrite Z.pow_add_r by lia.
    change (2 ^ 1) with 2. lia.
  - rewrite Pos2Z.inj_succ.
    replace (Z.succ (Zpos (digits2_pos p)) - 1) with (Zpos (digits2_pos p) - 1 + 1) by lia.
    rewrite Z.pow_succ_r by lia. rewrite Z.pow_add_r by lia.
    change (2 ^ 1) with 2. lia.
  - simpl. lia.
Qed.

Lemma digits2_pos_iter_xO p k :
  digits2_pos (Pos.iter xO p k) = (digits2_pos p + k)%positive.
Proof.
  induction k using Pos.peano_ind.
  - simpl. lia.
  - rewrite Pos.iter_succ. simpl. rewrite IHk. lia.
Qed.

Lemma digits2_pos_le p n : 0 <= n -> Zpos p < 2 ^ n -> Zpos (digits2_pos p) <= n.
Proof.
  intros Hn Hp. destruct (digits2_pos_bounds p) as [Hlo _].
  destruct (Z_le_gt_dec (Zpos (digits2_pos p)) n) as [|Hgt]; [assumption|].
  assert (2 ^ n <= 2 ^ (Zpos (digits2_pos p) - 1)) by (apply Z.pow_le_mono_r; lia).
  lia.
Qed.

Lemma binary_round_aux_exact sx mz ez :
  Zpos (digits2_pos mz) = 53 -> -1074 <= ez <= 971 ->
  binary_round_aux prec emax sx (Zpos mz) ez loc_Exact = S754_finite sx mz ez
  /\ bounded prec emax mz ez = true.
Proof.
  intros Hdz He.
  assert (Hfz : fexp prec emax (Zpos (digits2_pos mz) + ez) = ez).
  { rewrite Hdz. unfold fexp, emin, prec, emax. lia. }
  assert (Hle : (ez <=? emax - prec) = true) by (apply Z.leb_le; unfold emax, prec; lia).
  unfold binary_round_aux, shr_fexp. simpl Zdigits2. simpl shr_record_of_loc.
  rewrite Hfz, Z.sub_diag. simpl. rewrite Hfz, Z.sub_diag. simpl.
  rewrite Hle. split; [reflexivity|].
  unfold bounded, canonical_mantissa. rewrite Hfz, Z.eqb_refl. exact Hle.
Qed.

Lemma binary_round_small p :
  Zpos p < 2 ^ 53 ->
  exists m e, binary_round prec emax false p 0 = S754_finite false m e
              /\ bounded prec emax m e = true.
Proof.
  intros Hp.
  pose proof (digits2_pos_le p 53 ltac:(lia) Hp) as Hd.
  unfold binary_round.
  assert (Hf : fexp prec emax (Zpos (digits2_pos p) + 0) = Zpos (digits2_pos p) - 53).
  { unfold fexp, emin, prec, emax. lia. }
  rewrite Hf. unfold shl_align.
  destruct (Zpos (digits2_pos p) - 53 - 0) as [|k|k] eqn:E; try lia.
  - exists p, 0. apply binary_round_aux_exact; lia.
  - exists (Pos.iter xO p k), (Zpos (digits2_pos p) - 53).
    apply binary_round_aux_exact; [|lia].
    rewrite digits2_pos_iter_xO. lia.
Qed.

Lemma Number_of_Z_finite n :
  1 <= n < 2 ^ 53 ->
  exists m e, Prim2SF (of_uint63 (Uint63.of_Z n)) = S754_finite false m e.
Proof.
  intros Hn. rewrite of_uint63_spec.
  change (Uint63Axioms.to_Z (of_Z n)) with (Uint63.to_Z (of_Z n)).
  rewrite Uint63.of_Z_spec.
  rewrite Z.mod_small by (split; [lia | apply Z.lt_trans with (2 ^ 53); [lia | reflexivity]]).
  destruct n as [|p|p]; try lia.
  simpl. destruct (binary_round_small p) as (m & e & H & _); [lia|].
  exists m, e. exact H.
Qed.

Lemma zero_div_finite (y : float) m e :
  Prim2SF y = S754_finite false m e -> (0 / y)%float = 0%float.
Proof.
  intros Hy. apply Prim2SF_inj. rewrite FloatAxioms.div_spec, Hy. reflexivity.
Qed.

Lemma bounded_inv m e :
  bounded prec emax m e = true ->
  -1074 <= e /\ Zpos (digits2_pos m) <= 53 /\ (-1074 < e -> Zpos (digits2_pos m) = 53).
Proof.
  unfold bounded, canonical_mantissa. rewrite andb_true_iff, Z.eqb_eq.
  unfold fexp, emin, prec, emax. lia.
Qed.

Lemma canonical_lt m1 e1 m2 e2 :
  bounded prec emax m1 e1 = true -> bounded prec emax m2 e2 = true ->
  e1 < e2 ->
  Zpos m1 * 2 ^ (e1 + 1074) < Zpos m2 * 2 ^ (e2 + 1074).
Proof.
  intros H1 H2 He.
  apply bounded_inv in H1. apply bounded_inv in H2.
  destruct H1 as (Hlo1 & Hd1 & _). destruct H2 as (Hlo2 & _ & Hd2).
  specialize (Hd2 ltac:(lia)).
  pose proof (digits2_pos_bounds m1) as [_ Hm1].
  pose proof (digits2_pos_bounds m2) as [Hm2 _].
  rewrite Hd2 in Hm2. change (2 ^ (53 - 1)) with (2 ^ 52) in Hm2.
  assert (Hm1' : Zpos m1 < 2 ^ 53).
  { eapply Z.lt_le_trans; [exact Hm1|]. apply Z.pow_le_mono_r; lia. }
  set (k1 := e1 + 1074). set (k2 := e2 + 1074).
  assert (Hk : 2 * 2 ^ k1 <= 2 ^ k2).
  { rewrite <- Z.pow_succ_r by (unfold k1; lia). apply Z.pow_le_mono_r; unfold k1, k2; lia. }
  assert (Hp1 : 0 < 2 ^ k1) by (apply Z.pow_pos_nonneg; unfold k1; lia).
  change (2 ^ 53) with (2 * 2 ^ 52) in Hm1'.
  nia.
Qed.

Lemma scaled_pos m e : bounded prec emax m e = true -> 0 < Zpos m * 2 ^ (e + 1074).
Proof.
  intros V. apply bounded_inv in V.
  apply Z.mul_pos_pos; [lia|]. apply Z.pow_pos_nonneg; lia.
Qed.

(** On finite numbers the binary64 comparison is the comparison of values. *)
Lemma SFcompare_scaled a b za zb :
  valid_binary a = true -> valid_binary b = true ->
  scaled a = Some za -> scaled b = Some zb ->
  SFcompare a b = Some (za ?= zb).
Proof.
  intros Va Vb Ha Hb.
  destruct a as [sa|sa| |sa ma ea], b as [sb|sb| |sb mb eb]; simpl in *;
    try discriminate; injection Ha as <-; injection Hb as <-.
  - reflexivity.
  - pose proof (scaled_pos _ _ Vb). f_equal. symmetry.
    destruct sb; cbn [cond_Zopp]; [apply Z.compare_gt_iff | apply Z.compare_lt_iff]; lia.
  - pose proof (scaled_pos _ _ Va). f_equal. symmetry.
    destruct sa; cbn [cond_Zopp]; [apply Z.compare_lt_iff | apply Z.compare_gt_iff]; lia.
  - pose proof (scaled_pos _ _ Va) as Ha0. pose proof (scaled_pos _ _ Vb) as Hb0.
    assert (Hpow : 0 < 2 ^ (eb + 1074)).
    { apply Z.pow_pos_nonneg; [lia|]. apply bounded_inv in Vb. lia. }
    change (Pos.compare_cont Eq ma mb) with (Pos.compare ma mb).
    f_equal. symmetry.
    destruct sa, sb; cbn [cond_Zopp CompOpp];
      [ | apply Z.compare_lt_iff; lia | apply Z.compare_gt_iff; lia | ].
    + destruct (Z.compare_spec ea eb) as [E|E|E].
      * subst. destruct (Pos.compare_spec ma mb) as [E|E|E]; cbn [CompOpp].
        -- subst. apply Z.compare_refl.
        -- apply Z.compare_gt_iff. nia.
        -- apply Z.compare_lt_iff. nia.
      * pose proof (canonical_lt _ _ _ _ Va Vb E). apply Z.compare_gt_iff. lia.
      * pose proof (canonical_lt _ _ _ _ Vb Va E). apply Z.compare_lt_iff. lia.
    + destruct (Z.compare_spec ea eb) as [E|E|E].
      * subst. destruct (Pos.compare_spec ma mb) as [E|E|E]; cbn [CompOpp].
        -- subst. apply Z.compare_refl.
        -- apply Z.compare_lt_iff. nia.
        -- apply Z.compare_gt_iff. nia.
      * pose proof (canonical_lt _ _ _ _ Va Vb E). apply Z.compare_lt_iff. lia.
      * pose proof (canonical_lt _ _ _ _ Vb Va E). apply Z.compare_gt_iff. lia.
Qed.

Lemma scaled_le a b za zb :
  valid_binary a = true -> valid_binary b = true ->
  scaled a = Some za -> scaled b = Some zb ->
  SFleb a b = true <-> za <= zb.
Proof.
  intros Va Vb Ha Hb. unfold SFleb.
  rewrite (SFcompare_scaled a b za zb Va Vb Ha Hb).
  destruct (Z.compare_spec za zb); split; intros; try lia; try discriminate; reflexivity.
Qed.

Lemma Qpower_2_min : (Qpower 2 (-1074) == 1 # ulp_denominator)%Q.
Proof. vm_compute. reflexivity. Qed.

Lemma SF2Q_scaled s q :
  valid_binary s = true -> SF2Q s = Some q ->
  exists z, scaled s = Some z /\ (q == z # ulp_denominator)%Q.
Proof.
  intros V H. destruct s as [sg|sg| |sg m e]; simpl in *; try discriminate;
    injection H as <-.
  - exists 0. split; [reflexivity|]. reflexivity.
  - eexists. split; [reflexivity|].
    apply bounded_inv in V. destruct V as (He & _).
    replace e with ((e + 1074) + (-1074)) at 1 by lia.
    rewrite Qpower_plus by discriminate.
    rewrite Qpower_2_min.
    rewrite <- (Zpower_Qpower 2 (e + 1074)) by lia.
    rewrite Qmult_assoc, <- inject_Z_mult.
    replace (cond_Zopp sg (Z.pos m) * 2 ^ (e + 1074))
      with (cond_Zopp sg (Z.pos m * 2 ^ (e + 1074))) by (destruct sg; simpl; lia).
    unfold Qeq, Qmult, inject_Z. simpl. lia.
Qed.

Lemma exact_le x y qx qy :
  exact x = Some qx -> exact y = Some qy ->
  (x <=? y)%float = true <-> (qx <= qy)%Q.
Proof.
  unfold exact. intros Hx Hy. rewrite FloatAxioms.leb_spec.
  destruct (SF2Q_scaled _ _ (Prim2SF_valid x) Hx) as (zx & Hzx & Ex).
  destruct (SF2Q_scaled _ _ (Prim2SF_valid y) Hy) as (zy & Hzy & Ey).
  rewrite Ex, Ey.
  rewrite (scaled_le _ _ _ _ (Prim2SF_valid x) (Prim2SF_valid y) Hzx Hzy).
  unfold Qle. simpl. split; intros; nia.
Qed.

Lemma exact_sum_In numbers total x :
  exact_sum numbers = Some total -> In x numbers -> exists q, exact x = Some q.
Proof.
  revert total. induction numbers as [|y rest IH]; intros total H Hx; [destruct Hx|].
  simpl in H. destruct (exact y) as [q|] eqn:Ey; [|discriminate].
  destruct (exact_sum rest) as [t|] eqn:Er; [|discriminate].
  destruct Hx as [<- | Hx]; [now exists q | now apply (IH t)].
Qed.

Lemma exact_sum_bounds numbers lo hi total :
  exact_sum numbers = Some total ->
  (forall x q, In x numbers -> exact x = Some q -> (lo <= q)%Q /\ (q <= hi)%Q) ->
  (lo * inject_Z (Z.of_nat (length numbers)) <= total)%Q
  /\ (total <= hi * inject_Z (Z.of_nat (length numbers)))%Q.
Proof.
  revert total. induction numbers as [|y rest IH]; intros total H Hb; simpl in H.
  - injection H as <-. simpl. rewrite !Qmult_0_r. split; apply Qle_refl.
  - destruct (exact y) as [q|] eqn:Ey; [|discriminate].
    destruct (exact_sum rest) as [t|] eqn:Er; [|discriminate].
    injection H as <-.
    destruct (Hb y q (or_introl eq_refl) Ey) as [Hlo Hhi].
    destruct (IH t eq_refl) as [IHlo IHhi].
    { intros x r Hx. apply Hb. now right. }
    change (length (y :: rest)) with (S (length rest)).
    rewrite Nat2Z.inj_succ, <- Z.add_1_l, inject_Z_plus.
    rewrite !Qmult_plus_distr_r, !Qmult_1_r.
    split; apply Qplus_le_compat; assumption.
Qed.

End ExactFacts.

(** ** Facts about [Math.min], [Math.max] and [Set] *)

Module BuiltinFacts.
Import JS Builtins FloatFacts.
Local Open Scope float_scope.

Lemma is_neg_zero_true x : is_neg_zero x = true -> x = neg_zero.
Proof. apply FloatAxioms.Leibniz.eqb_spec. Qed.

Lemma is_pos_zero_true x : is_pos_zero x = true -> x = zero.
Proof. apply FloatAxioms.Leibniz.eqb_spec. Qed.

Lemma Math_min_from_spec numbers :
  no_nan numbers ->
  forall lowest, is_nan lowest = false ->
  let r := Math_min_from lowest numbers in
  (r = lowest \/ In r numbers)
  /\ (r <=? lowest) = true
  /\ (forall x, In x numbers -> (r <=? x) = true).
Proof.
  induction numbers as [|number rest IH]; intros Hn lowest Hl; simpl.
  - split; [now left|]. split; [now apply leb_refl|]. intros x [].
  - assert (Hnum : is_nan number = false) by (apply Hn; now left).
    assert (Hrest : no_nan rest) by (intros x Hx; apply Hn; now right).
    rewrite Hnum.
    set (l1 := if is_neg_zero number && is_pos_zero lowest then neg_zero else lowest).
    set (l2 := if number <? l1 then number else l1).
    assert (H1 : (l1 = lowest \/ l1 = number) /\ (l1 <=? lowest) = true).
    { unfold l1. destruct (is_neg_zero number) eqn:Ez; simpl.
      - destruct (is_pos_zero lowest) eqn:Ep.
        + apply is_neg_zero_true in Ez. apply is_pos_zero_true in Ep.
          subst. split; [now right | reflexivity].
        + split; [now left | now apply leb_refl].
      - split; [now left | now apply leb_refl]. }
    destruct H1 as [H1 H1le].
    assert (Hl1 : is_nan l1 = false) by (destruct H1 as [-> | ->]; assumption).
    assert (H2 : (l2 = lowest \/ l2 = number)
                 /\ (l2 <=? l1) = true /\ (l2 <=? number) = true).
    { unfold l2. destruct (number <? l1) eqn:Elt.
      - split; [now right|]. split; [now apply ltb_leb | now apply leb_refl].
      - split; [exact H1|]. split; [now apply leb_refl | now apply ltb_false_leb]. }
    destruct H2 as (H2 & H2le & H2num).
    assert (Hl2 : is_nan l2 = false) by (destruct H2 as [-> | ->]; assumption).
    destruct (IH Hrest l2 Hl2) as (Hr & Hrle & Hall).
    split; [|split].
    + destruct Hr as [Hr | Hr]; [|now right; right].
      rewrite Hr. destruct H2 as [-> | ->]; [now left | now right; left].
    + apply (leb_trans _ l2); [exact Hrle|]. now apply (leb_trans _ l1).
    + intros x [<- | Hx]; [|now apply Hall].
      now apply (leb_trans _ l2).
Qed.

Lemma Math_min_spec numbers :
  numbers <> [] -> no_nan numbers ->
  In (Math_min numbers) numbers
  /\ (forall x, In x numbers -> (Math_min numbers <=? x) = true).
Proof.
  intros Hne Hn.
  destruct (Math_min_from_spec numbers Hn infinity eq_refl) as (Hr & _ & Hall).
  split; [|exact Hall].
  destruct Hr as [Hr | Hr]; [|exact Hr].
  destruct numbers as [|x rest]; [congruence|].
  assert (Hx : (Math_min (x :: rest) <=? x) = true) by (apply Hall; now left).
  unfold Math_min in *. rewrite Hr in Hx |- *.
  apply infinity_leb_inv in Hx. subst. now left.
Qed.

Lemma Math_max_from_spec numbers :
  no_nan numbers ->
  forall highest, is_nan highest = false ->
  let r := Math_max_from highest numbers in
  (r = highest \/ In r numbers)
  /\ (highest <=? r) = true
  /\ (forall x, In x numbers -> (x <=? r) = true).
Proof.
  induction numbers as [|number rest IH]; intros Hn highest Hh; simpl.
  - split; [now left|]. split; [now apply leb_refl|]. intros x [].
  - assert (Hnum : is_nan number = false) by (apply Hn; now left).
    assert (Hrest : no_nan rest) by (intros x Hx; apply Hn; now right).
    rewrite Hnum.
    set (h1 := if is_pos_zero number && is_neg_zero highest then zero else highest).
    set (h2 := if h1 <? number then number else h1).
    assert (H1 : (h1 = highest \/ h1 = number) /\ (highest <=? h1) = true).
    { unfold h1. destruct (is_pos_zero number) eqn:Ep; simpl.
      - destruct (is_neg_zero highest) eqn:Ez.
        + apply is_neg_zero_true in Ez. apply is_pos_zero_true in Ep.
          subst. split; [now right | reflexivity].
        + split; [now left | now apply leb_refl].
      - split; [now left | now apply leb_refl]. }
    destruct H1 as [H1 H1le].
    assert (Hh1 : is_nan h1 = false) by (destruct H1 as [-> | ->]; assumption).
    assert (H2 : (h2 = highest \/ h2 = number)
                 /\ (h1 <=? h2) = true /\ (number <=? h2) = true).
    { unfold h2. destruct (h1 <? number) eqn:Elt.
      - split; [now right|]. split; [now apply ltb_leb | now apply leb_refl].
      - split; [exact H1|]. split; [now apply leb_refl | now apply ltb_false_leb]. }
    destruct H2 as (H2 & H2le & H2num).
    assert (Hh2 : is_nan h2 = false) by (destruct H2 as [-> | ->]; assumption).
    destruct (IH Hrest h2 Hh2) as (Hr & Hrle & Hall).
    split; [|split].
    + destruct Hr as [Hr | Hr]; [|now right; right].
      rewrite Hr. destruct H2 as [-> | ->]; [now left | now right; left].
    + apply (leb_trans _ h1); [exact H1le|]. now apply (leb_trans _ h2).
    + intros x [<- | Hx]; [|now apply Hall].
      now apply (leb_trans _ h2).
Qed.

Lemma Math_max_spec numbers :
  numbers <> [] -> no_nan numbers ->
  In (Math_max numbers) numbers
  /\ (forall x, In x numbers -> (x <=? Math_max numbers) = true).
Proof.
  intros Hne Hn.
  destruct (Math_max_from_spec numbers Hn neg_infinity eq_refl) as (Hr & _ & Hall).
  split; [|exact Hall].
  destruct Hr as [Hr | Hr]; [|exact Hr].
  destruct numbers as [|x rest]; [congruence|].
  assert (Hx : (x <=? Math_max (x :: rest)) = true) by (apply Hall; now left).
  unfold Math_max in *. rewrite Hr in Hx |- *.
  apply leb_neg_infinity_inv in Hx. subst. now left.
Qed.

Lemma object_ref_eqb_eq a b : object_ref_eqb a b = true <-> a = b.
Proof.
  destruct a, b; simpl; try (split; congruence).
  rewrite String.eqb_eq. split; congruence.
Qed.

Lemma SameValueZero_refl v : SameValueZero v v = true.
Proof.
  destruct v as [| |b|n|s|o]; simpl; try reflexivity.
  - now destruct b.
  - destruct (is_nan n) eqn:E; [reflexivity|]. simpl. now apply eqb_refl.
  - apply String.eqb_refl.
  - now apply object_ref_eqb_eq.
Qed.

Lemma SameValueZero_sym u v : SameValueZero u v = SameValueZero v u.
Proof.
  destruct u as [| |b|n|s|o], v as [| |b'|n'|s'|o']; simpl; try reflexivity.
  - now destruct b, b'.
  - now rewrite andb_comm, eqb_sym.
  - apply String.eqb_sym.
  - destruct (object_ref_eqb o o') eqn:E.
    + apply object_ref_eqb_eq in E. subst. symmetry. now apply object_ref_eqb_eq.
    + destruct (object_ref_eqb o' o) eqn:E'; [|reflexivity].
      apply object_ref_eqb_eq in E'. subst.
      rewrite (proj2 (object_ref_eqb_eq o o) eq_refl) in E. discriminate.
Qed.

Lemma SameValueZero_trans u v w :
  SameValueZero u v = true -> SameValueZero v w = true -> SameValueZero u w = true.
Proof.
  destruct u as [| |b|n|s|o], v as [| |b'|n'|s'|o'], w as [| |b''|n''|s''|o''];
    simpl; try congruence.
  - destruct b, b', b''; simpl; congruence.
  - rewrite !orb_true_iff, !andb_true_iff.
    intros [[Hn Hn'] | H1] [[Hm Hm'] | H2].
    + left. now split.
    + apply eqb_not_nan in H2. destruct H2. congruence.
    + apply eqb_not_nan in H1. destruct H1. congruence.
    + right. now apply (eqb_trans _ n').
  - rewrite !String.eqb_eq. congruence.
  - rewrite !object_ref_eqb_eq. congruence.
Qed.

Lemma SameValueZero_normalize_zero e v :
  SameValueZero e (normalize_zero v) = SameValueZero e v.
Proof.
  destruct v as [| |b|n|s|o]; try reflexivity. simpl.
  destruct (is_neg_zero n) eqn:E; [|reflexivity].
  apply is_neg_zero_true in E. subst.
  destruct e; try reflexivity. simpl.
  now rewrite eqb_neg_zero_r.
Qed.

Lemma ForallOrdPairs_snoc {A} (R : A -> A -> Prop) l x :
  ForallOrdPairs R l -> Forall (fun a => R a x) l -> ForallOrdPairs R (l ++ [x]).
Proof.
  induction 1 as [|a l Ha Hl IH]; intros Hx; simpl.
  - constructor; constructor.
  - inversion Hx; subst. constructor.
    + apply Forall_app. split; [assumption | now constructor].
    + now apply IH.
Qed.

Lemma existsb_false_Forall (f : value -> bool) l :
  List.existsb f l = false -> Forall (fun a => f a = false) l.
Proof.
  induction l as [|a l IH]; simpl; intros H; constructor;
    apply orb_false_iff in H; destruct H; auto.
Qed.

Lemma Set_add_distinct entries v : distinct entries -> distinct (Set_add entries v).
Proof.
  intros Hd. unfold Set_add.
  destruct (List.existsb _ entries) eqn:E; [exact Hd|].
  apply ForallOrdPairs_snoc; [exact Hd|].
  apply existsb_false_Forall in E.
  eapply List.Forall_impl; [|exact E]. simpl. intros a Ha.
  now rewrite SameValueZero_normalize_zero.
Qed.

Lemma Set_add_incl entries v e : In e entries -> In e (Set_add entries v).
Proof.
  intros H. unfold Set_add. destruct (List.existsb _ entries); [exact H|].
  apply in_or_app. now left.
Qed.

Lemma Set_add_has entries v :
  exists u, In u (Set_add entries v) /\ SameValueZero u v = true.
Proof.
  unfold Set_add. destruct (List.existsb _ entries) eqn:E.
  - apply List.existsb_exists in E. destruct E as (u & Hu & Huv). now exists u.
  - exists (normalize_zero v). split.
    + apply in_or_app. right. now left.
    + rewrite SameValueZero_sym, SameValueZero_normalize_zero.
      apply SameValueZero_refl.
Qed.

Lemma Set_add_inv entries v u :
  In u (Set_add entries v) -> In u entries \/ u = normalize_zero v.
Proof.
  unfold Set_add. destruct (List.existsb _ entries); [now left|].
  intros H. apply in_app_or in H. destruct H as [H | [H | []]]; [now left | now right].
Qed.

Lemma fold_Set_add_spec values : forall entries,
  let s := List.fold_left Set_add values entries in
  (distinct entries -> distinct s)
  /\ (forall e, In e entries -> In e s)
  /\ (forall v, In v values -> exists u, In u s /\ SameValueZero u v = true)
  /\ (forall u, In u s ->
        In u entries \/ exists v, In v values /\ u = normalize_zero v).
Proof.
  induction values as [|v values IH]; intros entries; simpl.
  - repeat split; auto. intros v [].
  - destruct (IH (Set_add entries v)) as (Hd & Hin & Hcov & Hfrom).
    repeat split.
    + intros H. now apply Hd, Set_add_distinct.
    + intros e He. now apply Hin, Set_add_incl.
    + intros w [<- | Hw]; [|now apply Hcov].
      destruct (Set_add_has entries v) as (u & Hu & Huv).
      exists u. split; [now apply Hin | exact Huv].
    + intros u Hu. destruct (Hfrom u Hu) as [H | (w & Hw & ->)].
      * apply Set_add_inv in H. destruct H as [H | ->]; [now left|].
        right. exists v. split; [now left | reflexivity].
      * right. exists w. split; [now right | reflexivity].
Qed.

Lemma new_Set_spec values :
  distinct (new_Set values)
  /\ (forall v, In v values ->
        exists u, In u (new_Set values) /\ SameValueZero u v = true)
  /\ (forall u, In u (new_Set values) ->
        exists v, In v values /\ u = normalize_zero v).
Proof.
  destruct (fold_Set_add_spec values []) as (Hd & _ & Hcov & Hfrom).
  split; [apply Hd; constructor|]. split; [exact Hcov|].
  intros u Hu. destruct (Hfrom u Hu) as [[] | H]. exact H.
Qed.

End BuiltinFacts.

(** ** getColumnStatistics *)

Module ColumnStatistics.
Import JS Builtins Exact ExcelProcessor Examples.
Import FloatFacts ExactFacts BuiltinFacts.

Lemma forallb_false {A} (f : A -> bool) l :
  List.forallb f l = false <-> exists x, In x l /\ f x = false.
Proof.
  induction l as [|a l IH]; simpl.
  - split; [discriminate | intros (x & [] & _)].
  - rewrite andb_false_iff, IH. split.
    + intros [H | (x & Hx & Hf)]; [exists a | exists x]; auto.
    + intros (x & [<- | Hx] & Hf); [now left | right; now exists x].
Qed.

Lemma all_numeric_true values :
  List.forallb (fun val => negb (isNaN val)) values = true
  <-> forall v, In v values -> isNaN v = false.
Proof.
  rewrite List.forallb_forall. split; intros H v Hv; specialize (H v Hv).
  - now apply negb_true_iff in H.
  - now apply negb_true_iff.
Qed.

Lemma all_numeric_false values :
  List.forallb (fun val => negb (isNaN val)) values = false
  <-> exists v, In v values /\ isNaN v = true.
Proof.
  rewrite forallb_false. split; intros (v & Hv & H); exists v; split; auto.
  - now apply negb_false_iff in H.
  - now apply negb_false_iff.
Qed.

Lemma columnValues_In data columnName v :
  In v (columnValues data columnName)
  <-> v <> VUndefined /\ exists row, In row data /\ get row columnName = v.
Proof.
  unfold columnValues. rewrite List.filter_In, List.in_map_iff. split.
  - intros ((row & Hg & Hrow) & Hv). split; [|now exists row].
    intros ->. discriminate.
  - intros (Hv & row & Hrow & Hg). split; [now exists row|].
    destruct v; try reflexivity. congruence.
Qed.

(** The projection and filter of the code keep the values of the column,
    as the specification names them. *)
Lemma columnValues_values data columnName :
  columnValues data columnName = Column.values data columnName.
Proof.
  unfold columnValues. induction data as [|row data IH]; [reflexivity|].
  cbn [List.map List.filter Column.values]. rewrite IH.
  now destruct (get row columnName).
Qed.

Lemma values_In data columnName v :
  In v (Column.values data columnName)
  <-> v <> VUndefined /\ exists row, In row data /\ get row columnName = v.
Proof. rewrite <- columnValues_values. apply columnValues_In. Qed.


Lemma not_coercible v : ~ Column.coercible v <-> isNaN v = true.
Proof.
  unfold Column.coercible, isNaN. destruct (is_nan (ToNumber v)); split; congruence.
Qed.

Lemma numbers_no_nan values :
  (forall v, In v values -> isNaN v = false) -> no_nan (List.map Number values).
Proof.
  intros H x Hx. apply List.in_map_iff in Hx. destruct Hx as (v & <- & Hv).
  now apply H.
Qed.

Section WithEngine.
Context {engine : Engine}.

Lemma spread_call_fits {A B} (f : list A -> B) args :
  (length args <= max_arguments)%nat -> spread_call f args = normal (f args).
Proof.
  intros H. unfold spread_call.
  destruct (max_arguments <? length args)%nat eqn:E; [|reflexivity].
  apply Nat.ltb_lt in E. lia.
Qed.

Lemma spread_call_too_many {A B} (f : list A -> B) args :
  (max_arguments < length args)%nat -> spread_call f args = throw too_many_arguments.
Proof. intros H. unfold spread_call. apply Nat.ltb_lt in H. now rewrite H. Qed.

(** The four outcomes of [getColumnStatistics], by the tests it makes. *)
Lemma getColumnStatistics_null data columnName :
  columnValues data columnName = [] ->
  getColumnStatistics data columnName = normal null.
Proof. unfold getColumnStatistics. now intros ->. Qed.

Lemma getColumnStatistics_numeric data columnName :
  columnValues data columnName <> [] ->
  List.forallb (fun val => negb (isNaN val)) (columnValues data columnName) = true ->
  (length (columnValues data columnName) <= max_arguments)%nat ->
  getColumnStatistics data columnName =
  let numbers := List.map Number (columnValues data columnName) in
  normal (numeric {| Numeric.min := Math_min numbers;
                     Numeric.max := Math_max numbers;
                     Numeric.average :=
                       (reduce_sum numbers / Number_of_length (length numbers))%float;
                     Numeric.sum := reduce_sum numbers;
                     Numeric.count := length numbers |}).
Proof.
  unfold getColumnStatistics. intros Hne Hall Hfits.
  destruct (columnValues data columnName) as [|v values]; [congruence|].
  change (length (v :: values) =? 0)%nat with false. cbv iota.
  rewrite Hall. cbv zeta.
  rewrite !spread_call_fits by now rewrite List.length_map.
  reflexivity.
Qed.

Lemma getColumnStatistics_too_many data columnName :
  columnValues data columnName <> [] ->
  List.forallb (fun val => negb (isNaN val)) (columnValues data columnName) = true ->
  (max_arguments < length (columnValues data columnName))%nat ->
  getColumnStatistics data columnName = throw too_many_arguments.
Proof.
  unfold getColumnStatistics. intros Hne Hall Hmany.
  destruct (columnValues data columnName) as [|v values]; [congruence|].
  change (length (v :: values) =? 0)%nat with false. cbv iota.
  rewrite Hall. cbv zeta.
  rewrite (spread_call_too_many Math_min) by now rewrite List.length_map.
  reflexivity.
Qed.

Lemma getColumnStatistics_categorical data columnName :
  columnValues data columnName <> [] ->
  List.forallb (fun val => negb (isNaN val)) (columnValues data columnName) = false ->
  getColumnStatistics data columnName =
  normal (categorical
            {| Categorical.uniqueValues := new_Set (columnValues data columnName);
               Categorical.count := length (columnValues data columnName);
               Categorical.type := "categorical" |}).
Proof.
  unfold getColumnStatistics. intros Hne Hall.
  destruct (columnValues data columnName) as [|v values]; [congruence|].
  change (length (v :: values) =? 0)%nat with false. cbv iota.
  now rewrite Hall.
Qed.

(** The same, over the values of the column. *)
Lemma getColumnStatistics_outcomes data columnName :
  let values := Column.values data columnName in
  let numbers := List.map Number values in
  (values = [] /\ getColumnStatistics data columnName = normal null)
  \/ (values <> [] /\ (forall v, In v values -> Column.coercible v)
      /\ (length values <= max_arguments)%nat
      /\ getColumnStatistics data columnName
         = normal (numeric {| Numeric.min := Math_min numbers;
                              Numeric.max := Math_max numbers;
                              Numeric.average :=
                                (reduce_sum numbers
                                 / Number_of_length (length numbers))%float;
                              Numeric.sum := reduce_sum numbers;
                              Numeric.count := length numbers |}))
  \/ (values <> [] /\ (forall v, In v values -> Column.coercible v)
      /\ (max_arguments < length values)%nat
      /\ getColumnStatistics data columnName = throw too_many_arguments)
  \/ (values <> [] /\ (exists v, In v values /\ ~ Column.coercible v)
      /\ getColumnStatistics data columnName
         = normal (categorical {| Categorical.uniqueValues := new_Set values;
                                  Categorical.count := length values;
                                  Categorical.type := "categorical" |})).
Proof.
  cbv zeta. rewrite <- (columnValues_values data columnName).
  destruct (columnValues data columnName) as [|v0 vs] eqn:Ev.
  { left. split; [reflexivity|]. now apply getColumnStatistics_null. }
  right. rewrite <- Ev.
  assert (Hne : columnValues data columnName <> []) by congruence.
  destruct (List.forallb (fun val => negb (isNaN val)) (columnValues data columnName))
    eqn:Hall.
  - pose proof (proj1 (all_numeric_true _) Hall) as Hcoerce.
    destruct (Nat.le_gt_cases (length (columnValues data columnName)) max_arguments)
      as [Hfits | Hmany]; [left | right; left].
    + split; [exact Hne|]. split; [exact Hcoerce|]. split; [exact Hfits|].
      now apply getColumnStatistics_numeric.
    + split; [exact Hne|]. split; [exact Hcoerce|]. split; [exact Hmany|].
      now apply getColumnStatistics_too_many.
  - right. right. split; [exact Hne|]. split.
    + apply all_numeric_false in Hall. destruct Hall as (v & Hv & Hnan).
      exists v. split; [exact Hv|]. now apply not_coercible.
    + now apply getColumnStatistics_categorical.
Qed.

(** C1. The choice between the numeric and the categorical branch is made
    for the column as a whole, over its values: what the rows hold under
    the header, [undefined] apart.  For a column with at least one value
    (with none the result is [null]), the numeric branch is taken exactly
    when every value is numeric-coercible; it ends with the numeric record
    or, when the values are more than the engine takes as arguments, with
    its RangeError.  The categorical record is returned exactly when one
    value is not coercible.  The column [1, "x", 3] gives the categorical
    record with count 3 and unique values 1, "x", 3; a missing cell is no
    value, so [1, , 2] gives the numeric record of 1 and 2. *)
Theorem classification_all_or_nothing (data : list object) (columnName : string) :
  let values := Column.values data columnName in
  let result := getColumnStatistics data columnName in
  (forall v, In v values
     <-> v <> VUndefined /\ exists row, In row data /\ get row columnName = v)
  /\ ((exists s, result = normal (numeric s)) \/ (exists e, result = throw e)
      <-> values <> [] /\ forall v, In v values -> Column.coercible v)
  /\ ((exists s, result = normal (numeric s))
      <-> values <> [] /\ (forall v, In v values -> Column.coercible v)
          /\ (length values <= max_arguments)%nat)
  /\ ((exists s, result = normal (categorical s))
      <-> exists v, In v values /\ ~ Column.coercible v)
  /\ getColumnStatistics mixed_1_x_3 "c"
     = normal (categorical
                 {| Categorical.uniqueValues := [VNumber 1; VString "x"; VNumber 3];
                    Categorical.count := 3;
                    Categorical.type := "categorical" |})
  /\ ((2 <= max_arguments)%nat ->
      getColumnStatistics one_missing_two "c"
      = normal (numeric {| Numeric.min := 1; Numeric.max := 2; Numeric.average := 1.5;
                           Numeric.sum := 3; Numeric.count := 2 |})).
Proof.
  cbv zeta.
  split; [apply values_In|].
  assert (Hex : getColumnStatistics mixed_1_x_3 "c"
     = normal (categorical
                 {| Categorical.uniqueValues := [VNumber 1; VString "x"; VNumber 3];
                    Categorical.count := 3;
                    Categorical.type := "categorical" |})) by reflexivity.
  assert (Hex2 : (2 <= max_arguments)%nat ->
      getColumnStatistics one_missing_two "c"
      = normal (numeric {| Numeric.min := 1; Numeric.max := 2; Numeric.average := 1.5;
                           Numeric.sum := 3; Numeric.count := 2 |})).
  { intros H. rewrite getColumnStatistics_numeric; [reflexivity | discriminate
                                                    | reflexivity | exact H]. }
  destruct (getColumnStatistics_outcomes data columnName)
    as [(He & Hr) | [(Hne & Hc & Hfits & Hr) | [(Hne & Hc & Hmany & Hr)
                                                | (Hne & (v & Hv & Hnot) & Hr)]]];
    cbv zeta in Hr; rewrite Hr;
    (split; [|split; [|split; [|split; [exact Hex | exact Hex2]]]]).
  - split; [intros [(s & H) | (e & H)]; discriminate | intros (H & _); congruence].
  - split; [intros (s & H); discriminate | intros (H & _); congruence].
  - split; [intros (s & H); discriminate|].
    intros (v & Hv & _). rewrite He in Hv. destruct Hv.
  - split; [intros _; now split | intros _; left; eexists; reflexivity].
  - split; [intros _; now repeat split | intros _; eexists; reflexivity].
  - split; [intros (s & H); discriminate|].
    intros (v & Hv & Hnot). now destruct Hnot; apply Hc.
  - split; [intros _; now split | intros _; right; eexists; reflexivity].
  - split; [intros (s & H); discriminate | intros (_ & _ & H); lia].
  - split; [intros (s & H); discriminate|].
    intros (v & Hv & Hnot). now destruct Hnot; apply Hc.
  - split; [intros [(s & H) | (e & H)]; discriminate|].
    intros (_ & H). now destruct Hnot; apply H.
  - split; [intros (s & H); discriminate|].
    intros (_ & H & _). now destruct Hnot; apply H.
  - split; [intros _; now exists v | intros _; eexists; reflexivity].
Qed.

End WithEngine.

Lemma classification_all_or_nothing_witness :
  getColumnStatistics (engine := node) one_missing_two "c"
  = normal (numeric {| Numeric.min := 1; Numeric.max := 2; Numeric.average := 1.5;
                       Numeric.sum := 3; Numeric.count := 2 |}).
Proof.
  apply (classification_all_or_nothing (engine := node) one_missing_two "c").
  simpl. lia.
Defined.







Section WithEngine.
Context {engine : Engine}.


(** C4. A categorical record has [type] "categorical" and [count] the number
    of the column's values, which are what the rows hold under the header,
    [undefined] apart; duplicates are counted.  [uniqueValues] are the
    entries of a [Set] built from those raw values: they are pairwise
    different, none is [undefined], every value of the column is among them
    up to SameValueZero, and each of them is a value of the column as it
    stands (only a negative zero is stored as zero).  The column
    ["a", "b", "a"] gives two unique values and count 3. *)
Theorem categorical_branch_statistics :
  (forall (data : list object) (columnName : string) (s : Categorical.t),
      getColumnStatistics data columnName = normal (categorical s) ->
      let values := Column.values data columnName in
      (forall v, In v values
         <-> v <> VUndefined /\ exists row, In row data /\ get row columnName = v)
      /\ Categorical.type s = "categorical"%string
      /\ Categorical.count s = length values
      /\ Categorical.uniqueValues s = new_Set values
      /\ distinct (Categorical.uniqueValues s)
      /\ ~ In VUndefined (Categorical.uniqueValues s)
      /\ (forall v, In v values ->
            exists u, In u (Categorical.uniqueValues s) /\ SameValueZero u v = true)
      /\ (forall u, In u (Categorical.uniqueValues s) ->
            exists v, In v values /\ u = normalize_zero v))
  /\ getColumnStatistics strings_a_b_a "c"
     = normal (categorical {| Categorical.uniqueValues := [VString "a"; VString "b"];
                              Categorical.count := 3;
                              Categorical.type := "categorical" |}).
Proof.
  split; [|reflexivity].
  intros data columnName s Hs. cbv zeta.
  split; [apply values_In|].
  destruct (getColumnStatistics_outcomes data columnName)
    as [(_ & Hr) | [(_ & _ & _ & Hr) | [(_ & _ & _ & Hr) | (_ & _ & Hr)]]];
    cbv zeta in Hr; rewrite Hr in Hs; try discriminate.
  injection Hs as <-.
  cbn [Categorical.count Categorical.type Categorical.uniqueValues].
  destruct (new_Set_spec (Column.values data columnName)) as (Hd & Hcov & Hfrom).
  repeat split; try assumption.
  intros Hin. destruct (Hfrom _ Hin) as (w & Hw & E).
  assert (Hwu : w = VUndefined).
  { destruct w as [| | | n | |]; simpl in E; try discriminate; try reflexivity.
    destruct (is_neg_zero n); discriminate. }
  subst w. apply values_In in Hw. now destruct Hw.
Qed.
End WithEngine.

Lemma categorical_branch_statistics_witness :
  exists s,
    getColumnStatistics (engine := node) strings_a_b_a "c" = normal (categorical s)
    /\ Categorical.type s = "categorical"%string
    /\ Categorical.count s = 3%nat
    /\ Categorical.uniqueValues s = [VString "a"; VString "b"].
Proof.
  eexists. split; [reflexivity|].
  destruct (proj1 (categorical_branch_statistics (engine := node))
                  strings_a_b_a "c" _ eq_refl)
    as (_ & Ht & Hc & Hu & _).
  exact (conj Ht (conj Hc Hu)).
Defined.

Section WithEngine.
Context {engine : Engine}.

Lemma getColumnStatistics_numeric_inv data columnName s :
  getColumnStatistics data columnName = normal (numeric s) ->
  columnValues data columnName <> []
  /\ List.forallb (fun val => negb (isNaN val)) (columnValues data columnName) = true
  /\ (length (columnValues data columnName) <= max_arguments)%nat.
Proof.
  intros Hs.
  assert (Hne : columnValues data columnName <> []).
  { intros E. rewrite (getColumnStatistics_null _ _ E) in Hs. discriminate. }
  split; [exact Hne|].
  destruct (List.forallb _ (columnValues data columnName)) eqn:Hall.
  - split; [reflexivity|].
    destruct (Nat.le_gt_cases (length (columnValues data columnName)) max_arguments)
      as [Hfits | Hmany]; [exact Hfits|].
    rewrite (getColumnStatistics_too_many data columnName Hne Hall Hmany) in Hs.
    discriminate.
  - rewrite (getColumnStatistics_categorical data columnName Hne Hall) in Hs.
    discriminate.
Qed.

(** Columns of zeros *)
Lemma Math_min_from_zeros n : Math_min_from zero (repeat zero n) = zero.
Proof. induction n as [|n IH]; [reflexivity | exact IH]. Qed.

Lemma Math_max_from_zeros n : Math_max_from zero (repeat zero n) = zero.
Proof. induction n as [|n IH]; [reflexivity | exact IH]. Qed.

Lemma reduce_sum_zeros n : reduce_sum (repeat zero n) = zero.
Proof. unfold reduce_sum. induction n as [|n IH]; [reflexivity | exact IH]. Qed.

Lemma zero_div_length n :
  (1 <= n)%nat -> Z.of_nat n < 2 ^ 32 ->
  (zero / Number_of_length n)%float = zero.
Proof.
  intros H1 H2.
  destruct (Number_of_Z_finite (Z.of_nat n)) as (m & e & H).
  { split; [lia|]. apply Z.lt_trans with (2 ^ 32); [exact H2 | reflexivity]. }
  now apply (zero_div_finite _ m e).
Qed.

Lemma all_null_numbers values :
  (forall v, In v values -> v = VNull) ->
  List.map Number values = repeat zero (length values).
Proof.
  induction values as [|v values IH]; intros H; [reflexivity|]. simpl.
  rewrite (H v (or_introl eq_refl)), IH; [reflexivity|].
  intros w Hw. apply H. now right.
Qed.

(** Columns of [null], booleans and empty strings *)
Lemma coerced_spec v :
  Column.null_boolean_or_empty v -> Column.coercible v /\ Number v = Column.coerced v.
Proof. intros [-> | [-> | [-> | ->]]]; split; reflexivity. Qed.

Lemma coerced_numbers values :
  (forall v, In v values -> Column.null_boolean_or_empty v) ->
  List.map Number values = List.map Column.coerced values.
Proof.
  intros H. apply List.map_ext_in. intros v Hv. now apply coerced_spec, H.
Qed.

Lemma coerced_cases v :
  (v = VBoolean true /\ Column.coerced v = one)
  \/ (v <> VBoolean true /\ Column.coerced v = zero).
Proof.
  destruct v as [| |[|]| | |]; solve [left; now split | right; now split].
Qed.

(** C9. Only [undefined] is left out of the values of a column.  The test
    that decides the branch is that of [isNaN] on each value: the numeric
    branch is taken (and ends with the numeric record or, beyond what the
    engine takes as arguments, with its RangeError) exactly when there is a
    value and the coercion of every value is not NaN.  [null], both
    booleans and the empty string pass the test, and coerce to 0, 1, 0 and
    0.  So a column of such values gets the numeric record over these
    numbers: [max] is 1 when [true] occurs and 0 otherwise, [min] is 1 when
    nothing but [true] occurs and 0 otherwise.  A column whose values are
    all [null] gets [{min: 0, max: 0, average: 0, sum: 0, count: n}]. *)
Theorem null_column_is_numeric :
  (Column.coercible VNull /\ Number VNull = zero)
  /\ (Column.coercible (VBoolean true) /\ Number (VBoolean true) = one)
  /\ (Column.coercible (VBoolean false) /\ Number (VBoolean false) = zero)
  /\ (Column.coercible (VString "") /\ Number (VString "") = zero)
  /\ (forall (data : list object) (columnName : string) (v : value),
        In v (Column.values data columnName)
        <-> v <> VUndefined /\ exists row, In row data /\ get row columnName = v)
  /\ (forall (data : list object) (columnName : string),
        ((exists s, getColumnStatistics data columnName = normal (numeric s))
         \/ getColumnStatistics data columnName = throw too_many_arguments)
        <-> Column.values data columnName <> []
            /\ forall v, In v (Column.values data columnName) ->
                         is_nan (ToNumber v) = false)
  /\ (forall (data : list object) (columnName : string),
        let values := Column.values data columnName in
        values <> [] ->
        (forall v, In v values -> Column.null_boolean_or_empty v) ->
        (length values <= max_arguments)%nat ->
        exists s,
          getColumnStatistics data columnName = normal (numeric s)
          /\ Numeric.count s = length values
          /\ Numeric.sum s
             = List.fold_left (fun a b => (a + b)%float)
                              (List.map Column.coerced values) 0%float
          /\ (In (VBoolean true) values -> Numeric.max s = one)
          /\ (~ In (VBoolean true) values -> Numeric.max s = zero)
          /\ ((forall v, In v values -> v = VBoolean true) -> Numeric.min s = one)
          /\ ((exists v, In v values /\ v <> VBoolean true) -> Numeric.min s = zero))
  /\ (forall (data : list object) (columnName : string),
        let values := Column.values data columnName in
        values <> [] ->
        (forall v, In v values -> v = VNull) ->
        (length values <= max_arguments)%nat ->
        Z.of_nat (length values) < 2 ^ 32 ->
        getColumnStatistics data columnName
        = normal (numeric {| Numeric.min := zero; Numeric.max := zero;
                             Numeric.average := zero; Numeric.sum := zero;
                             Numeric.count := length values |}))
  /\ Column.values nulls "c" = [VNull; VNull]
  /\ ((2 <= max_arguments)%nat ->
      getColumnStatistics nulls "c"
      = normal (numeric {| Numeric.min := zero; Numeric.max := zero;
                           Numeric.average := zero; Numeric.sum := zero;
                           Numeric.count := 2 |}))
  /\ ((4 <= max_arguments)%nat ->
      getColumnStatistics null_true_false_empty "c"
      = normal (numeric {| Numeric.min := 0; Numeric.max := 1;
                           Numeric.average := 0.25; Numeric.sum := 1;
                           Numeric.count := 4 |})).
Proof.
  repeat (split; [split; reflexivity|]).
  split; [intros; apply values_In|].
  split; [|split; [|split; [|split; [reflexivity|split]]]].
  - intros data columnName.
    destruct (getColumnStatistics_outcomes data columnName)
      as [(He & Hr) | [(Hne & Hc & Hfits & Hr) | [(Hne & Hc & Hmany & Hr)
                                                  | (Hne & (v & Hv & Hnot) & Hr)]]];
      cbv zeta in Hr; rewrite Hr.
    + split; [intros [(s & H) | H]; discriminate | intros (H & _); congruence].
    + split; [intros _; now split | intros _; left; eexists; reflexivity].
    + split; [intros _; now split | intros _; now right].
    + split; [intros [(s & H) | H]; discriminate|].
      intros (_ & H). now destruct Hnot; apply H.
  - intros data columnName values Hne HK Hfits.
    assert (Hcoerce : forall v, In v values -> Column.coercible v)
      by (intros v Hv; now apply coerced_spec, HK).
    destruct (getColumnStatistics_outcomes data columnName)
      as [(He & _) | [(_ & _ & _ & Hr) | [(_ & _ & Hmany & _)
                                          | (_ & (v & Hv & Hnot) & _)]]];
      cbv zeta in *; subst values;
      set (values := Column.values data columnName) in *.
    + congruence.
    + eexists. split; [exact Hr|].
      cbn [Numeric.min Numeric.max Numeric.sum Numeric.count].
      rewrite List.length_map, (coerced_numbers values HK).
      set (numbers := List.map Column.coerced values).
      assert (Hnn : no_nan numbers).
      { unfold numbers. rewrite <- (coerced_numbers values HK).
        now apply numbers_no_nan. }
      assert (Hnumbers : numbers <> []).
      { unfold numbers. destruct values; [congruence | discriminate]. }
      destruct (Math_min_spec numbers Hnumbers Hnn) as [Hmin Hlow].
      destruct (Math_max_spec numbers Hnumbers Hnn) as [Hmax Hhigh].
      apply List.in_map_iff in Hmin. destruct Hmin as (lo & Elo & Hlo).
      apply List.in_map_iff in Hmax. destruct Hmax as (hi & Ehi & Hhi).
      split; [reflexivity|]. split; [reflexivity|].
      split; [|split; [|split]].
      * intros Htrue.
        assert (Hle : (one <=? Math_max numbers)%float = true).
        { apply Hhigh. apply List.in_map_iff. now exists (VBoolean true). }
        rewrite <- Ehi in Hle |- *.
        destruct (coerced_cases hi) as [[_ E] | [_ E]]; rewrite E in Hle |- *;
          [reflexivity | discriminate].
      * intros Hnone. rewrite <- Ehi.
        destruct (coerced_cases hi) as [[E _] | [_ E]]; [|exact E].
        subst hi. contradiction.
      * intros Hall. rewrite <- Elo. now rewrite (Hall lo Hlo).
      * intros (u & Hu & Hnot).
        assert (Hle : (Math_min numbers <=? zero)%float = true).
        { apply Hlow. apply List.in_map_iff. exists u. split; [|exact Hu].
          destruct (coerced_cases u) as [[E _] | [_ E]]; [contradiction | exact E]. }
        rewrite <- Elo in Hle |- *.
        destruct (coerced_cases lo) as [[_ E] | [_ E]]; rewrite E in Hle |- *;
          [discriminate | reflexivity].
    + lia.
    + now destruct Hnot; apply Hcoerce.
  - intros data columnName values Hne Hnull Hfits Hlen.
    assert (Hcoerce : forall v, In v values -> Column.coercible v)
      by (intros v Hv; now rewrite (Hnull v Hv)).
    destruct (getColumnStatistics_outcomes data columnName)
      as [(He & _) | [(_ & _ & _ & Hr) | [(_ & _ & Hmany & _)
                                          | (_ & (v & Hv & Hnot) & _)]]];
      cbv zeta in *; subst values;
      set (values := Column.values data columnName) in *.
    + congruence.
    + rewrite Hr. rewrite (all_null_numbers values Hnull).
      rewrite List.repeat_length.
      destruct (length values) as [|n] eqn:En.
      { destruct values; [congruence | discriminate]. }
      rewrite reduce_sum_zeros, zero_div_length by (rewrite <- ?En; lia || assumption).
      f_equal. f_equal. f_equal.
      * unfold Math_min. simpl. apply Math_min_from_zeros.
      * unfold Math_max. simpl. apply Math_max_from_zeros.
    + lia.
    + now destruct Hnot; apply Hcoerce.
  - intros H. rewrite getColumnStatistics_numeric; [reflexivity | discriminate
                                                    | reflexivity | exact H].
  - intros H. rewrite getColumnStatistics_numeric; [reflexivity | discriminate
                                                    | reflexivity | exact H].
Qed.
End WithEngine.

Lemma null_column_is_numeric_witness :
  getColumnStatistics (engine := node) nulls "c"
  = normal (numeric {| Numeric.min := zero; Numeric.max := zero;
                       Numeric.average := zero; Numeric.sum := zero;
                       Numeric.count := length (Column.values nulls "c") |})
  /\ exists s,
       getColumnStatistics (engine := node) null_true_false_empty "c"
       = normal (numeric s)
       /\ Numeric.max s = one /\ Numeric.min s = zero.
Proof.
  pose proof (null_column_is_numeric (engine := node))
    as (_ & _ & _ & _ & _ & _ & Hkinds & Hnulls & _).
  split.
  - apply (Hnulls nulls "c").
    + discriminate.
    + intros v [<- | [<- | []]]; reflexivity.
    + simpl. lia.
    + reflexivity.
  - destruct (Hkinds null_true_false_empty "c") as (s & Hs & _ & _ & Hmax & _ & _ & Hmin).
    + discriminate.
    + unfold Column.null_boolean_or_empty.
      intros v [<- | [<- | [<- | [<- | []]]]]; auto.
    + simpl. lia.
    + exists s. split; [exact Hs|]. split.
      * apply Hmax. right. now left.
      * apply Hmin. exists VNull. split; [now left | discriminate].
Defined.

(** C10 does not hold as it stands: the column ["Infinity", "-Infinity"]
    takes the numeric branch, and its sum and average are NaN, which no
    comparison relates to [min] or [max]. *)
Lemma average_of_infinities_is_nan :
  getColumnStatistics (engine := node) infinities "c"
  = normal (numeric {| Numeric.min := neg_infinity; Numeric.max := infinity;
                       Numeric.average := nan; Numeric.sum := nan;
                       Numeric.count := 2 |})
  /\ (neg_infinity <=? nan)%float = false
  /\ (nan <=? infinity)%float = false
  /\ (nan * Number_of_length 2 =? nan)%float = false.
Proof.
  split; [|repeat split; reflexivity].
  rewrite getColumnStatistics_numeric; [reflexivity | discriminate | reflexivity|].
  simpl. lia.
Qed.

(** Rounding alone also moves the average out of range: three times 0.1
    sums to 0.30000000000000004, and a third of that exceeds 0.1. *)
Lemma average_of_tenths_exceeds_max :
  exists s,
    getColumnStatistics (engine := node) tenths "c" = normal (numeric s)
    /\ Numeric.min s = tenth /\ Numeric.max s = tenth
    /\ (Numeric.max s <? Numeric.average s)%float = true
    /\ (Numeric.average s <=? Numeric.max s)%float = false.
Proof.
  eexists. split.
  - rewrite getColumnStatistics_numeric; [reflexivity | discriminate | reflexivity|].
    simpl. lia.
  - repeat split; reflexivity.
Qed.

(** The rows the package builds carry their number under [__rowNum__]: as a
    column it is numeric, though no header names it. *)
Lemma rowNum_column :
  Object_keys (row 1 [("c"%string, VNumber 5)]) = ["c"%string]
  /\ getColumnStatistics (engine := node) numbers_1_2_3 "__rowNum__"
     = normal (numeric {| Numeric.min := 1; Numeric.max := 3; Numeric.average := 2;
                          Numeric.sum := 6; Numeric.count := 3 |}).
Proof.
  split; [reflexivity|].
  rewrite getColumnStatistics_numeric; [reflexivity | discriminate | reflexivity|].
  simpl. lia.
Qed.

Section WithEngine.
Context {engine : Engine}.

(** C10, as it holds of binary64 arithmetic. A numeric record has
    [count >= 1]; [min] and [max] are coerced values of the column and bound
    every coerced value, so [min <= max]; [sum] and [average] are the
    binary64 results of the additions and of the division.  When every
    coerced value is finite, their mean over the rationals lies between
    [min] and [max], and times [count] it is their sum over the rationals;
    an [average] that equals this mean (nothing was rounded) lies between
    [min] and [max]. *)
Theorem numeric_record_bounds
  (data : list object) (columnName : string) (s : Numeric.t) :
  getColumnStatistics data columnName = normal (numeric s) ->
  let numbers := List.map Number (columnValues data columnName) in
  (1 <= Numeric.count s)%nat
  /\ Numeric.count s = length numbers
  /\ Numeric.sum s = reduce_sum numbers
  /\ Numeric.average s = (Numeric.sum s / Number_of_length (Numeric.count s))%float
  /\ In (Numeric.min s) numbers
  /\ In (Numeric.max s) numbers
  /\ (forall x, In x numbers ->
        (Numeric.min s <=? x)%float = true /\ (x <=? Numeric.max s)%float = true)
  /\ (Numeric.min s <=? Numeric.max s)%float = true
  /\ (forall total, exact_sum numbers = Some total ->
        exists lo hi,
          exact (Numeric.min s) = Some lo /\ exact (Numeric.max s) = Some hi
          /\ let count := inject_Z (Z.of_nat (Numeric.count s)) in
             let mean := (total / count)%Q in
             (lo <= mean)%Q /\ (mean <= hi)%Q /\ (mean * count == total)%Q
             /\ (forall a, exact (Numeric.average s) = Some a -> (a == mean)%Q ->
                   (Numeric.min s <=? Numeric.average s)%float = true
                   /\ (Numeric.average s <=? Numeric.max s)%float = true)).
Proof.
  intros Hs numbers.
  destruct (getColumnStatistics_numeric_inv _ _ _ Hs) as (Hne & Hall & Hfits).
  rewrite (getColumnStatistics_numeric data columnName Hne Hall Hfits) in Hs.
  cbv zeta in Hs. fold numbers in Hs. injection Hs as <-.
  cbn [Numeric.min Numeric.max Numeric.average Numeric.sum Numeric.count].
  assert (Hnn : no_nan numbers).
  { apply numbers_no_nan. now apply all_numeric_true. }
  assert (Hnumbers : numbers <> []).
  { unfold numbers. destruct (columnValues data columnName); [congruence | discriminate]. }
  destruct (Math_min_spec numbers Hnumbers Hnn) as [Hmin Hlow].
  destruct (Math_max_spec numbers Hnumbers Hnn) as [Hmax Hhigh].
  assert (Hlen : (1 <= length numbers)%nat).
  { destruct numbers; [congruence | simpl; lia]. }
  split; [exact Hlen|]. split; [reflexivity|]. split; [reflexivity|].
  split; [reflexivity|]. split; [exact Hmin|]. split; [exact Hmax|].
  split; [intros x Hx; split; [now apply Hlow | now apply Hhigh]|].
  split; [now apply Hlow|].
  intros total Htotal.
  destruct (exact_sum_In _ _ _ Htotal Hmin) as (lo & Hlo).
  destruct (exact_sum_In _ _ _ Htotal Hmax) as (hi & Hhi).
  exists lo, hi. split; [exact Hlo|]. split; [exact Hhi|].
  destruct (exact_sum_bounds numbers lo hi total Htotal) as [Hlb Hub].
  { intros x q Hx Hq. split.
    - apply (exact_le (Math_min numbers) x); auto.
    - apply (exact_le x (Math_max numbers)); auto. }
  assert (Hpos : (0 < inject_Z (Z.of_nat (length numbers)))%Q).
  { change 0%Q with (inject_Z 0). rewrite <- Zlt_Qlt. lia. }
  assert (Hlo_mean : (lo <= total / inject_Z (Z.of_nat (length numbers)))%Q)
    by now apply Qle_shift_div_l.
  assert (Hmean_hi : (total / inject_Z (Z.of_nat (length numbers)) <= hi)%Q)
    by now apply Qle_shift_div_r.
  cbv zeta. split; [exact Hlo_mean|]. split; [exact Hmean_hi|]. split.
  - rewrite Qmult_comm. apply Qmult_div_r.
    intros E. rewrite E in Hpos. discriminate.
  - intros a Ha Hmean. split.
    + apply (exact_le _ _ lo a Hlo Ha). now rewrite Hmean.
    + apply (exact_le _ _ a hi Ha Hhi). now rewrite Hmean.
Qed.

End WithEngine.

Lemma numeric_record_bounds_witness :
  (1 <= 3)%nat
  /\ (1 <=? 3)%float = true
  /\ (1 <=? 2)%float = true
  /\ (2 <=? 3)%float = true
  /\ exists total lo hi,
       exact_sum [1; 2; 3]%float = Some total
       /\ exact 1%float = Some lo /\ exact 3%float = Some hi
       /\ (lo <= total / inject_Z 3)%Q /\ (total / inject_Z 3 <= hi)%Q.
Proof.
  assert (Hs : getColumnStatistics (engine := node) numbers_1_2_3 "c"
               = normal (numeric {| Numeric.min := 1; Numeric.max := 3;
                                    Numeric.average := 2; Numeric.sum := 6;
                                    Numeric.count := 3 |})).
  { rewrite getColumnStatistics_numeric; [reflexivity | discriminate | reflexivity|].
    simpl. lia. }
  destruct (numeric_record_bounds (engine := node) numbers_1_2_3 "c" _ Hs)
    as (Hc & _ & _ & _ & _ & _ & _ & Hle & Hexact).
  split; [exact Hc|]. split; [exact Hle|].
  destruct (exact_sum [1; 2; 3]%float) as [total|] eqn:E.
  - destruct (Hexact total E) as (lo & hi & Hlo & Hhi & H1 & H2 & _ & Havg).
    destruct (exact 2%float) as [a|] eqn:Ea.
    + destruct (Havg a Ea) as [Hmin Hmax].
      * vm_compute in E. injection E as <-.
        vm_compute in Ea. injection Ea as <-.
        vm_compute. reflexivity.
      * split; [exact Hmin|]. split; [exact Hmax|].
        exists total, lo, hi. repeat split; assumption.
    + vm_compute in Ea. discriminate.
  - vm_compute in E. discriminate.
Defined.

End ColumnStatistics.

(** ** validateExcelData *)

Module Validation.
Import JS ExcelProcessor Examples.

(** C6. [hasData] holds exactly of a non-empty row sequence, [hasHeaders]
    exactly when there is a first row and it has a key, [isConsistent]
    exactly when every row has as many keys as the first row, which is so
    whenever there are no rows or one row.  No rows give
    [{hasData: false, hasHeaders: false, isConsistent: true}]. *)
Theorem validateExcelData_spec (data : list object) :
  let validations := validateExcelData data in
  (Validations.hasData validations = true <-> data <> [])
  /\ (Validations.hasHeaders validations = true
      <-> exists first rest, data = first :: rest /\ Object_keys first <> [])
  /\ (Validations.isConsistent validations = true
      <-> forall first rest, data = first :: rest ->
          forall row, In row data ->
                      length (Object_keys row) = length (Object_keys first))
  /\ ((length data <= 1)%nat -> Validations.isConsistent validations = true)
  /\ validateExcelData []
     = {| Validations.hasData := false;
          Validations.hasHeaders := false;
          Validations.isConsistent := true |}.
Proof.
  assert (Hkeys : forall o : object,
             (0 <? length (Object_keys o))%nat = true <-> Object_keys o <> []).
  { intros o. destruct (Object_keys o); split; intros H; try discriminate;
      try reflexivity; now destruct H. }
  destruct data as [|first [|second rest]]; cbn -[List.forallb Nat.ltb];
    (split; [|split; [|split; [|split; [|reflexivity]]]]).
  - split; [discriminate | congruence].
  - split; [discriminate | intros (f & r & E & _); discriminate].
  - split; [discriminate | reflexivity].
  - reflexivity.
  - split; [discriminate | reflexivity].
  - rewrite Hkeys. split.
    + intros H. now exists first, [].
    + intros (f & r & E & Hk). now injection E as <- <-.
  - split; [|reflexivity].
    intros _ f r E row [<- | []]. now injection E as <- _.
  - reflexivity.
  - split; [discriminate | reflexivity].
  - rewrite Hkeys. split.
    + intros H. now exists first, (second :: rest).
    + intros (f & r & E & Hk). now injection E as <- <-.
  - change (1 <? S (S (length rest)))%nat with true. cbv iota.
    rewrite List.forallb_forall. split.
    + intros H f r E row Hrow. injection E as <- <-.
      now apply Nat.eqb_eq, H.
    + intros H row Hrow. apply Nat.eqb_eq.
      now apply (H first (second :: rest)).
  - simpl. lia.
Qed.

(** Rows of two keys each are consistent; one more row with a single key
    makes them inconsistent. *)
Lemma validateExcelData_examples :
  validateExcelData two_keys
  = {| Validations.hasData := true;
       Validations.hasHeaders := true;
       Validations.isConsistent := true |}
  /\ validateExcelData (two_keys ++ [row 3 [("name"%string, VString "Alan")]])%list
     = {| Validations.hasData := true;
          Validations.hasHeaders := true;
          Validations.isConsistent := false |}.
Proof. split; reflexivity. Qed.

End Validation.

(** ** processExcelFile *)

Module Processing.
Import JS ExcelProcessor Examples.

Lemma Array_map_normal {A B} (callback : A -> completion B) array ys :
  Array_map callback array = normal ys ->
  Forall2 (fun x y => callback x = normal y) array ys.
Proof.
  revert ys. induction array as [|x array IH]; intros ys H; simpl in H.
  - injection H as <-. constructor.
  - destruct (callback x) as [y|e] eqn:Ex; simpl in H; [|discriminate].
    destruct (Array_map callback array) as [ys'|e] eqn:Er; simpl in H; [|discriminate].
    injection H as <-. constructor; [exact Ex | now apply IH].
Qed.

Lemma Array_map_throw {A B} (callback : A -> completion B) array e :
  Array_map callback array = throw e ->
  exists x, In x array /\ callback x = throw e.
Proof.
  induction array as [|x array IH]; intros H; simpl in H; [discriminate|].
  destruct (callback x) as [y|e'] eqn:Ex; simpl in H.
  - destruct (Array_map callback array) as [ys'|e''] eqn:Er; simpl in H; [discriminate|].
    injection H as ->. destruct (IH eq_refl) as (x' & Hx' & Hc).
    exists x'. split; [now right | exact Hc].
  - injection H as ->. exists x. split; [now left | exact Ex].
Qed.

Lemma property_of_None entries k :
  property_of entries k = None <-> ~ In k (List.map fst entries).
Proof.
  induction entries as [|[k' v] entries IH]; simpl; [tauto|].
  destruct (String.eqb k' k) eqn:E.
  - apply String.eqb_eq in E. split; [discriminate | intros H; exfalso; auto].
  - apply String.eqb_neq in E. rewrite IH. tauto.
Qed.

(** A key that is no own property is no key; a property that is not
    enumerable is no key either. *)
Lemma own_property_None o k : own_property o k = None -> ~ In k (Object_keys o).
Proof.
  unfold own_property, Object_keys.
  destruct (property_of (properties o) k) eqn:E; [discriminate|].
  intros _. now apply property_of_None.
Qed.

Lemma own_property_In o k :
  In k (Object_keys o) -> exists v, own_property o k = Some v /\ get o k = v.
Proof.
  intros H. unfold get. destruct (own_property o k) as [v|] eqn:E.
  - now exists v.
  - apply own_property_None in E. contradiction.
Qed.

Lemma fold_set_lookup (f : string -> string) headers : forall acc header,
  header <> "__proto__"%string ->
  In header headers ->
  List.fold_left (fun acc h => set acc h (f h)) headers acc !! header
  = Some (f header).
Proof.
  assert (Hkeep : forall hs (acc : gmap string string) h,
             acc !! h = Some (f h) ->
             List.fold_left (fun acc h => set acc h (f h)) hs acc !! h = Some (f h)).
  { induction hs as [|h' hs IH]; intros acc h Hacc; simpl; [exact Hacc|].
    apply IH. unfold set. destruct (String.eqb h' "__proto__"); [exact Hacc|].
    destruct (decide (h' = h)) as [->|Hne].
    - apply lookup_insert_eq.
    - now rewrite lookup_insert_ne. }
  induction headers as [|h headers IH]; intros acc header Hp Hin; [destruct Hin|].
  simpl. destruct Hin as [-> | Hin]; [|now apply IH].
  apply Hkeep. unfold set.
  destruct (String.eqb header "__proto__") eqn:E.
  - apply String.eqb_eq in E. contradiction.
  - apply lookup_insert_eq.
Qed.

Section WithXlsx.
Context {buffer worksheet : Type} {xlsx : XLSX buffer worksheet}.

Lemma processSheet_inv wb sheetName s :
  processSheet wb sheetName = normal s ->
  exists jsonData,
    sheet_to_json (Sheets wb !! sheetName) = normal jsonData
    /\ s = normalized sheetName jsonData.
Proof.
  unfold processSheet. intros H.
  destruct (sheet_to_json (Sheets wb !! sheetName)) as [jsonData|e]; simpl in H;
    [|discriminate].
  injection H as <-. now exists jsonData.
Qed.

Lemma processExcelFile_cases (buf : buffer) :
  (exists wb sheets,
      xlsx_read buf = normal wb
      /\ Forall2 (fun name s => processSheet wb name = normal s) (SheetNames wb) sheets
      /\ processExcelFile buf
         = {| Result.success := true; Result.data := Some sheets;
              Result.totalSheets := Some (length (SheetNames wb));
              Result.error := None |})
  \/ (exists e,
         processExcelFile buf = failure e
         /\ (xlsx_read buf = throw e
             \/ exists wb name,
                 xlsx_read buf = normal wb /\ In name (SheetNames wb)
                 /\ sheet_to_json (Sheets wb !! name) = throw e)).
Proof.
  unfold processExcelFile, processExcelFile_try.
  destruct (xlsx_read buf) as [wb|e] eqn:Er; simpl.
  - destruct (Array_map (processSheet wb) (SheetNames wb)) as [sheets|e] eqn:Em; simpl.
    + left. exists wb, sheets. split; [reflexivity|].
      split; [now apply Array_map_normal | reflexivity].
    + right. exists e. split; [reflexivity|]. right.
      apply Array_map_throw in Em. destruct Em as (name & Hin & Hc).
      exists wb, name. split; [reflexivity|]. split; [exact Hin|].
      unfold processSheet in Hc.
      destruct (sheet_to_json (Sheets wb !! name)); simpl in Hc;
        [discriminate | now injection Hc as ->].
  - right. exists e. split; [reflexivity | now left].
Qed.

Lemma processExcelFile_sheets (buf : buffer) sheets :
  Result.data (processExcelFile buf) = Some sheets ->
  forall s, In s sheets ->
    exists name jsonData,
      s = normalized name jsonData
      /\ exists w, sheet_to_json w = normal jsonData.
Proof.
  intros Hd s Hs.
  destruct (processExcelFile_cases buf) as [(wb & sheets' & _ & Hall & E) | (e & E & _)];
    rewrite E in Hd; simpl in Hd; [|discriminate].
  injection Hd as ->.
  assert (Hex : exists name, processSheet wb name = normal s).
  { clear E. induction Hall as [|name s' names sheets' Hn Hall IH]; [destruct Hs|].
    destruct Hs as [<- | Hs]; [now exists name | now apply IH]. }
  destruct Hex as (name & Hn). apply processSheet_inv in Hn.
  destruct Hn as (jsonData & Hj & ->). exists name, jsonData.
  split; [reflexivity|]. now exists (Sheets wb !! name).
Qed.

(** C7. [processExcelFile] returns one of two objects.  When the package
    reads the buffer and converts every sheet, it is
    [{success: true, data, totalSheets}] with [totalSheets] the number of
    sheet names and [data] holding, in the order of the sheet names, the
    normalized sheet of each; no sheet names give empty [data] and
    [totalSheets] 0.  Otherwise the package threw, and the object is
    [{success: false, error}] with the message of what was thrown; this is
    so whenever reading the buffer throws. *)
Theorem processExcelFile_two_shapes (buf : buffer) :
  ((exists wb sheets,
       xlsx_read buf = normal wb
       /\ processExcelFile buf = succeeded sheets (length (SheetNames wb))
       /\ length sheets = length (SheetNames wb)
       /\ List.map Sheet.sheetName sheets = SheetNames wb
       /\ Forall2 (fun name s =>
                     exists jsonData,
                       sheet_to_json (Sheets wb !! name) = normal jsonData
                       /\ s = normalized name jsonData)
                  (SheetNames wb) sheets)
   \/ (exists e,
          processExcelFile buf = failure e
          /\ (xlsx_read buf = throw e
              \/ exists wb name,
                  xlsx_read buf = normal wb /\ In name (SheetNames wb)
                  /\ sheet_to_json (Sheets wb !! name) = throw e)))
  /\ (forall e, xlsx_read buf = throw e -> processExcelFile buf = failure e)
  /\ (forall wb, xlsx_read buf = normal wb -> SheetNames wb = [] ->
                 processExcelFile buf = succeeded [] 0).
Proof.
  split; [|split].
  - destruct (processExcelFile_cases buf)
      as [(wb & sheets & Hr & Hall & E) | (e & E & Hwhy)]; [left | right].
    + exists wb, sheets. split; [exact Hr|]. split; [exact E|].
      assert (Hrel : Forall2 (fun name s =>
                                exists jsonData,
                                  sheet_to_json (Sheets wb !! name) = normal jsonData
                                  /\ s = normalized name jsonData)
                             (SheetNames wb) sheets).
      { clear E. induction Hall as [|name s names sheets Hn Hall IH]; constructor.
        - now apply processSheet_inv.
        - exact IH. }
      split; [|split; [|exact Hrel]].
      * clear -Hrel. induction Hrel; simpl; congruence.
      * clear -Hrel. induction Hrel as [|name s names sheets (j & _ & ->) _ IH];
          simpl; congruence.
    + exists e. now split.
  - intros e Hr. unfold processExcelFile, processExcelFile_try.
    now rewrite Hr.
  - intros wb Hr Hnames. unfold processExcelFile, processExcelFile_try.
    rewrite Hr. simpl. now rewrite Hnames.
Qed.

(** C5. In every sheet of a successful result, [rowCount] is the length
    of [data] and [columnCount] the length of [headers]. *)
Theorem counts_match_lengths (buf : buffer) (sheets : list Sheet.t) :
  Result.data (processExcelFile buf) = Some sheets ->
  Forall (fun s => Sheet.rowCount s = length (Sheet.data s)
                   /\ Sheet.columnCount s = length (Sheet.headers s)) sheets.
Proof.
  intros Hd. apply List.Forall_forall. intros s Hs.
  destruct (processExcelFile_sheets buf sheets Hd s Hs) as (name & jsonData & -> & _).
  split; reflexivity.
Qed.

Lemma headers_and_types_of (jsonData : list object) :
  headersOf jsonData = Object_keys (default empty_object (jsonData !! 0%nat))
  /\ (jsonData = [] ->
      headersOf jsonData = []
      /\ columnTypesOf jsonData (headersOf jsonData) = ∅)
  /\ (forall row, jsonData !! 0%nat = Some row ->
        ~ In "__proto__"%string (Object_keys row) ->
        forall header, In header (headersOf jsonData) ->
          exists v, own_property row header = Some v
                    /\ columnTypesOf jsonData (headersOf jsonData) !! header
                       = Some (typeof v)).
Proof.
  split; [reflexivity|]. split; [now intros ->|].
  intros row Hrow Hproto header Hin.
  assert (Hkeys : headersOf jsonData = Object_keys row)
    by (unfold headersOf; now rewrite Hrow).
  rewrite Hkeys in Hin |- *.
  destruct (own_property_In row header Hin) as (v & Hv & Hg).
  exists v. split; [exact Hv|].
  unfold columnTypesOf.
  rewrite (fold_set_lookup (sampleType jsonData)).
  - unfold sampleType. now rewrite Hrow, Hg.
  - intros ->. contradiction.
  - exact Hin.
Qed.

Lemma first_row_decides (rows1 rows2 : list object) :
  rows1 !! 0%nat = rows2 !! 0%nat ->
  headersOf rows1 = headersOf rows2
  /\ columnTypesOf rows1 (headersOf rows1) = columnTypesOf rows2 (headersOf rows2).
Proof.
  intros E.
  destruct rows1 as [|r1 t1], rows2 as [|r2 t2]; simpl in E; try discriminate;
    [split; reflexivity | injection E as ->; split; reflexivity].
Qed.

(** C8. In every sheet of a successful result, [headers] are the keys of
    the first row in their order, and none when there is no row;
    [columnTypes] maps each header to the [typeof] of the first row's
    value under it (the first row, built by the package with assignments
    [row[header] = value], has no key [__proto__]).  Later rows
    play no part: sheets with the same first row have the same [headers]
    and [columnTypes]. *)
Theorem headers_and_types_from_first_row :
  (forall (buf : buffer) (sheets : list Sheet.t),
      Result.data (processExcelFile buf) = Some sheets ->
      Forall (fun s =>
                Sheet.headers s
                = Object_keys (default empty_object (Sheet.data s !! 0%nat))
                /\ (Sheet.data s = [] ->
                    Sheet.headers s = [] /\ Sheet.columnTypes s = ∅)
                /\ (forall row, Sheet.data s !! 0%nat = Some row ->
                      ~ In "__proto__"%string (Object_keys row) ->
                      forall header, In header (Sheet.headers s) ->
                        exists v, own_property row header = Some v
                                  /\ Sheet.columnTypes s !! header
                                     = Some (typeof v)))
             sheets)
  /\ (forall (buf1 buf2 : buffer) (sheets1 sheets2 : list Sheet.t) (s1 s2 : Sheet.t),
         Result.data (processExcelFile buf1) = Some sheets1 ->
         Result.data (processExcelFile buf2) = Some sheets2 ->
         In s1 sheets1 -> In s2 sheets2 ->
         Sheet.data s1 !! 0%nat = Sheet.data s2 !! 0%nat ->
         Sheet.headers s1 = Sheet.headers s2
         /\ Sheet.columnTypes s1 = Sheet.columnTypes s2)
  /\ typeof (VNumber 1) = "number"%string
  /\ typeof (VString "x") = "string"%string
  /\ typeof (VBoolean true) = "boolean"%string
  /\ typeof VUndefined = "undefined"%string.
Proof.
  split; [|split; [|repeat split; reflexivity]].
  - intros buf sheets Hd. apply List.Forall_forall. intros s Hs.
    destruct (processExcelFile_sheets buf sheets Hd s Hs) as (name & jsonData & -> & _).
    cbn [Sheet.data Sheet.headers Sheet.columnTypes]. apply headers_and_types_of.
  - intros buf1 buf2 sheets1 sheets2 s1 s2 Hd1 Hd2 Hs1 Hs2 E.
    destruct (processExcelFile_sheets buf1 sheets1 Hd1 s1 Hs1) as (n1 & j1 & -> & _).
    destruct (processExcelFile_sheets buf2 sheets2 Hd2 s2 Hs2) as (n2 & j2 & -> & _).
    cbn [Sheet.data Sheet.headers Sheet.columnTypes] in *.
    exact (first_row_decides j1 j2 E).
Qed.

End WithXlsx.

(** The setter of [__proto__] at work: a first row with such an own
    property would get the header but no column type for it. *)
Lemma columnTypes_skips_proto :
  headersOf proto_row = ["__proto__"%string]
  /\ columnTypesOf proto_row (headersOf proto_row) = ∅.
Proof. split; reflexivity. Qed.

Lemma counts_match_lengths_witness :
  exists sheets,
    Result.data (processExcelFile two_sheets) = Some sheets
    /\ Forall (fun s => Sheet.rowCount s = length (Sheet.data s)
                        /\ Sheet.columnCount s = length (Sheet.headers s)) sheets.
Proof.
  eexists. split; [reflexivity|].
  apply (counts_match_lengths two_sheets). reflexivity.
Defined.

Lemma headers_and_types_from_first_row_witness :
  exists sheets people,
    Result.data (processExcelFile two_sheets) = Some sheets
    /\ sheets !! 0%nat = Some people
    /\ Sheet.headers people = ["name"; "age"]%string
    /\ exists v, own_property (row 1 [("name", VString "Ada"); ("age", VNumber 36)]%string)
                              "age" = Some v
                 /\ Sheet.columnTypes people !! "age"%string = Some (typeof v).
Proof.
  eexists. eexists. split; [reflexivity|]. split; [reflexivity|].
  pose proof (proj1 headers_and_types_from_first_row two_sheets _ eq_refl) as Hall.
  apply List.Forall_inv in Hall. destruct Hall as (Hheaders & _ & Htypes).
  split; [exact Hheaders|].
  apply (Htypes _ eq_refl).
  - intros [H | [H | []]]; discriminate.
  - right. now left.
Defined.

(** Both shapes, on the stand-in package. *)
Lemma processExcelFile_examples :
  processExcelFile (None : decoded) = failure {| message := "Unsupported file" |}
  /\ processExcelFile (Some [] : decoded) = succeeded [] 0
  /\ Result.totalSheets (processExcelFile two_sheets) = Some 2%nat
  /\ option_map (List.map Sheet.sheetName) (Result.data (processExcelFile two_sheets))
     = Some ["People"; "Empty"]%string
  /\ option_map (List.map Sheet.rowCount) (Result.data (processExcelFile two_sheets))
     = Some [2; 0]%nat.
Proof. repeat split; reflexivity. Qed.

End Processing.

(** ** Least and greatest elements: what [Math.min] and [Math.max] return *)

Module OrderFacts.
Import JS Builtins ExcelProcessor Extremes FloatFacts BuiltinFacts ColumnStatistics.
Local Open Scope float_scope.

Lemma SF_zero_squeeze a b s :
  SFleb a b = true -> SFleb b (S754_zero s) = true ->
  SFeqb a (S754_zero s) = true -> SFeqb b (S754_zero s) = true.
Proof. intros H1 H2 H3. sf_cases. Qed.

Lemma SF_below_zero a s : SFltb a (S754_zero s) = true -> SFeqb a (S754_zero s) = false.
Proof. intros H. sf_cases. Qed.

Lemma SF_above_zero a s : SFltb (S754_zero s) a = true -> SFeqb a (S754_zero s) = false.
Proof. intros H. sf_cases. Qed.

Lemma SF_zero_squeeze_above a b s :
  SFleb b a = true -> SFleb (S754_zero s) b = true ->
  SFeqb a (S754_zero s) = true -> SFeqb b (S754_zero s) = true.
Proof. intros H1 H2 H3. sf_cases. Qed.

Lemma SFeqb_zero_inv a s : SFeqb a (S754_zero s) = true -> exists s', a = S754_zero s'.
Proof. intros H. destruct a as [s'| | |]; try (sf_cases; fail). now exists s'. Qed.

Lemma SF_antisym a b :
  SFleb a b = true -> SFleb b a = true ->
  a = b \/ exists s s', a = S754_zero s /\ b = S754_zero s'.
Proof.
  intros H1 H2.
  destruct a as [sa|sa| |sa ma ea], b as [sb|sb| |sb mb eb];
    try (sf_cases; fail).
  - right. now exists sa, sb.
  - left. destruct sa, sb; try reflexivity; sf_cases.
  - left. unfold SFleb, SFcompare in *.
    change (Pos.compare_cont Eq ma mb) with (Pos.compare ma mb) in *.
    change (Pos.compare_cont Eq mb ma) with (Pos.compare mb ma) in *.
    destruct sa, sb; try discriminate;
      destruct (Z.compare_spec ea eb), (Z.compare_spec eb ea); try lia; try discriminate;
      destruct (Pos.compare_spec ma mb), (Pos.compare_spec mb ma);
      simpl in *; try lia; try discriminate; subst; reflexivity.
Qed.

Lemma zero_value_cases x : is_zero_value x -> x = zero \/ x = neg_zero.
Proof.
  unfold is_zero_value. rewrite FloatAxioms.eqb_spec. intros H.
  apply SFeqb_zero_inv in H. destruct H as ([|] & H); [right | left];
    apply Prim2SF_inj; rewrite H; reflexivity.
Qed.

Lemma zero_squeeze x y :
  (x <=? y) = true -> (y <=? neg_zero) = true -> is_zero_value x -> is_zero_value y.
Proof.
  unfold is_zero_value. rewrite !FloatAxioms.leb_spec, !FloatAxioms.eqb_spec.
  apply SF_zero_squeeze.
Qed.

Lemma zero_squeeze_above x y :
  (y <=? x) = true -> (zero <=? y) = true -> (x =? zero) = true -> (y =? zero) = true.
Proof.
  rewrite !FloatAxioms.leb_spec, !FloatAxioms.eqb_spec.
  apply SF_zero_squeeze_above.
Qed.

Lemma below_zero x : (x <? neg_zero) = true -> (x =? neg_zero) = false.
Proof. rewrite FloatAxioms.ltb_spec, FloatAxioms.eqb_spec. apply SF_below_zero. Qed.

Lemma above_zero x : (zero <? x) = true -> (x =? zero) = false.
Proof. rewrite FloatAxioms.ltb_spec, FloatAxioms.eqb_spec. apply SF_above_zero. Qed.

Lemma leb_antisym x y :
  (x <=? y) = true -> (y <=? x) = true ->
  x = y \/ (is_zero_value x /\ is_zero_value y).
Proof.
  rewrite !FloatAxioms.leb_spec. intros H1 H2.
  destruct (SF_antisym _ _ H1 H2) as [E | (s & s' & E1 & E2)].
  - left. now apply Prim2SF_inj.
  - right. unfold is_zero_value. rewrite !FloatAxioms.eqb_spec, E1, E2.
    split; reflexivity.
Qed.

Lemma Math_min_from_prefers_neg_zero numbers :
  no_nan numbers ->
  forall lowest, is_nan lowest = false ->
  lowest = neg_zero \/ In neg_zero numbers ->
  is_zero_value (Math_min_from lowest numbers) ->
  Math_min_from lowest numbers = neg_zero.
Proof.
  induction numbers as [|number rest IH]; intros Hn lowest Hl Hsrc Hz; simpl in *.
  - destruct Hsrc as [-> | []]. reflexivity.
  - assert (Hnum : is_nan number = false) by (apply Hn; now left).
    assert (Hrest : no_nan rest) by (intros x Hx; apply Hn; now right).
    rewrite Hnum in *.
    set (l1 := if is_neg_zero number && is_pos_zero lowest then neg_zero else lowest) in *.
    set (l2 := if number <? l1 then number else l1) in *.
    assert (Hl1 : is_nan l1 = false).
    { unfold l1. destruct (is_neg_zero number && is_pos_zero lowest); [reflexivity | exact Hl]. }
    assert (Hl2 : is_nan l2 = false).
    { unfold l2. destruct (number <? l1); assumption. }
    destruct (Math_min_from_spec rest Hrest l2 Hl2) as (_ & Hr2 & _).
    apply (IH Hrest l2 Hl2); [|exact Hz].
    destruct Hsrc as [Hlow | [Hnumber | Hin]]; [| |now right]; left.
    + subst lowest.
      assert (El1 : l1 = neg_zero).
      { unfold l1. now destruct (is_neg_zero number && is_pos_zero neg_zero). }
      unfold l2 in *. rewrite El1 in *.
      destruct (number <? neg_zero) eqn:Elt; [|reflexivity]. exfalso.
      assert (Hzn : is_zero_value number).
      { apply (zero_squeeze _ _ Hr2); [now apply ltb_leb | exact Hz]. }
      unfold is_zero_value in Hzn. rewrite (below_zero _ Elt) in Hzn. discriminate.
    + subst number.
      destruct (is_pos_zero lowest) eqn:Ep.
      * assert (El1 : l1 = neg_zero) by (unfold l1; rewrite ?Ep; reflexivity).
        unfold l2. rewrite El1. reflexivity.
      * assert (El1 : l1 = lowest) by (unfold l1; rewrite ?Ep; reflexivity).
        unfold l2 in *. rewrite El1 in *.
        destruct (neg_zero <? lowest) eqn:Elt; [reflexivity|].
        assert (Hle : (lowest <=? neg_zero) = true) by now apply ltb_false_leb.
        destruct (zero_value_cases lowest (zero_squeeze _ _ Hr2 Hle Hz)) as [E | E];
          [|exact E].
        rewrite E in Ep. discriminate.
Qed.

Lemma Math_min_is_minimum numbers :
  numbers <> [] -> no_nan numbers -> is_minimum (Math_min numbers) numbers.
Proof.
  intros Hne Hn. destruct (Math_min_spec numbers Hne Hn) as [Hin Hlow].
  split; [exact Hin|]. split; [exact Hlow|].
  intros Hz Hr. apply Math_min_from_prefers_neg_zero; auto.
Qed.

Lemma is_minimum_unique r r' numbers numbers' :
  (forall x, In x numbers <-> In x numbers') ->
  is_minimum r numbers -> is_minimum r' numbers' -> r = r'.
Proof.
  intros Hsame (Hin & Hlow & Hz) (Hin' & Hlow' & Hz').
  assert (H1 : (r <=? r') = true) by (apply Hlow, Hsame, Hin').
  assert (H2 : (r' <=? r) = true) by (apply Hlow', Hsame, Hin).
  destruct (leb_antisym _ _ H1 H2) as [E | [Zr Zr']]; [exact E|].
  destruct (zero_value_cases r Zr) as [E | E], (zero_value_cases r' Zr') as [E' | E'];
    subst; try reflexivity.
  - apply Hz; [apply Hsame, Hin' | exact Zr].
  - symmetry. apply Hz'; [apply Hsame, Hin | exact Zr'].
Qed.

Lemma Math_max_from_prefers_zero numbers :
  no_nan numbers ->
  forall highest, is_nan highest = false ->
  highest = zero \/ In zero numbers ->
  (Math_max_from highest numbers =? zero) = true ->
  Math_max_from highest numbers = zero.
Proof.
  induction numbers as [|number rest IH]; intros Hn highest Hh Hsrc Hz; simpl in *.
  - destruct Hsrc as [-> | []]. reflexivity.
  - assert (Hnum : is_nan number = false) by (apply Hn; now left).
    assert (Hrest : no_nan rest) by (intros x Hx; apply Hn; now right).
    rewrite Hnum in *.
    set (h1 := if is_pos_zero number && is_neg_zero highest then zero else highest) in *.
    set (h2 := if h1 <? number then number else h1) in *.
    assert (Hh1 : is_nan h1 = false).
    { unfold h1. destruct (is_pos_zero number && is_neg_zero highest); [reflexivity | exact Hh]. }
    assert (Hh2 : is_nan h2 = false).
    { unfold h2. destruct (h1 <? number); assumption. }
    destruct (Math_max_from_spec rest Hrest h2 Hh2) as (_ & Hr2 & _).
    apply (IH Hrest h2 Hh2); [|exact Hz].
    destruct Hsrc as [Hhigh | [Hnumber | Hin]]; [| |now right]; left.
    + subst highest.
      assert (Eh1 : h1 = zero).
      { unfold h1. now destruct (is_pos_zero number && is_neg_zero zero). }
      unfold h2 in *. rewrite Eh1 in *.
      destruct (zero <? number) eqn:Elt; [|reflexivity]. exfalso.
      assert (Hzn : (number =? zero) = true).
      { apply (zero_squeeze_above _ _ Hr2); [now apply ltb_leb | exact Hz]. }
      rewrite (above_zero _ Elt) in Hzn. discriminate.
    + subst number.
      destruct (is_neg_zero highest) eqn:Ep.
      * assert (Eh1 : h1 = zero) by (unfold h1; rewrite ?Ep; reflexivity).
        unfold h2. rewrite Eh1. reflexivity.
      * assert (Eh1 : h1 = highest) by (unfold h1; rewrite ?Ep; reflexivity).
        unfold h2 in *. rewrite Eh1 in *.
        destruct (highest <? zero) eqn:Elt; [reflexivity|].
        assert (Hle : (zero <=? highest) = true) by now apply ltb_false_leb.
        assert (Zh : is_zero_value highest).
        { unfold is_zero_value. rewrite eqb_neg_zero_r.
          now apply (zero_squeeze_above _ _ Hr2 Hle). }
        destruct (zero_value_cases highest Zh) as [E | E]; [exact E|].
        rewrite E in Ep. discriminate.
Qed.

Lemma Math_max_is_maximum numbers :
  numbers <> [] -> no_nan numbers -> is_maximum (Math_max numbers) numbers.
Proof.
  intros Hne Hn. destruct (Math_max_spec numbers Hne Hn) as [Hin Hhigh].
  split; [exact Hin|]. split; [exact Hhigh|].
  intros Hz Hr. apply Math_max_from_prefers_zero; auto.
  unfold is_zero_value in Hr. now rewrite eqb_neg_zero_r in Hr.
Qed.

Lemma is_maximum_unique r r' numbers numbers' :
  (forall x, In x numbers <-> In x numbers') ->
  is_maximum r numbers -> is_maximum r' numbers' -> r = r'.
Proof.
  intros Hsame (Hin & Hhigh & Hz) (Hin' & Hhigh' & Hz').
  assert (H1 : (r <=? r') = true) by (apply Hhigh', Hsame, Hin).
  assert (H2 : (r' <=? r) = true) by (apply Hhigh, Hsame, Hin').
  destruct (leb_antisym _ _ H1 H2) as [E | [Zr Zr']]; [exact E|].
  destruct (zero_value_cases r Zr) as [E | E], (zero_value_cases r' Zr') as [E' | E'];
    subst; try reflexivity.
  - symmetry. apply Hz'; [apply Hsame, Hin | exact Zr'].
  - apply Hz; [apply Hsame, Hin' | exact Zr].
Qed.
End OrderFacts.

(** ** The entries of a [Set] *)

Module SetFacts.
Import JS Builtins ExcelProcessor FloatFacts BuiltinFacts ColumnStatistics Extremes OrderFacts.
Local Open Scope float_scope.

Lemma is_neg_zero_iff n : is_neg_zero n = true <-> n = neg_zero.
Proof. apply FloatAxioms.Leibniz.eqb_spec. Qed.

Lemma normalize_zero_idempotent v : normalize_zero (normalize_zero v) = normalize_zero v.
Proof.
  destruct v as [| | |n| |]; try reflexivity. simpl.
  destruct (is_neg_zero n) eqn:E; [reflexivity|]. simpl. now rewrite E.
Qed.

Lemma eqb_true_cases a b :
  (a =? b) = true -> a = b \/ (is_zero_value a /\ is_zero_value b).
Proof.
  intros H. apply leb_antisym.
  - rewrite FloatAxioms.leb_spec. rewrite FloatAxioms.eqb_spec in H.
    unfold SFleb, SFeqb in *. now destruct (SFcompare _ _) as [[]|].
  - rewrite eqb_sym in H.
    rewrite FloatAxioms.leb_spec. rewrite FloatAxioms.eqb_spec in H.
    unfold SFleb, SFeqb in *. now destruct (SFcompare _ _) as [[]|].
Qed.

Lemma is_nan_eq a : is_nan a = true -> a = nan.
Proof.
  intros H. apply Prim2SF_inj.
  destruct (Prim2SF a) eqn:E; try reflexivity;
    assert (Hn : is_nan a = false) by (apply is_nan_false; rewrite E; discriminate);
    congruence.
Qed.

Lemma normalize_zero_of_zero n : is_zero_value n -> normalize_zero (VNumber n) = VNumber zero.
Proof. intros H. destruct (zero_value_cases n H) as [-> | ->]; reflexivity. Qed.

(** Values that a [Set] identifies are stored as the same entry. *)
Lemma SameValueZero_normalize u v :
  SameValueZero u v = true -> normalize_zero u = normalize_zero v.
Proof.
  destruct u as [| |b|n|s|o], v as [| |b'|n'|s'|o']; simpl; try discriminate; try reflexivity.
  - destruct b, b'; simpl; congruence.
  - rewrite orb_true_iff, andb_true_iff. intros [[Hn Hn'] | H].
    + now rewrite (is_nan_eq _ Hn), (is_nan_eq _ Hn').
    + destruct (eqb_true_cases _ _ H) as [-> | [Z1 Z2]]; [reflexivity|].
      change ((if is_neg_zero n then VNumber zero else VNumber n)
              = (if is_neg_zero n' then VNumber zero else VNumber n'))
        with (normalize_zero (VNumber n) = normalize_zero (VNumber n')).
      now rewrite !normalize_zero_of_zero.
  - rewrite String.eqb_eq. congruence.
  - rewrite object_ref_eqb_eq. congruence.
Qed.

Lemma new_Set_In values u :
  In u (new_Set values) <-> exists v, In v values /\ u = normalize_zero v.
Proof.
  destruct (new_Set_spec values) as (_ & Hcov & Hfrom). split; [apply Hfrom|].
  intros (v & Hv & ->). destruct (Hcov v Hv) as (u & Hu & Huv).
  destruct (Hfrom u Hu) as (w & Hw & Ew).
  apply SameValueZero_normalize in Huv.
  rewrite Ew, normalize_zero_idempotent, <- Ew in Huv. now rewrite <- Huv.
Qed.

Lemma distinct_NoDup entries : distinct entries -> List.NoDup entries.
Proof.
  induction 1 as [|a l Ha Hl IH]; constructor; [|exact IH].
  intros Hin. rewrite List.Forall_forall in Ha.
  specialize (Ha a Hin). rewrite SameValueZero_refl in Ha. discriminate.
Qed.

Lemma new_Set_NoDup values : List.NoDup (new_Set values).
Proof. apply distinct_NoDup, new_Set_spec. Qed.

Lemma new_Set_Permutation values values' :
  Permutation values values' -> Permutation (new_Set values) (new_Set values').
Proof.
  intros Hp. apply Permutation.NoDup_Permutation; try apply new_Set_NoDup.
  intros u. rewrite !new_Set_In. split; intros (v & Hv & E); exists v; split; auto.
  - now apply (Permutation_in _ Hp).
  - now apply (Permutation_in _ (Permutation_sym Hp)).
Qed.

Lemma fold_Set_add_length values : forall entries,
  (length (List.fold_left Set_add values entries) <= length entries + length values)%nat.
Proof.
  induction values as [|v values IH]; intros entries; simpl; [lia|].
  specialize (IH (Set_add entries v)). unfold Set_add in *.
  destruct (List.existsb _ entries); [lia|].
  rewrite List.length_app in IH. simpl in IH. lia.
Qed.

Lemma new_Set_length values : (length (new_Set values) <= length values)%nat.
Proof. apply (fold_Set_add_length values []). Qed.

End SetFacts.

(** ** More about the three functions of excelProcessor.js *)

Module ProcessorFacts.
Import JS Builtins ExcelProcessor Examples FloatFacts BuiltinFacts ColumnStatistics.
Import Extremes OrderFacts SetFacts Processing MoreExamples.

Lemma filter_Permutation {A} (f : A -> bool) l l' :
  Permutation l l' -> Permutation (List.filter f l) (List.filter f l').
Proof.
  induction 1 as [|x l l' Hp IH|x y l|l l' l'' Hp1 IH1 Hp2 IH2]; simpl.
  - constructor.
  - destruct (f x); [now constructor | exact IH].
  - destruct (f x), (f y); try reflexivity. constructor.
  - now transitivity (List.filter f l').
Qed.

Lemma columnValues_Permutation data data' columnName :
  Permutation data data' ->
  Permutation (columnValues data columnName) (columnValues data' columnName).
Proof. intros H. unfold columnValues. now apply filter_Permutation, Permutation_map. Qed.

Lemma columnValues_length data columnName :
  (length (columnValues data columnName) <= length data)%nat.
Proof.
  unfold columnValues.
  etransitivity; [apply List.filter_length_le|]. now rewrite List.length_map.
Qed.

Lemma forallb_Permutation {A} (f : A -> bool) l l' :
  Permutation l l' -> List.forallb f l = List.forallb f l'.
Proof.
  induction 1 as [|x l l' Hp IH|x y l|l l' l'' Hp1 IH1 Hp2 IH2]; simpl.
  - reflexivity.
  - now rewrite IH.
  - now rewrite !andb_assoc, (andb_comm (f y)).
  - congruence.
Qed.

Section WithEngine.
Context {engine : Engine}.

(** The result of [getColumnStatistics], by the tests it makes. *)
Lemma getColumnStatistics_cases data columnName :
  let values := columnValues data columnName in
  (values = [] /\ getColumnStatistics data columnName = normal null)
  \/ (values <> []
      /\ List.forallb (fun val => negb (isNaN val)) values = true
      /\ (length values <= max_arguments)%nat
      /\ getColumnStatistics data columnName
         = normal
             (numeric {| Numeric.min := Math_min (List.map Number values);
                         Numeric.max := Math_max (List.map Number values);
                         Numeric.average :=
                           (reduce_sum (List.map Number values)
                            / Number_of_length (length (List.map Number values)))%float;
                         Numeric.sum := reduce_sum (List.map Number values);
                         Numeric.count := length (List.map Number values) |}))
  \/ (values <> []
      /\ List.forallb (fun val => negb (isNaN val)) values = true
      /\ (max_arguments < length values)%nat
      /\ getColumnStatistics data columnName = throw too_many_arguments)
  \/ (values <> []
      /\ List.forallb (fun val => negb (isNaN val)) values = false
      /\ getColumnStatistics data columnName
         = normal (categorical {| Categorical.uniqueValues := new_Set values;
                                  Categorical.count := length values;
                                  Categorical.type := "categorical" |})).
Proof.
  cbv zeta.
  destruct (columnValues data columnName) as [|v vs] eqn:Ev.
  - left. split; [reflexivity|]. now apply getColumnStatistics_null.
  - right. rewrite <- Ev.
    assert (Hne : columnValues data columnName <> []) by congruence.
    destruct (List.forallb (fun val => negb (isNaN val)) (columnValues data columnName))
      eqn:Hall.
    + destruct (Nat.le_gt_cases (length (columnValues data columnName)) max_arguments)
        as [Hfits | Hmany]; [left | right; left].
      * split; [exact Hne|]. split; [reflexivity|]. split; [exact Hfits|].
        now apply getColumnStatistics_numeric.
      * split; [exact Hne|]. split; [reflexivity|]. split; [exact Hmany|].
        now apply getColumnStatistics_too_many.
    + right. right. split; [exact Hne|]. split; [reflexivity|].
      now apply getColumnStatistics_categorical.
Qed.

(** X1. The counts never exceed what they count: a numeric record counts at
    least one value and at most the rows; a categorical record has at least
    one unique value, no more unique values than values, and no more values
    than rows. *)
Theorem statistics_count_bounds (data : list object) (columnName : string) :
  match getColumnStatistics data columnName with
  | normal null => True
  | normal (numeric s) => (1 <= Numeric.count s <= length data)%nat
  | normal (categorical s) =>
    (1 <= length (Categorical.uniqueValues s))%nat
    /\ (length (Categorical.uniqueValues s) <= Categorical.count s)%nat
    /\ (Categorical.count s <= length data)%nat
  | throw _ => True
  end.
Proof.
  pose proof (columnValues_length data columnName) as Hlen.
  destruct (getColumnStatistics_cases data columnName)
    as [(_ & ->) | [(Hne & _ & _ & ->) | [(_ & _ & _ & ->) | (Hne & _ & ->)]]];
    [exact I| |exact I|];
    cbn [Numeric.count Categorical.count Categorical.uniqueValues].
  - rewrite List.length_map.
    destruct (columnValues data columnName); [congruence | simpl in *; lia].
  - pose proof (new_Set_length (columnValues data columnName)).
    destruct (new_Set_spec (columnValues data columnName)) as (_ & Hcov & _).
    destruct (columnValues data columnName) as [|v vs] eqn:Ev; [congruence|].
    destruct (Hcov v (or_introl eq_refl)) as (u & Hu & _).
    destruct (new_Set (v :: vs)); [destruct Hu|]. simpl in *. lia.
Qed.

(** X2. The order of the rows decides neither the outcome nor [count],
    [min], [max], nor which values are unique: over a permutation of the rows
    the result is of the same kind (or the same error is thrown), with the
    same [count], [min] and [max], and the same unique values up to their
    order. *)
Theorem statistics_row_order (data data' : list object) (columnName : string) :
  Permutation data data' ->
  match getColumnStatistics data columnName, getColumnStatistics data' columnName with
  | normal null, normal null => True
  | normal (numeric s), normal (numeric s') =>
    Numeric.count s = Numeric.count s'
    /\ Numeric.min s = Numeric.min s'
    /\ Numeric.max s = Numeric.max s'
  | normal (categorical s), normal (categorical s') =>
    Categorical.count s = Categorical.count s'
    /\ Permutation (Categorical.uniqueValues s) (Categorical.uniqueValues s')
  | throw e, throw e' => e = e'
  | _, _ => False
  end.
Proof.
  intros Hp.
  pose proof (columnValues_Permutation data data' columnName Hp) as Hv.
  pose proof (forallb_Permutation (fun val => negb (isNaN val)) _ _ Hv) as Hall.
  pose proof (Permutation_length Hv) as Hlen.
  assert (Hnil : columnValues data columnName = [] <-> columnValues data' columnName = []).
  { split; intros E; rewrite E in Hv;
      [now apply Permutation_nil | now apply Permutation_nil, Permutation_sym]. }
  destruct (getColumnStatistics_cases data columnName)
    as [(He & ->) | [(Hne & Hnum & Hfits & ->) | [(Hne & Hnum & Hmany & ->)
                                                 | (Hne & Hcat & ->)]]];
    destruct (getColumnStatistics_cases data' columnName)
      as [(He' & ->) | [(Hne' & Hnum' & Hfits' & ->) | [(Hne' & Hnum' & Hmany' & ->)
                                                       | (Hne' & Hcat' & ->)]]];
    try exact I; try reflexivity; try tauto; try congruence; try lia.
  - cbn [Numeric.count Numeric.min Numeric.max].
    set (numbers := List.map Number (columnValues data columnName)).
    set (numbers' := List.map Number (columnValues data' columnName)).
    assert (Hpn : Permutation numbers numbers') by now apply Permutation_map.
    assert (Hnn : no_nan numbers) by (apply numbers_no_nan; now apply all_numeric_true).
    assert (Hnn' : no_nan numbers') by (apply numbers_no_nan; now apply all_numeric_true).
    assert (Hn : numbers <> []).
    { unfold numbers. destruct (columnValues data columnName); [congruence | discriminate]. }
    assert (Hn' : numbers' <> []).
    { unfold numbers'. destruct (columnValues data' columnName); [congruence | discriminate]. }
    assert (Hsame : forall x, In x numbers <-> In x numbers').
    { intros x. split; [apply (Permutation_in _ Hpn)
                       | apply (Permutation_in _ (Permutation_sym Hpn))]. }
    split; [apply (Permutation_length Hpn)|]. split.
    + apply (is_minimum_unique _ _ numbers numbers' Hsame); now apply Math_min_is_minimum.
    + apply (is_maximum_unique _ _ numbers numbers' Hsame); now apply Math_max_is_maximum.
  - cbn [Categorical.count Categorical.uniqueValues].
    split; [exact Hlen | now apply new_Set_Permutation].
Qed.
End WithEngine.

Lemma statistics_row_order_witness :
  match getColumnStatistics (engine := node) numbers_1_2_3 "c",
        getColumnStatistics (engine := node) (List.rev numbers_1_2_3) "c" with
  | normal (numeric s), normal (numeric s') =>
    Numeric.count s = Numeric.count s'
    /\ Numeric.min s = Numeric.min s'
    /\ Numeric.max s = Numeric.max s'
  | _, _ => False
  end.
Proof.
  pose proof (statistics_row_order (engine := node) numbers_1_2_3
                (List.rev numbers_1_2_3) "c" (Permutation_rev numbers_1_2_3)) as H.
  rewrite (getColumnStatistics_numeric (engine := node) numbers_1_2_3 "c")
    in H |- * by (discriminate || reflexivity || (simpl; lia)).
  rewrite (getColumnStatistics_numeric (engine := node) (List.rev numbers_1_2_3) "c")
    in H |- * by (discriminate || reflexivity || (simpl; lia)).
  exact H.
Defined.

(** Floating-point addition is not associative, so [sum] and [average] do
    depend on the order of the rows. *)
Lemma sum_depends_on_row_order :
  Permutation big_one_minus_big big_minus_big_one
  /\ (exists s, getColumnStatistics (engine := node) big_one_minus_big "c"
                = normal (numeric s)
                /\ Numeric.sum s = 0%float)
  /\ (exists s, getColumnStatistics (engine := node) big_minus_big_one "c"
                = normal (numeric s)
                /\ Numeric.sum s = 1%float).
Proof.
  split; [unfold big_one_minus_big, big_minus_big_one; apply perm_skip, perm_swap|].
  split; eexists;
    (split; [rewrite getColumnStatistics_numeric;
             [reflexivity | discriminate | reflexivity | simpl; lia]
            | reflexivity]).
Qed.

Lemma fold_set_other (f : string -> string) headers : forall acc k,
  ~ In k headers \/ k = "__proto__"%string ->
  List.fold_left (fun acc h => set acc h (f h)) headers acc !! k = acc !! k.
Proof.
  induction headers as [|h headers IH]; intros acc k Hk; [reflexivity|].
  simpl. rewrite IH.
  - unfold set. destruct (String.eqb h "__proto__") eqn:E; [reflexivity|].
    apply lookup_insert_ne. intros ->.
    destruct Hk as [Hk | ->]; [apply Hk; now left|].
    rewrite String.eqb_refl in E. discriminate.
  - destruct Hk as [Hk | ->]; [left; intros Hin; apply Hk; now right | now right].
Qed.

Lemma validateExcelData_normalized (jsonData : list object) :
  let validations := validateExcelData jsonData in
  Validations.hasData validations = (0 <? length jsonData)%nat
  /\ Validations.hasHeaders validations = (0 <? length (headersOf jsonData))%nat
  /\ (Validations.isConsistent validations = true
      <-> forall row, In row jsonData ->
                      length (Object_keys row) = length (headersOf jsonData)).
Proof.
  split; [reflexivity|]. split; [reflexivity|].
  destruct jsonData as [|first [|second rest]].
  - split; [intros _ row [] | reflexivity].
  - split; [|reflexivity]. intros _ row [<- | []]. reflexivity.
  - unfold validateExcelData, headersOf.
    change (1 <? length (first :: second :: rest))%nat with true.
    cbv zeta iota. cbn [Validations.isConsistent].
    rewrite List.forallb_forall. split; intros H row Hrow.
    + now apply Nat.eqb_eq, H.
    + apply Nat.eqb_eq. now apply H.
Qed.

Section WithXlsx.
Context {buffer worksheet : Type} {xlsx : XLSX buffer worksheet}.

(** X3. What [validateExcelData] reports of a processed sheet is what its
    counts say: data iff [rowCount > 0], headers iff [columnCount > 0], consistent
    iff every row has [columnCount] keys. *)
Theorem validation_matches_counts (buf : buffer) (sheets : list Sheet.t) :
  Result.data (processExcelFile buf) = Some sheets ->
  Forall (fun s =>
            let validations := validateExcelData (Sheet.data s) in
            Validations.hasData validations = (0 <? Sheet.rowCount s)%nat
            /\ Validations.hasHeaders validations = (0 <? Sheet.columnCount s)%nat
            /\ (Validations.isConsistent validations = true
                <-> forall row, In row (Sheet.data s) ->
                                length (Object_keys row) = Sheet.columnCount s))
         sheets.
Proof.
  intros Hd. apply List.Forall_forall. intros s Hs.
  destruct (processExcelFile_sheets buf sheets Hd s Hs) as (name & jsonData & -> & _).
  apply validateExcelData_normalized.
Qed.

(** X4. [columnTypes] has an entry for headers only: a key the first row lacks
    is no header and has no column type, whatever later rows hold. *)
Theorem column_types_only_for_headers (buf : buffer) (sheets : list Sheet.t) :
  Result.data (processExcelFile buf) = Some sheets ->
  Forall (fun s =>
            (forall k, ~ In k (Sheet.headers s) -> Sheet.columnTypes s !! k = None)
            /\ Sheet.columnTypes s !! "__proto__"%string = None
            /\ (forall k first,
                   Sheet.data s !! 0%nat = Some first ->
                   own_property first k = None ->
                   ~ In k (Sheet.headers s) /\ Sheet.columnTypes s !! k = None))
         sheets.
Proof.
  intros Hd. apply List.Forall_forall. intros s Hs.
  destruct (processExcelFile_sheets buf sheets Hd s Hs) as (name & jsonData & -> & _).
  cbn [Sheet.data Sheet.headers Sheet.columnTypes].
  assert (Hout : forall k, ~ In k (headersOf jsonData) \/ k = "__proto__"%string ->
                           columnTypesOf jsonData (headersOf jsonData) !! k = None).
  { intros k Hk. unfold columnTypesOf.
    rewrite (fold_set_other (sampleType jsonData) _ _ _ Hk). apply lookup_empty. }
  split; [intros k Hk; apply Hout; now left|]. split; [apply Hout; now right|].
  intros k first Hfirst Hown.
  assert (Hk : ~ In k (headersOf jsonData)).
  { destruct jsonData as [|r rest]; [discriminate|].
    injection Hfirst as ->. now apply own_property_None. }
  split; [exact Hk | apply Hout; now left].
Qed.

(** X5. When a sheet cannot be converted, the error reported is that of the
    first such sheet in the order of the sheet names, and no sheet is
    returned. *)
Theorem first_failing_sheet_reported
  (buf : buffer) (wb : workbook worksheet) (before after : list string)
  (name : string) (e : Error) :
  xlsx_read buf = normal wb ->
  SheetNames wb = before ++ name :: after ->
  (forall n, In n before -> exists rows, sheet_to_json (Sheets wb !! n) = normal rows) ->
  sheet_to_json (Sheets wb !! name) = throw e ->
  processExcelFile buf = failure e.
Proof.
  intros Hr Hnames Hbefore Hthrow.
  unfold processExcelFile, processExcelFile_try. rewrite Hr. simpl. rewrite Hnames.
  assert (Hname : processSheet wb name = throw e).
  { unfold processSheet. now rewrite Hthrow. }
  assert (Hmap : Array_map (processSheet wb) (before ++ name :: after) = throw e).
  { clear Hnames. induction before as [|n before IH]; cbn [Array_map app].
    - now rewrite Hname.
    - destruct (Hbefore n (or_introl eq_refl)) as (rows & Hrows).
      assert (Hn : processSheet wb n = normal (normalized n rows)).
      { unfold processSheet. now rewrite Hrows. }
      rewrite Hn, IH; [reflexivity|]. intros m Hm. apply Hbefore. now right. }
  rewrite Hmap. reflexivity.
Qed.

End WithXlsx.

Lemma validation_matches_counts_witness :
  exists sheets,
    Result.data (processExcelFile two_sheets) = Some sheets
    /\ Forall (fun s => Validations.hasData (validateExcelData (Sheet.data s))
                        = (0 <? Sheet.rowCount s)%nat) sheets.
Proof.
  eexists. split; [reflexivity|].
  eapply List.Forall_impl; [|apply (validation_matches_counts two_sheets); reflexivity].
  intros s H. exact (proj1 H).
Defined.

Lemma column_types_only_for_headers_witness :
  exists sheets,
    Result.data (processExcelFile two_sheets) = Some sheets
    /\ Forall (fun s => Sheet.columnTypes s !! "__proto__"%string = None) sheets.
Proof.
  eexists. split; [reflexivity|].
  eapply List.Forall_impl; [|apply (column_types_only_for_headers two_sheets); reflexivity].
  intros s H. exact (proj1 (proj2 H)).
Defined.

Lemma first_failing_sheet_reported_witness :
  processExcelFile (xlsx := strict_xlsx) two_sheets = failure {| message := "Empty sheet" |}.
Proof.
  eapply (first_failing_sheet_reported (xlsx := strict_xlsx) two_sheets _
            ["People"%string] [] "Empty"%string).
  - reflexivity.
  - reflexivity.
  - intros n [<- | []]. eexists. reflexivity.
  - reflexivity.
Defined.
End ProcessorFacts.

(** ** The upload route *)

Module UploadFacts.
Import JS Builtins ExcelProcessor Examples ColumnStatistics Processing.
Import ProcessorFacts ExcelRoutes UploadExamples.

Lemma fold_Columns_set_lookup (f : string -> statistics) headers : forall acc header,
  header <> "__proto__"%string ->
  In header headers ->
  Columns.own (List.fold_left (fun acc h => Columns.set acc h (f h)) headers acc) !! header
  = Some (f header).
Proof.
  assert (Hkeep : forall hs acc h,
             h <> "__proto__"%string ->
             Columns.own acc !! h = Some (f h) ->
             Columns.own (List.fold_left (fun acc h => Columns.set acc h (f h)) hs acc) !! h
             = Some (f h)).
  { induction hs as [|h' hs IH]; intros acc h Hp Hacc; simpl; [exact Hacc|].
    apply IH; [exact Hp|]. unfold Columns.set.
    destruct (String.eqb h' "__proto__") eqn:E.
    - apply String.eqb_eq in E. subst h'.
      destruct (Columns.proto acc); simpl; try exact Hacc.
      now rewrite lookup_insert_ne.
    - simpl. destruct (decide (h' = h)) as [->|Hne].
      + apply lookup_insert_eq.
      + now rewrite lookup_insert_ne. }
  induction headers as [|h headers IH]; intros acc header Hp Hin; [destruct Hin|].
  simpl. destruct Hin as [-> | Hin]; [|now apply IH].
  apply Hkeep; [exact Hp|]. unfold Columns.set.
  destruct (String.eqb header "__proto__") eqn:E.
  - apply String.eqb_eq in E. contradiction.
  - simpl. apply lookup_insert_eq.
Qed.

Lemma fold_Columns_set_other (f : string -> statistics) headers : forall acc k,
  ~ In k headers ->
  Columns.own (List.fold_left (fun acc h => Columns.set acc h (f h)) headers acc) !! k
  = Columns.own acc !! k.
Proof.
  induction headers as [|h headers IH]; intros acc k Hk; [reflexivity|].
  simpl. rewrite IH by (intros Hin; apply Hk; now right).
  assert (Hne : h <> k) by (intros ->; apply Hk; now left).
  unfold Columns.set. destruct (String.eqb h "__proto__").
  - destruct (Columns.proto acc); simpl; try reflexivity.
    now rewrite lookup_insert_ne.
  - simpl. now rewrite lookup_insert_ne.
Qed.

(** A reduction that sets one property per header: it ends normally when
    the value of every header does, and throws what the first header
    throws otherwise. *)
Lemma Array_reduce_set (g : string -> completion statistics) headers : forall acc,
  ((forall h, In h headers -> exists value, g h = normal value)
   /\ Array_reduce (fun acc h => value ← g h; normal (Columns.set acc h value))
                   headers acc
      = normal (List.fold_left
                  (fun acc h =>
                     Columns.set acc h match g h with
                                       | normal value => value
                                       | throw _ => null
                                       end)
                  headers acc))
  \/ (exists h e,
         In h headers /\ g h = throw e
         /\ Array_reduce (fun acc h => value ← g h; normal (Columns.set acc h value))
                         headers acc
            = throw e).
Proof.
  induction headers as [|h headers IH]; intros acc.
  - left. split; [intros h [] | reflexivity].
  - cbn [Array_reduce List.fold_left]. destruct (g h) as [value|e] eqn:Eh.
    + cbn [mbind completion_bind].
      destruct (IH (Columns.set acc h value)) as [[Hall Hr] | (h' & e & Hin & Hg & Hr)].
      * left. split; [|exact Hr].
        intros k [<- | Hk]; [now exists value | now apply Hall].
      * right. exists h', e. split; [now right|]. now split.
    + right. exists h, e. split; [now left|]. now split.
Qed.

Lemma Array_map_cases {A B} (callback : A -> completion B) array :
  (exists ys, Array_map callback array = normal ys
              /\ Forall2 (fun x y => callback x = normal y) array ys)
  \/ (exists x e, In x array /\ callback x = throw e
                  /\ Array_map callback array = throw e).
Proof.
  destruct (Array_map callback array) as [ys|e] eqn:E.
  - left. exists ys. split; [reflexivity | now apply Array_map_normal].
  - right. destruct (Array_map_throw _ _ _ E) as (x & Hx & Hc). now exists x, e.
Qed.

Lemma Forall2_In_l {A B} (R : A -> B -> Prop) l l' x :
  Forall2 R l l' -> In x l -> exists y, In y l' /\ R x y.
Proof.
  induction 1 as [|a b l l' Hab Hrest IH]; intros Hin; [destruct Hin|].
  destruct Hin as [<- | Hin].
  - exists b. split; [now left | exact Hab].
  - destruct (IH Hin) as (y & Hy & Hr). exists y. split; [now right | exact Hr].
Qed.

Section WithModels.
Context {engine : Engine}.
Context {buffer worksheet : Type} {xlsx : XLSX buffer worksheet}.
Context {U O D Doc DB : Type} {excelFiles : ExcelFiles U O D Doc DB}.

(** A successful result carries its sheets. *)
Lemma processExcelFile_success (buf : buffer) :
  Result.success (processExcelFile buf) = true ->
  exists sheets,
    Result.data (processExcelFile buf) = Some sheets
    /\ Result.totalSheets (processExcelFile buf) = Some (length sheets).
Proof.
  intros Hs.
  destruct (processExcelFile_cases buf) as [(wb & sheets & _ & Hall & E) | (e & E & _)];
    rewrite E in Hs |- *; simpl in *; [|discriminate].
  exists sheets. split; [reflexivity|]. f_equal.
  clear -Hall. induction Hall; simpl; congruence.
Qed.

Lemma processExcelFile_failure (buf : buffer) :
  Result.success (processExcelFile buf) = false ->
  exists e, processExcelFile buf = failure e.
Proof.
  intros Hs.
  destruct (processExcelFile_cases buf) as [(wb & sheets & _ & _ & E) | (e & E & _)];
    rewrite E in Hs; simpl in *; [discriminate | now exists e].
Qed.

(** The only error of [getColumnStatistics] is the engine's. *)
Lemma getColumnStatistics_throw data columnName e :
  getColumnStatistics data columnName = throw e -> e = too_many_arguments.
Proof.
  destruct (getColumnStatistics_cases data columnName)
    as [(_ & ->) | [(_ & _ & _ & ->) | [(_ & _ & _ & ->) | (_ & _ & ->)]]];
    intros H; try discriminate. now injection H.
Qed.

(** The statistics of a sheet: a property for each header when every
    column has its statistics; what the first failing column throws
    otherwise. *)
Lemma sheetStatistics_cases (sheet : Sheet.t) :
  ((forall header, In header (Sheet.headers sheet) ->
      exists value, getColumnStatistics (Sheet.data sheet) header = normal value)
   /\ sheetStatistics sheet
      = normal
          {| SheetStatistics.sheetName := Sheet.sheetName sheet;
             SheetStatistics.columns :=
               List.fold_left
                 (fun acc header =>
                    Columns.set acc header
                                match getColumnStatistics (Sheet.data sheet) header with
                                | normal value => value
                                | throw _ => null
                                end)
                 (Sheet.headers sheet) Columns.empty |})
  \/ (exists header,
         In header (Sheet.headers sheet)
         /\ getColumnStatistics (Sheet.data sheet) header = throw too_many_arguments
         /\ sheetStatistics sheet = throw too_many_arguments).
Proof.
  unfold sheetStatistics, sheetColumns.
  destruct (Array_reduce_set (getColumnStatistics (Sheet.data sheet))
                             (Sheet.headers sheet) Columns.empty)
    as [[Hall Hr] | (header & e & Hin & Hg & Hr)]; rewrite Hr.
  - left. split; [exact Hall | reflexivity].
  - right. exists header. pose proof (getColumnStatistics_throw _ _ _ Hg) as ->.
    now repeat split.
Qed.

(** The five ways [upload] ends. *)
Lemma upload_cases (now : D) (req : upload_request buffer U) (db : DB) :
  (file req = None
   /\ upload now req db = ({| status := 400; body := message_body "No file uploaded" |}, db))
  \/ (exists f e,
         file req = Some f
         /\ processExcelFile (file_buffer f) = failure e
         /\ upload now req db
            = ({| status := 400;
                  body := error_body "Error processing file" (Some (message e)) |}, db))
  \/ (exists f sheets e db',
         file req = Some f
         /\ Result.data (processExcelFile (file_buffer f)) = Some sheets
         /\ save (new_ExcelFile (user_userId req) (originalname f) (Some sheets) now) db
            = (throw e, db')
         /\ upload now req db
            = ({| status := 500;
                  body := error_body "Error processing file" (Some (message e)) |}, db'))
  \/ (exists f sheets document db' sheet header,
         file req = Some f
         /\ Result.data (processExcelFile (file_buffer f)) = Some sheets
         /\ save (new_ExcelFile (user_userId req) (originalname f) (Some sheets) now) db
            = (normal document, db')
         /\ In sheet sheets /\ In header (Sheet.headers sheet)
         /\ getColumnStatistics (Sheet.data sheet) header = throw too_many_arguments
         /\ upload now req db
            = ({| status := 500;
                  body := error_body "Error processing file"
                                     (Some (message too_many_arguments)) |}, db'))
  \/ (exists f sheets document db' statistics,
         file req = Some f
         /\ Result.data (processExcelFile (file_buffer f)) = Some sheets
         /\ save (new_ExcelFile (user_userId req) (originalname f) (Some sheets) now) db
            = (normal document, db')
         /\ Forall2 (fun sheet s => sheetStatistics sheet = normal s) sheets statistics
         /\ upload now req db
            = ({| status := 200;
                  body := uploaded_body
                            {| Uploaded._id := document_id document;
                               Uploaded.fileName := document_fileName document;
                               Uploaded.uploadDate := document_uploadDate document;
                               Uploaded.userId := document_user document;
                               Uploaded.sheets := Some sheets;
                               Uploaded.validations := List.map sheetValidation sheets;
                               Uploaded.statistics := statistics;
                               Uploaded.totalSheets := Some (length sheets) |} |},
               db')).
Proof.
  unfold upload. destruct (file req) as [f|]; [|now left]. right.
  destruct (Result.success (processExcelFile (file_buffer f))) eqn:Hs; simpl.
  - right. destruct (processExcelFile_success _ Hs) as (sheets & Hd & Ht).
    rewrite Hd, Ht.
    destruct (save _ db) as [[document|e] db'] eqn:Hsave; [right | left].
    + destruct (Array_map_cases sheetStatistics sheets)
        as [(statistics & Hm & Hall) | (sheet & e & Hin & Hc & Hm)]; rewrite Hm;
        [right | left].
      * now exists f, sheets, document, db', statistics.
      * destruct (sheetStatistics_cases sheet) as [[_ Hr] | (header & Hh & Hg & Hr)];
          rewrite Hr in Hc; [discriminate|]. injection Hc as <-.
        now exists f, sheets, document, db', sheet, header.
    + now exists f, sheets, e, db'.
  - left. destruct (processExcelFile_failure _ Hs) as (e & He).
    exists f, e. rewrite He. now split.
Qed.

(** X6. The last handler of [POST /upload] answers 400 exactly when there
    is no file or the file cannot be processed, and then nothing is saved:
    the database is as it was, and the body carries what the package threw.
    It answers 500 exactly when saving throws, or when the document is
    saved and the statistics of a column throw after that; either way the
    database is as [save] left it and the body carries the message of what
    was thrown.  It answers 200 otherwise. *)
Theorem upload_status_codes (now : D) (req : upload_request buffer U) (db : DB) :
  let response := fst (upload now req db) in
  let db' := snd (upload now req db) in
  (status response = 400%nat
   <-> file req = None
       \/ exists f, file req = Some f
                    /\ Result.success (processExcelFile (file_buffer f)) = false)
  /\ (status response = 400%nat -> db' = db)
  /\ (forall f e, file req = Some f -> xlsx_read (file_buffer f) = throw e ->
                  response = {| status := 400;
                                body := error_body "Error processing file"
                                                   (Some (message e)) |})
  /\ (status response = 500%nat
      <-> exists f sheets,
          file req = Some f
          /\ Result.data (processExcelFile (file_buffer f)) = Some sheets
          /\ let saved :=
               save (new_ExcelFile (user_userId req) (originalname f) (Some sheets) now)
                    db in
             ((exists e, fst saved = throw e)
              \/ ((exists document, fst saved = normal document)
                  /\ exists sheet header e,
                      In sheet sheets /\ In header (Sheet.headers sheet)
                      /\ getColumnStatistics (Sheet.data sheet) header = throw e)))
  /\ (status response = 500%nat ->
      exists f sheets e,
        file req = Some f
        /\ Result.data (processExcelFile (file_buffer f)) = Some sheets
        /\ let saved :=
             save (new_ExcelFile (user_userId req) (originalname f) (Some sheets) now)
                  db in
           db' = snd saved
           /\ body response = error_body "Error processing file" (Some (message e))
           /\ (fst saved = throw e
               \/ ((exists document, fst saved = normal document)
                   /\ e = too_many_arguments)))
  /\ (status response = 200%nat \/ status response = 400%nat
      \/ status response = 500%nat).
Proof.
  cbv zeta.
  assert (Hok : forall f sheets,
             Result.data (processExcelFile (file_buffer f)) = Some sheets ->
             Result.success (processExcelFile (file_buffer f)) = true).
  { intros f sheets Hd.
    destruct (Result.success (processExcelFile (file_buffer f))) eqn:E; [reflexivity|].
    destruct (processExcelFile_failure _ E) as (e' & He'). rewrite He' in Hd.
    discriminate. }
  assert (Hread : forall f sheets e,
             Result.data (processExcelFile (file_buffer f)) = Some sheets ->
             xlsx_read (file_buffer f) = throw e -> False).
  { intros f sheets e Hd Hr. apply Hok in Hd.
    unfold processExcelFile, processExcelFile_try in Hd. rewrite Hr in Hd.
    discriminate. }
  destruct (upload_cases now req db)
    as [(Hf & ->)
       | [(f & e & Hf & Hp & ->)
         | [(f & sheets & e & db' & Hf & Hd & Hs & ->)
           | [(f & sheets & doc & db' & sheet & header & Hf & Hd & Hs & Hin & Hh & Hg & ->)
             | (f & sheets & doc & db' & statistics & Hf & Hd & Hs & Hall & ->)]]]];
    cbn [fst snd status body].
  - split; [split; [now left | reflexivity]|]. split; [reflexivity|].
    split; [intros f e Hf'; congruence|].
    split; [split; [discriminate | intros (f & ? & Hf' & _); congruence]|].
    split; [discriminate | now right; left].
  - split; [split; [|reflexivity]|].
    { intros _. right. exists f. split; [exact Hf|]. now rewrite Hp. }
    split; [reflexivity|]. split.
    { intros f' e' Hf' Hr. assert (f' = f) by congruence. subst f'.
      unfold processExcelFile, processExcelFile_try in Hp. rewrite Hr in Hp.
      simpl in Hp. unfold failure in Hp. injection Hp as Hm. now rewrite Hm. }
    split; [split; [discriminate|]|].
    { intros (f' & sheets & Hf' & Hd & _).
      assert (f' = f) by congruence. subst f'. rewrite Hp in Hd. discriminate. }
    split; [discriminate | now right; left].
  - split; [split; [discriminate|]|].
    { intros [Hn | (f' & Hf' & Hbad)]; [congruence|].
      assert (f' = f) by congruence. subst f'. rewrite (Hok f sheets Hd) in Hbad.
      discriminate. }
    split; [discriminate|]. split.
    { intros f' e' Hf' Hr. assert (f' = f) by congruence. subst f'.
      destruct (Hread f sheets e' Hd Hr). }
    split; [split; [|reflexivity]|].
    { intros _. exists f, sheets. split; [exact Hf|]. split; [exact Hd|].
      left. exists e. now rewrite Hs. }
    split; [|now right; right].
    intros _. exists f, sheets, e. split; [exact Hf|]. split; [exact Hd|].
    rewrite Hs. split; [reflexivity|]. split; [reflexivity | now left].
  - split; [split; [discriminate|]|].
    { intros [Hn | (f' & Hf' & Hbad)]; [congruence|].
      assert (f' = f) by congruence. subst f'. rewrite (Hok f sheets Hd) in Hbad.
      discriminate. }
    split; [discriminate|]. split.
    { intros f' e' Hf' Hr. assert (f' = f) by congruence. subst f'.
      destruct (Hread f sheets e' Hd Hr). }
    split; [split; [|reflexivity]|].
    { intros _. exists f, sheets. split; [exact Hf|]. split; [exact Hd|].
      right. rewrite Hs. split; [now exists doc|].
      now exists sheet, header, too_many_arguments. }
    split; [|now right; right].
    intros _. exists f, sheets, too_many_arguments.
    split; [exact Hf|]. split; [exact Hd|].
    rewrite Hs. split; [reflexivity|]. split; [reflexivity|].
    right. split; [now exists doc | reflexivity].
  - split; [split; [discriminate|]|].
    { intros [Hn | (f' & Hf' & Hbad)]; [congruence|].
      assert (f' = f) by congruence. subst f'. rewrite (Hok f sheets Hd) in Hbad.
      discriminate. }
    split; [discriminate|]. split.
    { intros f' e' Hf' Hr. assert (f' = f) by congruence. subst f'.
      destruct (Hread f sheets e' Hd Hr). }
    split; [split; [discriminate|]|].
    { intros (f' & sheets' & Hf' & Hd' & Hwhy).
      assert (f' = f) by congruence. subst f'.
      assert (sheets' = sheets) by congruence. subst sheets'.
      cbv zeta in Hwhy. rewrite Hs in Hwhy.
      destruct Hwhy as [(e & He) | (_ & sheet & header & e & Hin & Hh & Hg)];
        [discriminate|].
      destruct (Forall2_In_l _ _ _ _ Hall Hin) as (s & _ & Hsheet).
      destruct (sheetStatistics_cases sheet) as [[Hnormal _] | (h & _ & _ & Hr)].
      - destruct (Hnormal header Hh) as (value & Hvalue). congruence.
      - rewrite Hr in Hsheet. discriminate. }
    split; [discriminate | now left].
Qed.

Lemma upload_ok_inv (now : D) (req : upload_request buffer U) (db : DB)
      (uploaded : Uploaded.t U O D) :
  body (fst (upload now req db)) = uploaded_body uploaded ->
  exists f sheets,
    file req = Some f
    /\ Result.data (processExcelFile (file_buffer f)) = Some sheets
    /\ Uploaded.sheets uploaded = Some sheets
    /\ Uploaded.totalSheets uploaded = Some (length sheets)
    /\ Uploaded.validations uploaded = List.map sheetValidation sheets
    /\ Forall2 (fun sheet s => sheetStatistics sheet = normal s)
               sheets (Uploaded.statistics uploaded).
Proof.
  destruct (upload_cases now req db)
    as [(Hf & ->)
       | [(f & e & Hf & Hp & ->)
         | [(f & sheets & e & db' & Hf & Hd & Hs & ->)
           | [(f & sheets & doc & db' & sheet & header & Hf & Hd & Hs & Hin & Hh & Hg & ->)
             | (f & sheets & doc & db' & statistics & Hf & Hd & Hs & Hall & ->)]]]];
    cbn [fst body]; intros H; try discriminate.
  injection H as <-. exists f, sheets. repeat split; assumption.
Qed.

Lemma Forall2_map_r {A B} (R : A -> B -> Prop) (g : A -> B) l :
  (forall x, In x l -> R x (g x)) -> Forall2 R l (List.map g l).
Proof.
  induction l as [|x l IH]; intros H; simpl; constructor.
  - apply H. now left.
  - apply IH. intros y Hy. apply H. now right.
Qed.

Lemma Forall2_impl_In {A B} (R R' : A -> B -> Prop) l l' :
  (forall x y, In x l -> R x y -> R' x y) -> Forall2 R l l' -> Forall2 R' l l'.
Proof.
  intros H. induction 1 as [|a b l l' Hab Hrest IH]; constructor.
  - apply H; [now left | exact Hab].
  - apply IH. intros x y Hx. apply H. now right.
Qed.

(** X7. A successful upload reports on every sheet, in order and under its
    name: [totalSheets] is their number; each validation entry says what the
    sheet's counts say; each statistics entry has, for every header, the
    statistics of that column over the sheet's rows, and nothing for other
    keys. *)
Theorem upload_reports_every_sheet
  (now : D) (req : upload_request buffer U) (db : DB) (uploaded : Uploaded.t U O D) :
  body (fst (upload now req db)) = uploaded_body uploaded ->
  exists sheets,
    Uploaded.sheets uploaded = Some sheets
    /\ Uploaded.totalSheets uploaded = Some (length sheets)
    /\ Forall2 (fun sheet v =>
                  SheetValidation.sheetName v = Sheet.sheetName sheet
                  /\ SheetValidation.hasData v = (0 <? Sheet.rowCount sheet)%nat
                  /\ SheetValidation.hasHeaders v = (0 <? Sheet.columnCount sheet)%nat
                  /\ (SheetValidation.isConsistent v = true
                      <-> forall row, In row (Sheet.data sheet) ->
                            length (Object_keys row) = Sheet.columnCount sheet))
               sheets (Uploaded.validations uploaded)
    /\ Forall2 (fun sheet s =>
                  SheetStatistics.sheetName s = Sheet.sheetName sheet
                  /\ (forall header,
                         In header (Sheet.headers sheet) ->
                         header <> "__proto__"%string ->
                         exists value,
                           getColumnStatistics (Sheet.data sheet) header = normal value
                           /\ Columns.own (SheetStatistics.columns s) !! header
                              = Some value)
                  /\ (forall k, ~ In k (Sheet.headers sheet) ->
                                Columns.own (SheetStatistics.columns s) !! k = None))
               sheets (Uploaded.statistics uploaded).
Proof.
  intros Hb.
  destruct (upload_ok_inv now req db uploaded Hb)
    as (f & sheets & Hf & Hd & Hsheets & Htotal & Hv & Hs).
  exists sheets. split; [exact Hsheets|]. split; [exact Htotal|].
  rewrite Hv. split.
  - apply Forall2_map_r; intros sheet Hin.
    destruct (processExcelFile_sheets _ sheets Hd sheet Hin) as (name & jsonData & -> & _).
    split; [reflexivity|]. apply (validateExcelData_normalized jsonData).
  - eapply Forall2_impl_In; [|exact Hs]. intros sheet s Hin Hsheet. cbv beta in Hsheet.
    destruct (sheetStatistics_cases sheet) as [[Hnormal Hr] | (h & _ & _ & Hr)];
      rewrite Hr in Hsheet; [|discriminate].
    injection Hsheet as <-. cbn [SheetStatistics.sheetName SheetStatistics.columns].
    split; [reflexivity|]. split.
    + intros header Hh Hp. destruct (Hnormal header Hh) as (value & Hvalue).
      exists value. split; [exact Hvalue|].
      rewrite (fold_Columns_set_lookup
                 (fun h => match getColumnStatistics (Sheet.data sheet) h with
                           | normal value => value
                           | throw _ => null
                           end)) by assumption.
      now rewrite Hvalue.
    + intros k Hk.
      now rewrite (fold_Columns_set_other
                     (fun h => match getColumnStatistics (Sheet.data sheet) h with
                               | normal value => value
                               | throw _ => null
                               end)).
Qed.

(** X8. In a successful upload every header whose cell in the first row is
    not [undefined] gets statistics that are not [null], counting at least
    that cell and at most the sheet's rows. *)
Theorem upload_first_row_cells_have_statistics
  (now : D) (req : upload_request buffer U) (db : DB) (uploaded : Uploaded.t U O D) :
  body (fst (upload now req db)) = uploaded_body uploaded ->
  exists sheets,
    Uploaded.sheets uploaded = Some sheets
    /\ Forall2 (fun sheet s =>
                  forall first header v,
                    Sheet.data sheet !! 0%nat = Some first ->
                    In header (Object_keys first) ->
                    own_property first header = Some v ->
                    v <> VUndefined ->
                    header <> "__proto__"%string ->
                    match Columns.own (SheetStatistics.columns s) !! header with
                    | Some (numeric n) =>
                      (1 <= Numeric.count n <= Sheet.rowCount sheet)%nat
                    | Some (categorical c) =>
                      (1 <= Categorical.count c <= Sheet.rowCount sheet)%nat
                    | _ => False
                    end)
               sheets (Uploaded.statistics uploaded).
Proof.
  intros Hb.
  destruct (upload_ok_inv now req db uploaded Hb)
    as (f & sheets & Hf & Hd & Hsheets & Htotal & Hv & Hs).
  exists sheets. split; [exact Hsheets|].
  eapply Forall2_impl_In; [|exact Hs].
  intros sheet s Hin Hsheet first header v Hfirst Hkey Hown Hv' Hp.
  cbv beta in Hsheet.
  destruct (sheetStatistics_cases sheet) as [[Hnormal Hr] | (h & _ & _ & Hr)];
    rewrite Hr in Hsheet; [|discriminate].
  injection Hsheet as <-. cbn [SheetStatistics.columns].
  destruct (processExcelFile_sheets _ sheets Hd sheet Hin) as (name & jsonData & -> & _).
  unfold normalized in *. cbn [Sheet.data Sheet.rowCount Sheet.headers] in *.
  assert (Hh : In header (headersOf jsonData)).
  { destruct jsonData as [|r rest]; [discriminate|]. injection Hfirst as ->.
    exact Hkey. }
  rewrite (fold_Columns_set_lookup
             (fun h => match getColumnStatistics jsonData h with
                       | normal value => value
                       | throw _ => null
                       end)) by assumption.
  destruct (Hnormal header Hh) as (value & Hvalue). rewrite Hvalue.
  assert (Hval : In v (columnValues jsonData header)).
  { apply columnValues_In. split; [exact Hv'|]. exists first. split.
    - destruct jsonData as [|r rest]; [discriminate|]. injection Hfirst as ->. now left.
    - unfold get. now rewrite Hown. }
  pose proof (columnValues_length jsonData header) as Hlen.
  destruct (getColumnStatistics_cases jsonData header)
    as [(He & _) | [(Hne & _ & _ & Hr') | [(_ & _ & _ & Hr') | (Hne & _ & Hr')]]].
  - rewrite He in Hval. destruct Hval.
  - rewrite Hr' in Hvalue. injection Hvalue as <-.
    cbn [Numeric.count]. rewrite List.length_map.
    destruct (columnValues jsonData header); [congruence | simpl in *; lia].
  - rewrite Hr' in Hvalue. discriminate.
  - rewrite Hr' in Hvalue. injection Hvalue as <-.
    cbn [Categorical.count].
    destruct (columnValues jsonData header); [congruence | simpl in *; lia].
Qed.
End WithModels.

Lemma upload_status_codes_witness :
  fst (upload (engine := node) 5%nat upload_unreadable [])
  = {| status := 400;
       body := error_body "Error processing file" (Some "Unsupported file"%string) |}.
Proof.
  exact (proj1 (proj2 (proj2 (upload_status_codes (engine := node) 5%nat
                                                  upload_unreadable [])))
               {| file_buffer := None; originalname := "notes.txt" |}
               {| message := "Unsupported file" |} eq_refl eq_refl).
Defined.

(** A sheet of 130000 rows is saved, and then answered with 500. *)
Lemma upload_long_column :
  status (fst (upload (engine := node) 5%nat upload_long [])) = 500%nat
  /\ body (fst (upload (engine := node) 5%nat upload_long []))
     = error_body "Error processing file"
                  (Some "Maximum call stack size exceeded"%string)
  /\ length (snd (upload (engine := node) 5%nat upload_long [])) = 1%nat.
Proof. vm_compute. repeat split. Qed.

Lemma upload_reports_every_sheet_witness :
  exists uploaded sheets,
    body (fst (upload (engine := node) 5%nat upload_two_sheets []))
    = uploaded_body uploaded
    /\ Uploaded.sheets uploaded = Some sheets
    /\ Uploaded.totalSheets uploaded = Some (length sheets)
    /\ length sheets = 2%nat.
Proof.
  eexists. eexists.
  split; [vm_compute; reflexivity|].
  match goal with
  | |- Uploaded.sheets ?u = _ /\ _ =>
    assert (Hb : body (fst (upload (engine := node) 5%nat upload_two_sheets []))
                 = uploaded_body u)
      by (vm_compute; reflexivity);
    destruct (upload_reports_every_sheet (engine := node) 5%nat upload_two_sheets [] u Hb)
      as (sheets & Hs & Ht & _)
  end.
  injection Hs as <-. split; [reflexivity|]. split; [exact Ht | reflexivity].
Defined.

Lemma upload_first_row_cells_have_statistics_witness :
  exists uploaded s,
    body (fst (upload (engine := node) 5%nat upload_two_sheets []))
    = uploaded_body uploaded
    /\ Uploaded.statistics uploaded !! 0%nat = Some s
    /\ match Columns.own (SheetStatistics.columns s) !! "age"%string with
       | Some (numeric n) => (1 <= Numeric.count n <= 2)%nat
       | Some (categorical c) => (1 <= Categorical.count c <= 2)%nat
       | _ => False
       end.
Proof.
  eexists. eexists.
  split; [vm_compute; reflexivity|]. split; [reflexivity|].
  match goal with
  | |- context [SheetStatistics.columns ?s] =>
    destruct (upload_first_row_cells_have_statistics
                (engine := node) 5%nat upload_two_sheets []
                {| Uploaded._id := 1%nat; Uploaded.fileName := "people.xlsx";
                   Uploaded.uploadDate := 5%nat; Uploaded.userId := "u1"%string;
                   Uploaded.sheets := Result.data (processExcelFile two_sheets);
                   Uploaded.validations :=
                     List.map sheetValidation
                              (default [] (Result.data (processExcelFile two_sheets)));
                   Uploaded.statistics := [s; {| SheetStatistics.sheetName := "Empty";
                                                 SheetStatistics.columns := Columns.empty |}];
                   Uploaded.totalSheets := Some 2%nat |})
      as (sheets & Hs & Hall); [vm_compute; reflexivity|]
  end.
  injection Hs as <-.
  apply List.Forall2_cons_iff in Hall. destruct Hall as [Hpeople _].
  exact (Hpeople _ "age"%string (VNumber 36) eq_refl
                 ltac:(right; now left) eq_refl
                 ltac:(discriminate) ltac:(discriminate)).
Defined.
End UploadFacts.

(** ** The admin middleware *)

Module AdminAuthFacts.
Import AdminAuth AdminAuthExamples.

Lemma prefix_true_iff (p s : string) :
  String.prefix p s = true <-> exists t, s = (p ++ t)%string.
Proof.
  revert s; induction p as [|c p IH]; intros s.
  - split; [intros _; now exists s | intros _; now destruct s].
  - destruct s as [|d s]; cbn [String.prefix].
    + split; [discriminate | intros [t Ht]; discriminate].
    + destruct (ascii_dec c d) as [->|Hne].
      * rewrite IH. split; intros [t Ht]; exists t.
        -- cbn [String.append]. now rewrite Ht.
        -- cbn [String.append] in Ht. now injection Ht.
      * split; [discriminate | intros [t Ht]].
        cbn [String.append] in Ht. injection Ht as E _. now destruct Hne.
Qed.

Lemma substring_all (s : string) : String.substring 0 (String.length s) s = s.
Proof. induction s as [|c s IH]; simpl; congruence. Qed.

Lemma substring_after (p t : string) :
  String.substring (String.length p)
                   (String.length (p ++ t) - String.length p) (p ++ t)%string = t.
Proof.
  induction p as [|c p IH].
  - cbn [String.length String.append]. rewrite Nat.sub_0_r. apply substring_all.
  - cbn [String.length String.append String.substring]. exact IH.
Qed.

Lemma String_replace_found (p r s : string) :
  String.prefix p s = true ->
  String_replace p r s =
  (r ++ String.substring (String.length p) (String.length s - String.length p) s)%string.
Proof. intros Hp. destruct s; cbn [String_replace]; rewrite Hp; reflexivity. Qed.

Lemma String_replace_prefix (p r t : string) :
  String_replace p r (p ++ t) = (r ++ t)%string.
Proof.
  rewrite String_replace_found by (apply prefix_true_iff; now exists t).
  now rewrite substring_after.
Qed.

(** [replace] replaces the first occurrence of the pattern, and returns the
    string itself when there is none. *)
Lemma String_replace_spec (p r s : string) :
  (exists a b, s = (a ++ p ++ b)%string /\
               (forall a' b', s = (a' ++ p ++ b')%string ->
                              (String.length a <= String.length a')%nat) /\
               String_replace p r s = (a ++ r ++ b)%string)
  \/ ((forall a b, s <> (a ++ p ++ b)%string) /\ String_replace p r s = s).
Proof.
  induction s as [|c s IH].
  - destruct (String.prefix p "") eqn:Hp.
    + left. apply prefix_true_iff in Hp as [t Ht]. exists ""%string, t.
      split; [exact Ht|]. split; [intros; simpl; lia|].
      transitivity (String_replace p r (p ++ t)); [now rewrite <- Ht|].
      exact (String_replace_prefix p r t).
    + right. split.
      * intros a b E. destruct a; [|discriminate]. simpl in E.
        assert (String.prefix p "" = true) by (apply prefix_true_iff; now exists b).
        congruence.
      * destruct p; simpl in *; congruence.
  - destruct (String.prefix p (String c s)) eqn:Hp.
    + left. apply prefix_true_iff in Hp as [t Ht]. exists ""%string, t.
      split; [exact Ht|]. split; [intros; simpl; lia|].
      transitivity (String_replace p r (p ++ t)); [now rewrite <- Ht|].
      exact (String_replace_prefix p r t).
    + assert (Hstep : String_replace p r (String c s) = String c (String_replace p r s)).
      { destruct p; cbn [String_replace]; rewrite Hp; reflexivity. }
      assert (Hhead : forall a b, String c s = (a ++ p ++ b)%string ->
                exists a', a = String c a' /\ s = (a' ++ p ++ b)%string).
      { intros a b E. destruct a as [|d a].
        - simpl in E.
          assert (String.prefix p (String c s) = true)
            by (apply prefix_true_iff; now exists b).
          congruence.
        - simpl in E. injection E as -> ->. now exists a. }
      destruct IH as [(a & b & Es & Hmin & Er) | [Hnone Er]].
      * left. exists (String c a), b. split; [now rewrite Es|]. split.
        -- intros a' b' E. destruct (Hhead _ _ E) as (a'' & -> & E').
           simpl. apply le_n_S. exact (Hmin _ _ E').
        -- rewrite Hstep, Er. reflexivity.
      * right. split.
        -- intros a b E. destruct (Hhead _ _ E) as (a' & _ & E'). exact (Hnone _ _ E').
        -- rewrite Hstep, Er. reflexivity.
Qed.

Lemma String_replace_absent (p r s : string) :
  (forall a b, s <> (a ++ p ++ b)%string) -> String_replace p r s = s.
Proof.
  intros Hnone. destruct (String_replace_spec p r s) as [(a & b & E & _) | [_ E]].
  - now destruct (Hnone a b).
  - exact E.
Qed.

Section WithEnv.
Context {Decoded UserId User : Type} {env : AdminAuthEnv Decoded UserId User}.

Lemma strict_not_equal_string_false (v : JS.value) (s : string) :
  strict_not_equal_string v s = false <-> v = JS.VString s.
Proof.
  destruct v; simpl; try (split; [discriminate | intros E; discriminate]).
  rewrite negb_false_iff, String.eqb_eq. split; congruence.
Qed.

(** X9. The middleware calls [next] exactly when the header holds a token
    that is not empty once the first "Bearer " is removed, the token
    verifies, the user it names is found, and that user's role is "admin".
    It answers 403 exactly when all of this holds but the role; it answers
    500 exactly when verifying or looking the user up throws something that
    is not a [JsonWebTokenError]; every other answer is 401. *)
Theorem adminAuth_outcomes (authorization : option string) :
  let token := option_map (String_replace "Bearer " "") authorization in
  (forall decoded,
     adminAuth authorization = next decoded <->
     exists t user,
       token = Some t /\ t <> ""%string /\
       jwt_verify t JWT_SECRET = normal decoded /\
       User_findById (decoded_userId decoded) = normal (Some user) /\
       user_role user = JS.VString "admin") /\
  (forall message,
     adminAuth authorization = respond 403 message <->
     exists t decoded user,
       token = Some t /\ t <> ""%string /\
       jwt_verify t JWT_SECRET = normal decoded /\
       User_findById (decoded_userId decoded) = normal (Some user) /\
       user_role user <> JS.VString "admin" /\
       message = "Access denied. Admin only."%string) /\
  (forall message,
     adminAuth authorization = respond 500 message <->
     exists t error,
       token = Some t /\ t <> ""%string /\
       (jwt_verify t JWT_SECRET = throw error \/
        exists decoded, jwt_verify t JWT_SECRET = normal decoded /\
                        User_findById (decoded_userId decoded) = throw error) /\
       instanceof_JsonWebTokenError error = false /\
       message = "Server error"%string) /\
  (forall status message,
     adminAuth authorization = respond status message ->
     status = 401%nat \/ status = 403%nat \/ status = 500%nat).
Proof.
  intros token. unfold adminAuth, adminAuth_try. fold token.
  destruct token as [t|].
  2:{ repeat split; try discriminate; try (intros (? & ? & ?); intuition discriminate);
      try (intros (? & ? & ? & ?); intuition discriminate).
      intros ? ? E; injection E as <- _; auto. }
  destruct t as [|c t].
  { repeat split; try discriminate;
      try (intros (? & ? & E & Hne & _); injection E as <-; now destruct Hne);
      try (intros (? & ? & ? & E & Hne & _); injection E as <-; now destruct Hne).
    intros ? ? E; injection E as <- _; auto. }
  set (tok := String c t).
  assert (Hne : tok <> ""%string) by discriminate.
  cbn [mbind completion_bind].
  destruct (jwt_verify tok JWT_SECRET) as [decoded|error] eqn:Hv; cbn.
  2:{ destruct (instanceof_JsonWebTokenError error) eqn:Hi; repeat split;
        try discriminate;
        try (intros (? & ? & E & _ & E' & _); injection E as <-; congruence);
        try (intros (? & ? & ? & E & _ & E' & _); injection E as <-; congruence).
      - intros (? & e & E & _ & [E' | (? & E' & _)] & Hi' & _); injection E as <-;
          congruence.
      - intros ? ? E; injection E as <- _; auto.
      - intros E; injection E as <-. exists tok, error. auto.
      - intros (? & e & E & _ & _ & _ & ->). reflexivity.
      - intros ? ? E; injection E as <- _; auto. }
  destruct (User_findById (decoded_userId decoded)) as [[user|]|error] eqn:Hf; cbn.
  - destruct (strict_not_equal_string (user_role user) "admin") eqn:Hr.
    + assert (Hrole : user_role user <> JS.VString "admin").
      { intros E. apply strict_not_equal_string_false in E. congruence. }
      repeat split; try discriminate.
      * intros (? & u & E & _ & E1 & E2 & E3). injection E as <-.
        rewrite Hv in E1. injection E1 as <-. rewrite Hf in E2. injection E2 as <-.
        contradiction.
      * intros E; injection E as <-. exists tok, decoded, user. auto 7.
      * intros (? & ? & ? & _ & _ & _ & _ & _ & ->). reflexivity.
      * intros (? & e & E & _ & [E' | (d & E1 & E2)] & _); injection E as <-;
          [congruence|]. rewrite Hv in E1. injection E1 as <-. congruence.
      * intros ? ? E; injection E as <- _; auto.
    + apply strict_not_equal_string_false in Hr.
      repeat split; try discriminate.
      * intros E; injection E as <-. exists tok, user. auto.
      * intros (? & u & E & _ & E1 & _). injection E as <-. congruence.
      * intros (? & d & u & E & _ & E1 & E2 & E3 & _). injection E as <-.
        rewrite Hv in E1. injection E1 as <-. rewrite Hf in E2. injection E2 as <-.
        contradiction.
      * intros (? & e & E & _ & [E' | (d & E1 & E2)] & _); injection E as <-;
          [congruence|]. rewrite Hv in E1. injection E1 as <-. congruence.
  - repeat split; try discriminate.
    + intros (? & u & E & _ & E1 & E2 & _). injection E as <-.
      rewrite Hv in E1. injection E1 as <-. congruence.
    + intros (? & d & u & E & _ & E1 & E2 & _). injection E as <-.
      rewrite Hv in E1. injection E1 as <-. congruence.
    + intros (? & e & E & _ & [E' | (d & E1 & E2)] & _); injection E as <-;
        [congruence|]. rewrite Hv in E1. injection E1 as <-. congruence.
    + intros ? ? E; injection E as <- _; auto.
  - destruct (instanceof_JsonWebTokenError error) eqn:Hi; repeat split;
      try discriminate;
      try (intros (? & u & E & _ & E1 & E2 & _); injection E as <-;
           rewrite Hv in E1; injection E1 as <-; congruence);
      try (intros (? & d & u & E & _ & E1 & E2 & _); injection E as <-;
           rewrite Hv in E1; injection E1 as <-; congruence).
    + intros (? & e & E & _ & [E' | (d & E1 & E2)] & Hi' & _); injection E as <-;
        [congruence|]. rewrite Hv in E1. injection E1 as <-. congruence.
    + intros ? ? E; injection E as <- _; auto.
    + intros E; injection E as <-. exists tok, error. eauto 8.
    + intros (? & e & E & _ & _ & _ & ->). reflexivity.
    + intros ? ? E; injection E as <- _; auto.
Qed.

(** X10. The scheme is optional: a token that does not itself contain
    "Bearer " is treated alike with and without the prefix. *)
Theorem bearer_prefix_is_optional (t : string) :
  (forall a b, t <> (a ++ "Bearer " ++ b)%string) ->
  adminAuth (Some ("Bearer " ++ t)%string) = adminAuth (Some t).
Proof.
  intros Hnone. unfold adminAuth, adminAuth_try. cbn [option_map].
  rewrite (String_replace_prefix "Bearer " "" t).
  rewrite (String_replace_absent "Bearer " "" t Hnone). reflexivity.
Qed.
End WithEnv.

Lemma append_length (a b : string) :
  String.length (a ++ b) = (String.length a + String.length b)%nat.
Proof. induction a as [|c a IH]; simpl; [reflexivity | now rewrite IH]. Qed.

Lemma adminAuth_outcomes_witness : adminAuth (Some "Bearer good"%string) = next "root"%string.
Proof.
  apply (proj1 (adminAuth_outcomes (Some "Bearer good"%string))).
  exists "good"%string, "admin"%string. repeat split. discriminate.
Defined.

Lemma bearer_prefix_is_optional_witness :
  adminAuth (Some "Bearer good"%string) = adminAuth (Some "good"%string).
Proof.
  apply (bearer_prefix_is_optional "good"). intros a b E.
  apply (f_equal String.length) in E. rewrite !append_length in E.
  simpl in E. lia.
Defined.
End AdminAuthFacts.

(** ** The check of the email's format *)

Module AuthFacts.
Import RegExp AuthRoutes AuthExamples.

Lemma end_of_input_spec input : end_of_input input = true <-> input = [].
Proof. destruct input; simpl; split; congruence. Qed.

Lemma char_spec c k input :
  char c k input = true <-> exists rest, input = c :: rest /\ k rest = true.
Proof.
  destruct input as [|x rest]; simpl.
  - split; [discriminate | intros (? & ? & _); discriminate].
  - rewrite andb_true_iff, N.eqb_eq. split.
    + intros [-> Hk]. now exists rest.
    + intros (rest' & E & Hk). injection E as -> ->. now split.
Qed.

(** [class+] takes a non-empty run of code units of the class. *)
Lemma plus_spec class k input :
  plus class k input = true
  <-> exists run rest,
      input = run ++ rest /\ run <> [] /\ Forall (fun c => class c = true) run
      /\ k rest = true.
Proof.
  induction input as [|x input IH]; simpl.
  - split; [discriminate|]. intros (run & rest & E & Hne & _).
    destruct run; [congruence | discriminate].
  - rewrite andb_true_iff, orb_true_iff, IH. split.
    + intros [Hx [(run & rest & -> & _ & Hrun & Hk) | Hk]].
      * exists (x :: run), rest. repeat split; [discriminate | now constructor | exact Hk].
      * exists [x], input. repeat split; [discriminate | now repeat constructor | exact Hk].
    + intros (run & rest & E & Hne & Hrun & Hk).
      destruct run as [|y run]; [congruence|]. injection E as -> ->.
      inversion Hrun as [|? ? Hy Hrun']; subst. split; [exact Hy|].
      destruct run as [|z run]; [now right|]. left.
      exists (z :: run), rest. repeat split; [discriminate | exact Hrun' | exact Hk].
Qed.

(** The pattern reads as it is written. *)
Lemma emailRegex_test_parts email :
  emailRegex_test email = true
  <-> exists name host tail,
      email = name ++ at_sign :: host ++ full_stop :: tail
      /\ part name /\ part host /\ part tail.
Proof.
  unfold emailRegex_test, part. rewrite plus_spec. split.
  - intros (name & r1 & -> & Hn & Hname & H1).
    apply char_spec in H1 as (r2 & -> & H2).
    apply plus_spec in H2 as (host & r3 & -> & Hh & Hhost & H3).
    apply char_spec in H3 as (r4 & -> & H4).
    apply plus_spec in H4 as (tail & r5 & -> & Ht & Htail & H5).
    apply end_of_input_spec in H5 as ->. rewrite app_nil_r.
    exists name, host, tail. tauto.
  - intros (name & host & tail & -> & [Hn Hname] & [Hh Hhost] & [Ht Htail]).
    exists name, (at_sign :: host ++ full_stop :: tail).
    repeat split; try assumption.
    apply char_spec. eexists. split; [reflexivity|].
    apply plus_spec. exists host, (full_stop :: tail). repeat split; try assumption.
    apply char_spec. eexists. split; [reflexivity|].
    apply plus_spec. exists tail, []. rewrite app_nil_r. repeat split; assumption.
Qed.

Lemma not_space_or_at_true c :
  not_space_or_at c = true <-> is_white_space c = false /\ c <> at_sign.
Proof.
  unfold not_space_or_at. rewrite negb_true_iff, orb_false_iff, N.eqb_neq. tauto.
Qed.

Lemma part_iff run :
  part run
  <-> run <> [] /\ Forall (fun c => is_white_space c = false) run /\ ~ In at_sign run.
Proof.
  unfold part. rewrite !List.Forall_forall. split.
  - intros [Hne Hall]. split; [exact Hne|]. split.
    + intros c Hc. now apply not_space_or_at_true, Hall.
    + intros Hin. now apply Hall, not_space_or_at_true in Hin.
  - intros (Hne & Hws & Hat). split; [exact Hne|]. intros c Hc.
    apply not_space_or_at_true. split; [now apply Hws|]. now intros ->.
Qed.

(** X11. The check accepts exactly the strings without white space that have
    one [@], something before it, and after it a full stop that is neither
    the first nor the last code unit of what follows the [@]. *)
Theorem accepted_emails (email : list code_unit) :
  emailRegex_test email = true
  <-> Forall (fun c => is_white_space c = false) email
      /\ count_occ N.eq_dec email at_sign = 1%nat
      /\ exists name host,
          email = name ++ at_sign :: host
          /\ name <> []
          /\ exists before after,
              host = before ++ full_stop :: after /\ before <> [] /\ after <> [].
Proof.
  rewrite emailRegex_test_parts. split.
  - intros (name & host & tail & -> & Hname & Hhost & Htail).
    apply part_iff in Hname as (Hn & Wn & An).
    apply part_iff in Hhost as (Hh & Wh & Ah).
    apply part_iff in Htail as (Ht & Wt & At).
    split; [|split].
    + apply List.Forall_app. split; [exact Wn|]. constructor; [reflexivity|].
      apply List.Forall_app. split; [exact Wh|]. constructor; [reflexivity | exact Wt].
    + rewrite count_occ_app. cbn [count_occ].
      destruct (N.eq_dec at_sign at_sign) as [_|Hne]; [|now destruct Hne].
      rewrite count_occ_app. cbn [count_occ].
      destruct (N.eq_dec full_stop at_sign) as [E|_]; [discriminate|].
      apply (@count_occ_not_In code_unit N.eq_dec) in An, Ah, At. lia.
    + exists name, (host ++ full_stop :: tail). repeat split; [exact Hn|].
      now exists host, tail.
  - intros (Hws & Hcount & name & host & -> & Hn & before & after & -> & Hb & Ha).
    rewrite count_occ_app in Hcount. cbn [count_occ] in Hcount.
    destruct (N.eq_dec at_sign at_sign) as [_|Hne]; [|now destruct Hne].
    rewrite count_occ_app in Hcount. cbn [count_occ] in Hcount.
    destruct (N.eq_dec full_stop at_sign) as [E|_]; [discriminate|].
    assert (An : ~ In at_sign name)
      by (apply (@count_occ_not_In code_unit N.eq_dec); lia).
    assert (Ab : ~ In at_sign before)
      by (apply (@count_occ_not_In code_unit N.eq_dec); lia).
    assert (Aa : ~ In at_sign after)
      by (apply (@count_occ_not_In code_unit N.eq_dec); lia).
    apply List.Forall_app in Hws as [Wn Hws]. apply List.Forall_cons_iff in Hws as [_ Hws].
    apply List.Forall_app in Hws as [Wb Hws]. apply List.Forall_cons_iff in Hws as [_ Wa].
    exists name, before, after. split; [reflexivity|].
    rewrite !part_iff. tauto.
Qed.

(** What the check lets through all the same: a full stop next to the [@]
    or at the end of the name, and full stops in a row. *)
Lemma accepted_emails_examples :
  emailRegex_test (code_units "ada@example.com") = true
  /\ emailRegex_test (code_units "ada.@.example..com") = true
  /\ emailRegex_test (code_units "ada@example") = false
  /\ emailRegex_test (code_units "ada@example.") = false
  /\ emailRegex_test (code_units "ada@.com") = false
  /\ emailRegex_test (code_units "ada@@example.com") = false
  /\ emailRegex_test (code_units "ada lovelace@example.com") = false
  /\ emailRegex_test (code_units "ada@example.com ") = false.
Proof. repeat split; vm_compute; reflexivity. Qed.
End AuthFacts.
